(** * Flipkart scraper: a shallow embedding of [scrapers/flipkart_scraper.py]

    The development follows the Python source function by function.

    - Python [str] values are lists of Unicode code points ([pystr]).
    - Python [int] values are unbounded [Z]; [float] values are IEEE-754
      binary64 numbers in the Standard Library's [spec_float].
    - A [dict] with string keys is a [gmap string _].
    - Code that can raise returns a [res]: [Ok v] or [Raise e].
    - The parsed page is the tree BeautifulSoup hands to the scraper:
      elements ([Tag]), text ([NavigableString]) and the strings that are
      not text ([Comment]: comments, declarations, and the contents of
      script and style elements).
    - What the interpreter and the libraries compute from tables or from
      the outside world is gathered in the class [Runtime]: the salted
      string hash, Unicode case mapping and decimal digits, the HTML
      parser and the HTML serialiser, and the interpreter's limit on the
      number of digits [int] converts.  [Concrete.runtime] is a concrete
      instance, used to evaluate the scraper on explicit pages. *)

From Stdlib Require Import ZArith NArith Ascii String List Lia.
From Stdlib Require Import Floats.SpecFloat.
From stdpp Require Import base option list gmap strings.

Local Open Scope Z_scope.

(** ** Python values *)

(** A [str]: the sequence of its code points. *)
Abbreviation pystr := (list N).

(** An ASCII literal as a [str]. *)
Definition u (s : string) : pystr :=
  map N_of_ascii (list_ascii_of_string s).

(** U+20B9 INDIAN RUPEE SIGN and U+2605 BLACK STAR. *)
Definition RUPEE : N := 8377%N.
Definition STAR : N := 9733%N.

Inductive exn := ValueError | TypeError | ZeroDivisionError | OverflowError.

Inductive res (E A : Type) :=
| Ok (a : A)
| Raise (e : E).
Arguments Ok {E A} a.
Arguments Raise {E A} e.

#[global] Instance res_ret {E} : MRet (res E) := fun _ a => Ok a.
#[global] Instance res_bind {E} : MBind (res E) := fun _ _ k m =>
  match m with
  | Ok a => k a
  | Raise e => Raise e
  end.

(** [str.isspace] on one code point; also the class [\s] of [re] and the
    separator of [str.split()] and [str.strip()]. *)
Definition isspace (c : N) : bool :=
  ((9 <=? c) && (c <=? 13) || (28 <=? c) && (c <=? 32)
   || (c =? 133) || (c =? 160) || (c =? 5760)
   || (8192 <=? c) && (c <=? 8202)
   || (c =? 8232) || (c =? 8233) || (c =? 8239) || (c =? 8287)
   || (c =? 12288))%N.

Fixpoint lstrip (s : pystr) : pystr :=
  match s with
  | c :: s' => if isspace c then lstrip s' else s
  | [] => []
  end.

(** [s.strip()] *)
Definition strip (s : pystr) : pystr := rev (lstrip (rev (lstrip s))).

(** [s.startswith(p)] *)
Fixpoint startswith (p s : pystr) : bool :=
  match p, s with
  | [], _ => true
  | a :: p', b :: s' => (a =? b)%N && startswith p' s'
  | _ :: _, [] => false
  end.

(** [p in s] for two strings: [p] occurs in [s]. *)
Fixpoint contains (p s : pystr) : bool :=
  startswith p s ||
  match s with
  | [] => false
  | _ :: s' => contains p s'
  end.

(** [s.replace(',', '')] *)
Definition remove_commas (s : pystr) : pystr :=
  filter (fun c => c <> 44%N) s.

(** [s.split()]: the maximal runs of non-space characters. *)
Fixpoint split_ws_aux (cur : pystr) (s : pystr) : list pystr :=
  match s with
  | [] => match cur with [] => [] | _ => [rev cur] end
  | c :: s' =>
      if isspace c
      then match cur with
           | [] => split_ws_aux [] s'
           | _ => rev cur :: split_ws_aux [] s'
           end
      else split_ws_aux (c :: cur) s'
  end.

Definition split (s : pystr) : list pystr := split_ws_aux [] s.

(** [sep.join(l)] *)
Fixpoint join (sep : pystr) (l : list pystr) : pystr :=
  match l with
  | [] => []
  | [x] => x
  | x :: l' => x ++ sep ++ join sep l'
  end.

(** [str(n)] for an [int]. *)
Definition digit_char (d : Z) : N := (48 + Z.to_N d)%N.

Fixpoint str_of_pos_aux (fuel : nat) (n : Z) (acc : pystr) : pystr :=
  match fuel with
  | O => acc
  | S fuel' =>
      if n <? 10 then digit_char n :: acc
      else str_of_pos_aux fuel' (n / 10) (digit_char (n mod 10) :: acc)
  end.

Definition str_of_int (n : Z) : pystr :=
  if n <? 0
  then 45%N :: str_of_pos_aux (S (Z.to_nat (Z.log2 (- n)))) (- n) []
  else str_of_pos_aux (S (Z.to_nat (Z.log2 n))) n [].

(** ** Floats: IEEE-754 binary64 *)

Definition Z2SF (z : Z) : spec_float :=
  match z with
  | Z0 => S754_zero false
  | Zpos p => S754_finite false p 0
  | Zneg p => S754_finite true p 0
  end.

(** [a / b] on two ints: the float nearest to the exact quotient. *)
Definition int_truediv (a b : Z) : res exn spec_float :=
  if b =? 0 then Raise ZeroDivisionError
  else match SFdiv 53 1024 (Z2SF a) (Z2SF b) with
       | S754_infinity _ | S754_nan => Raise OverflowError
       | f => Ok f
       end.

(** [x * n] for a float [x] and an int [n]. *)
Definition float_mul_int (x : spec_float) (n : Z) : spec_float :=
  SFmul 53 1024 x (binary_normalize 53 1024 n 0 false).

(** [m / d] rounded to the nearest integer, ties to the even one. *)
Definition round_half_even (m d : Z) : Z :=
  let q := m / d in
  let r := m mod d in
  match 2 * r ?= d with
  | Lt => q
  | Gt => q + 1
  | Eq => if Z.even q then q else q + 1
  end.

(** [round(x)] with one argument. *)
Definition py_round (x : spec_float) : res exn Z :=
  match x with
  | S754_zero _ => Ok 0
  | S754_finite s m e =>
      let v := match e with
               | Zneg k => round_half_even (Zpos m) (Z.shiftl 1 (Zpos k))
               | _ => Z.shiftl (Zpos m) e
               end in
      Ok (if s then - v else v)
  | S754_infinity _ => Raise OverflowError
  | S754_nan => Raise ValueError
  end.

(** The float of mantissa [m] and exponent [e], for [m] not negative:
    [m * 2 ^ e], and zero for [m = 0]. *)
Definition nonneg_float (m e : Z) : spec_float :=
  match m with
  | Zpos p => S754_finite false p e
  | _ => S754_zero false
  end.

(** ** Regular expressions: the fragment of [re] the scraper uses

    Every pattern of the source is a sequence of single-character classes,
    each taken once, or under a greedy [*] or [+]; at most one capturing
    group encloses some of them.  [search] scans start positions from the
    left and backtracks from the longest repetition, as [re.search] does.
    A match is represented by the text of its group 1 (empty when the
    pattern has no group); the source reads nothing else from a match. *)
Module Re.

Inductive quant := One | Star | Plus.

Record item := Item {
  i_cls : N -> bool;
  i_quant : quant;
  i_group : bool
}.

Definition pattern := list item.

(** A greedy repetition of the class [cls], longest first, each time
    followed by the rest of the pattern; [g] collects the characters of
    the group, last first. *)
Fixpoint greedy (cls : N -> bool) (in_group : bool)
    (rest : pystr -> pystr -> option pystr) (s g : pystr) : option pystr :=
  match s with
  | c :: s' =>
      if cls c
      then match greedy cls in_group rest s' (if in_group then c :: g else g) with
           | Some r => Some r
           | None => rest s g
           end
      else rest s g
  | [] => rest [] g
  end.

(** The pattern matched at the start of [s]. *)
Fixpoint match_here (p : pattern) : pystr -> pystr -> option pystr :=
  match p with
  | [] => fun _ g => Some (rev g)
  | it :: p' =>
      let rest := match_here p' in
      fun s g =>
        match i_quant it with
        | One =>
            match s with
            | c :: s' =>
                if i_cls it c
                then rest s' (if i_group it then c :: g else g)
                else None
            | [] => None
            end
        | Star => greedy (i_cls it) (i_group it) rest s g
        | Plus =>
            match s with
            | c :: s' =>
                if i_cls it c
                then greedy (i_cls it) (i_group it) rest s'
                       (if i_group it then c :: g else g)
                else None
            | [] => None
            end
        end
  end.

(** [pattern.search(s)] *)
Fixpoint search (p : pattern) (s : pystr) : option pystr :=
  match match_here p s [] with
  | Some g => Some g
  | None =>
      match s with
      | [] => None
      | _ :: s' => search p s'
      end
  end.

(** Character classes. *)
Definition lit (c : N) : N -> bool := fun x => (x =? c)%N.

(** [.] without DOTALL: anything but a line feed. *)
Definition dot : N -> bool := fun x => negb (x =? 10)%N.

(** A lower-case ASCII letter [l] under IGNORECASE, on a [str] pattern:
    [l], its capital, and the non-ASCII characters the engine folds to
    it (U+0130 and U+0131 for i, U+017F for s, U+212A for k). *)
Definition lit_i (l : N) : N -> bool := fun x =>
  ((x =? l) || (x =? l - 32)
   || (l =? 105) && ((x =? 304) || (x =? 305))
   || (l =? 115) && (x =? 383)
   || (l =? 107) && (x =? 8490))%N.

(** [[0-9.]] *)
Definition digit_or_dot : N -> bool := fun x =>
  ((48 <=? x) && (x <=? 57) || (x =? 46))%N.

Definition once (f : N -> bool) : item := Item f One false.
Definition many (f : N -> bool) : item := Item f Star false.
Definition some (f : N -> bool) : item := Item f Plus false.
Definition group_some (f : N -> bool) : item := Item f Plus true.

(** [re.compile(r'.*word.*', re.I)] for a lower-case ASCII [word]. *)
Definition around_i (word : string) : pattern :=
  many dot :: map (fun c => once (lit_i c)) (u word) ++ [many dot].

End Re.

(** ** The parse tree of BeautifulSoup *)
Module Bs4.

(** The nodes of the tree.  [NavigableString] is a piece of text (a
    plain string or a CDATA section; the scraper cannot tell the two
    apart).  [Comment] stands for the other string classes: [Comment],
    [Declaration], [Doctype], [ProcessingInstruction], and the strings
    inside [script], [style], [template], [rt] and [rp] elements.  They
    are strings for a search by [string] or [text] and for [tag.string],
    and they are left out by [get_text].

    An attribute value is kept as the text of the attribute.  For
    [class] BeautifulSoup stores the list of its whitespace-separated
    tokens: [attribute_list] gives that list. *)
#[local] Unset Elimination Schemes.
Inductive node :=
| NavigableString (s : pystr)
| Comment (s : pystr)
| Tag (name : pystr) (attrs : list (pystr * pystr)) (contents : list node).
#[local] Set Elimination Schemes.

(** The characters of a string node. *)
Definition string_node (n : node) : option pystr :=
  match n with
  | NavigableString s | Comment s => Some s
  | Tag _ _ _ => None
  end.

(** [tag.get(key)] *)
Fixpoint get (attrs : list (pystr * pystr)) (key : pystr) : option pystr :=
  match attrs with
  | [] => None
  | (k, v) :: attrs' => if decide (k = key) then Some v else get attrs' key
  end.

Definition attribute_list (v : pystr) : list pystr := split v.

(** [tag.descendants]: every node below [n], in document order. *)
Fixpoint descendants (n : node) : list node :=
  match n with
  | NavigableString _ | Comment _ => []
  | Tag _ _ cs =>
      (fix go (l : list node) : list node :=
         match l with
         | [] => []
         | c :: l' => c :: descendants c ++ go l'
         end) cs
  end.

(** [tag.string]: the only string below a tag, of whatever class,
    through a chain of only children. *)
Fixpoint string_of (n : node) : option pystr :=
  match n with
  | NavigableString s | Comment s => Some s
  | Tag _ _ [c] => string_of c
  | Tag _ _ _ => None
  end.

Definition tag_string (n : node) : option pystr :=
  match n with
  | NavigableString _ | Comment _ => None
  | Tag _ _ _ => string_of n
  end.

(** What a search asks of an attribute: [True] (present) or a compiled
    regular expression. *)
Inductive attr_matcher :=
| Present
| Matching (p : Re.pattern).

(** The arguments of [find] and [find_all]: [name], [attrs] (with
    [class_] and keyword attributes) and [string] (or its old name
    [text]). *)
Record strainer := Strainer {
  s_name : option pystr;
  s_attrs : list (pystr * attr_matcher);
  s_string : option Re.pattern
}.

Definition found (p : Re.pattern) (s : pystr) : bool :=
  bool_decide (is_Some (Re.search p s)).

(** One attribute of a tag against its matcher.  A multi-valued
    attribute matches a regular expression when one of its tokens does,
    or the tokens joined by single spaces do. *)
Definition attr_matches (attrs : list (pystr * pystr))
    (km : pystr * attr_matcher) : bool :=
  match get attrs km.1, km.2 with
  | None, _ => false
  | Some _, Present => true
  | Some v, Matching p =>
      if decide (km.1 = u "class")
      then existsb (found p) (attribute_list v)
           || found p (join (u " ") (attribute_list v))
      else found p v
  end.

Definition string_matches (o : option pystr) (p : Re.pattern) : bool :=
  match o with
  | None => false
  | Some s => found p s
  end.

(** Does the search keep this node?  A search by name or attributes
    keeps tags, and checks [string] against [tag.string]; a search by
    [string] alone keeps strings, comments and the like among them. *)
Definition keeps (st : strainer) (n : node) : bool :=
  match n with
  | Tag nm attrs _ =>
      match s_name st, s_attrs st, s_string st with
      | None, [], Some _ => false
      | _, _, _ =>
          match s_name st with
          | Some want => bool_decide (nm = want)
          | None => true
          end
          && forallb (attr_matches attrs) (s_attrs st)
          && match s_string st with
             | Some p => string_matches (tag_string n) p
             | None => true
             end
      end
  | NavigableString s | Comment s =>
      match s_name st, s_attrs st, s_string st with
      | None, [], Some p => found p s
      | _, _, _ => false
      end
  end.

(** [tag.find_all(...)] and [tag.find(...)] *)
Definition find_all (n : node) (st : strainer) : list node :=
  List.filter (keeps st) (descendants n).

Definition find (n : node) (st : strainer) : option node :=
  head (find_all n st).

(** A string with surrounding whitespace removed, dropped when nothing
    is left: what [get_text(strip=True)] joins.  Only text counts. *)
Definition stripped_strings (n : node) : list pystr :=
  omap (fun d => match d with
                 | NavigableString s =>
                     match strip s with
                     | [] => None
                     | t => Some t
                     end
                 | Comment _ | Tag _ _ _ => None
                 end) (descendants n).

(** [tag.get_text(strip=True)] *)
Definition get_text_strip (n : node) : pystr :=
  concat (stripped_strings n).

(** Truth value of a node: a tag is always true, a string is true when
    it is not empty. *)
Definition truthy_node (n : node) : bool :=
  match n with
  | Tag _ _ _ => true
  | NavigableString s | Comment s => negb (bool_decide (s = []))
  end.

(** [a or b] on two results of [find]. *)
Definition or_else (a b : option node) : option node :=
  match a with
  | Some n => if truthy_node n then a else b
  | None => b
  end.

End Bs4.

Import Bs4.

(** ** What the scraper takes from its environment *)

Class Runtime := {
  (** [hash(s)] on a [str]: salted anew in every process, and always a
      machine integer of at most 64 bits. *)
  hash : pystr -> Z;
  hash_range : forall s, - 2 ^ 63 <= hash s < 2 ^ 63;
  (** [sys.get_int_max_str_digits()]: the greatest number of digits
      [int] converts, 4300 unless the interpreter is told otherwise; 0
      stands for no limit, and a limit is never below 640. *)
  int_max_str_digits : Z;
  int_max_str_digits_range :
    int_max_str_digits = 0 \/ 640 <= int_max_str_digits;
  (** [s.lower()] and [s.upper()]: Unicode case mapping. *)
  lower : pystr -> pystr;
  upper : pystr -> pystr;
  (** The value of a Unicode decimal digit: the characters of the class
      [\d] and the digits [int] accepts. *)
  decimal : N -> option Z;
  decimal_digit : forall c d, decimal c = Some d -> 0 <= d <= 9;
  decimal_ascii : forall c, (c < 128)%N ->
    decimal c = if ((48 <=? c) && (c <=? 57))%N
                then Some (Z.of_N c - 48) else None;
  (** [str(tag)]: the markup of a tag. *)
  tag_str : node -> pystr;
  (** [BeautifulSoup(html, 'html.parser')]; [None] when it raises. *)
  BeautifulSoup : pystr -> option node
}.

(** The values stored in a product record. *)
Inductive value :=
| VStr (s : pystr)
| VInt (z : Z)
| VFloat (f : spec_float)
| VBool (b : bool).

Abbreviation Product := (gmap string value).

(** Truth value of a stored value, and of [d.get(k)]. *)
Definition truthy (v : value) : bool :=
  match v with
  | VStr s => negb (bool_decide (s = []))
  | VInt z => negb (z =? 0)
  | VFloat f => negb (SFeqb f (S754_zero false))
  | VBool b => b
  end.

Definition truthy_get (d : Product) (k : string) : bool :=
  match d !! k with
  | Some v => truthy v
  | None => false
  end.

Section Scraper.
Context `{Runtime}.

(** [int(s)] on the strings the scraper passes: characters of [[\d,]+]
    with the commas removed, so digits only, possibly none.  A string
    of more digits than the interpreter's limit is refused. *)
Definition too_many_digits (digits : nat) : bool :=
  (0 <? int_max_str_digits) && (int_max_str_digits <? Z.of_nat digits).

Fixpoint int_digits (acc : Z) (s : pystr) : res exn Z :=
  match s with
  | [] => Ok acc
  | c :: s' =>
      match decimal c with
      | Some d => int_digits (10 * acc + d) s'
      | None => Raise ValueError
      end
  end.

Definition int (s : pystr) : res exn Z :=
  match s with
  | [] => Raise ValueError
  | _ =>
      if too_many_digits (length s) then Raise ValueError
      else int_digits 0 s
  end.

(** [float(s)] on the strings the scraper passes: characters of
    [[0-9.]+].  A literal has at most one dot and at least one digit;
    its value is the float nearest to the decimal number. *)
Fixpoint float_digits (seen_dot : bool) (m : Z) (frac : nat) (any : bool)
    (s : pystr) : res exn spec_float :=
  match s with
  | [] =>
      if any then Ok (SFdiv 53 1024 (Z2SF m) (Z2SF (10 ^ Z.of_nat frac)))
      else Raise ValueError
  | c :: s' =>
      if (c =? 46)%N
      then if seen_dot then Raise ValueError
           else float_digits true m frac any s'
      else if ((48 <=? c) && (c <=? 57))%N
           then float_digits seen_dot (10 * m + (Z.of_N c - 48))
                  (if seen_dot then S frac else frac) true s'
           else Raise ValueError
  end.

Definition float (s : pystr) : res exn spec_float :=
  float_digits false 0 0 false s.

(** [str(x)] for the result of a [find]. *)
Definition str (n : node) : pystr :=
  match n with
  | NavigableString s | Comment s => s
  | Tag _ _ _ => tag_str n
  end.

(** The compiled patterns of the source. *)
Definition digit_or_comma : N -> bool := fun c =>
  bool_decide (is_Some (decimal c)) || (c =? 44)%N.

(** [r'₹[\d,]+'] and [r'₹([\d,]+)'] *)
Definition currency : Re.pattern :=
  [Re.once (Re.lit RUPEE); Re.some digit_or_comma].
Definition currency_group : Re.pattern :=
  [Re.once (Re.lit RUPEE); Re.group_some digit_or_comma].

(** [r'[0-9.]+\s*★'] and [r'([0-9.]+)'] *)
Definition rating_text : Re.pattern :=
  [Re.some Re.digit_or_dot; Re.many isspace; Re.once (Re.lit STAR)].
Definition rating_group : Re.pattern :=
  [Re.group_some Re.digit_or_dot].

Definition by_class (name word : string) : strainer :=
  Strainer (Some (u name))
    [(u "class", Matching (Re.around_i word))] None.
Definition by_name (name : string) : strainer :=
  Strainer (Some (u name)) [] None.
Definition by_string (name : string) (p : Re.pattern) : strainer :=
  Strainer (Some (u name)) [] (Some p).
Definition by_text (p : Re.pattern) : strainer :=
  Strainer None [] (Some p).

Definition BASE : pystr := u "https://www.flipkart.com".

(** *** [get_category_from_query] *)
Definition categories : list (pystr * list pystr) :=
  [ (u "mobile", map u ["phone"; "mobile"; "smartphone"; "redmi"; "iphone";
                        "samsung"; "oneplus"; "realme"; "vivo"; "oppo"]%string);
    (u "laptop", map u ["laptop"; "computer"; "pc"; "macbook"; "dell";
                        "hp"; "lenovo"; "asus"]%string);
    (u "electronics", map u ["tv"; "television"; "headphone"; "speaker";
                             "camera"; "tablet"]%string);
    (u "fashion", map u ["shirt"; "clothing"; "fashion"; "dress"; "shoe";
                         "watch"; "bag"]%string);
    (u "home", map u ["refrigerator"; "washing machine"; "ac"; "microwave";
                      "furniture"]%string);
    (u "books", map u ["book"; "novel"; "textbook"; "education"]%string) ].

Definition get_category_from_query (query : pystr) : pystr :=
  let query_lower := lower query in
  match List.find (fun ck => existsb (fun keyword => contains keyword query_lower) ck.2)
          categories with
  | Some ck => ck.1
  | None => u "general"
  end.

(** *** [extract_brand_from_title] *)
Definition brands : list pystr :=
  map u ["Samsung"; "Apple"; "Xiaomi"; "OnePlus"; "Realme"; "Vivo"; "Oppo";
         "Nokia"; "Motorola"; "Sony"; "Dell"; "HP"; "Lenovo"; "Asus";
         "Acer"; "MSI"]%string.

Definition extract_brand_from_title (title : pystr) : pystr :=
  match title with
  | [] => u "Brand"
  | _ =>
      let title_upper := upper title in
      match List.find (fun brand => contains (upper brand) title_upper) brands with
      | Some brand => brand
      | None =>
          match split title with
          | w :: _ => w
          | [] => u "Brand"
          end
      end
  end.

(** *** [extract_product_info]

    The body of the [try] block, one definition per commented step of
    the source; every step takes the record built so far. *)

(** # Extract title *)
Definition title_elem (container : node) : option node :=
  or_else (find container (by_class "a" "title"))
    (or_else (find container (by_class "div" "title"))
       (or_else (find container (by_class "span" "title"))
          (or_else (find container (by_name "h3"))
             (find container (by_name "h2"))))).

Definition extract_title (container : node) (product : Product) : Product :=
  match title_elem container with
  | Some e =>
      if truthy_node e
      then <["title" := VStr (take 100 (get_text_strip e))]> product
      else product
  | None => product
  end.

(** # Extract price *)
Definition price_elem (container : node) : option node :=
  or_else (find container (by_string "div" currency))
    (or_else (find container (by_string "span" currency))
       (find container (by_text currency))).

(** Lines 127-130 and 135-138: the first amount in a text. *)
Definition parse_price (text : pystr) : res exn (option Z) :=
  match Re.search currency_group text with
  | Some g => n ← int (remove_commas g); mret (Some n)
  | None => mret None
  end.

Definition extract_price (container : node) (product : Product)
    : res exn Product :=
  match price_elem container with
  | Some e =>
      if truthy_node e
      then
        let price_text := str e in
        o ← parse_price price_text;
        match o with
        | Some n => mret (<["sellingPrice" := VInt n]> product)
        | None => mret product
        end
      else mret product
  | None => mret product
  end.

(** # Extract original price (MRP) *)
Definition mrp_elem (container : node) : option node :=
  find container (by_text currency).

(** [product.get('sellingPrice', 0)] *)
Definition selling_price_or_0 (product : Product) : res exn Z :=
  match product !! "sellingPrice" with
  | None => mret 0
  | Some (VInt n) => mret n
  | Some _ => Raise TypeError
  end.

Definition extract_mrp (container : node) (product : Product)
    : res exn Product :=
  match mrp_elem container with
  | Some e =>
      if truthy_node e
      then
        let mrp_text := str e in
        o ← parse_price mrp_text;
        match o with
        | Some mrp_price =>
            sp ← selling_price_or_0 product;
            if mrp_price >? sp
            then mret (<["mrp" := VInt mrp_price]> product)
            else mret product
        | None => mret product
        end
      else mret product
  | None => mret product
  end.

(** # Extract image URL *)
Definition rewrite_image_url (img_url : pystr) : pystr :=
  if startswith (u "//") img_url then u "https:" ++ img_url
  else if startswith (u "/") img_url then BASE ++ img_url
  else img_url.

Definition extract_image (container : node) (product : Product) : Product :=
  match find container (by_name "img") with
  | Some (Tag _ attrs _) =>
      match get attrs (u "src") with
      | Some ((_ :: _) as img_url) =>
          <["imageUrl" := VStr (rewrite_image_url img_url)]> product
      | _ => product
      end
  | _ => product
  end.

(** # Extract product URL *)
Definition rewrite_product_url (product_url : pystr) : pystr :=
  if startswith (u "/") product_url then BASE ++ product_url
  else product_url.

Definition extract_url (container : node) (product : Product) : Product :=
  match find container (Strainer (Some (u "a")) [(u "href", Present)] None) with
  | Some (Tag _ attrs _) =>
      match get attrs (u "href") with
      | Some href =>
          let product_url := rewrite_product_url href in
          <["flipkartUrl" := VStr product_url]>
            (<["url" := VStr product_url]> product)
      | None => product
      end
  | _ => product
  end.

(** # Extract rating *)
Definition extract_rating (container : node) (product : Product)
    : res exn Product :=
  match find container (by_text rating_text) with
  | Some e =>
      if truthy_node e
      then match Re.search rating_group (str e) with
           | Some g => r ← float g; mret (<["rating" := VFloat r]> product)
           | None => mret product
           end
      else mret product
  | None => mret product
  end.

(** # Add default values *)
Definition title_or (product : Product) (default : pystr) : pystr :=
  match product !! "title" with
  | Some (VStr t) => t
  | _ => default
  end.

Definition add_defaults (query : pystr) (product : Product) : Product :=
  let productId :=
    u "live_" ++ str_of_int (Z.abs (hash (title_or product query))) in
  let description :=
    u "Real-time " ++ query
      ++ u " product from Flipkart with latest pricing and availability." in
  let category := get_category_from_query query in
  let brand := extract_brand_from_title (title_or product []) in
  <["source" := VStr (u "flipkart_live")]>
    (<["availability" := VStr (u "In Stock")]>
       (<["brand" := VStr brand]>
          (<["category" := VStr category]>
             (<["inStock" := VBool true]>
                (<["description" := VStr description]>
                   (<["productId" := VStr productId]> product)))))).

(** # Calculate discount if both prices available *)
Definition discount_of (mrp sellingPrice : Z) : res exn Z :=
  q ← int_truediv (mrp - sellingPrice) mrp;
  py_round (float_mul_int q 100).

Definition add_discount (product : Product) : res exn Product :=
  if truthy_get product "mrp" && truthy_get product "sellingPrice"
  then match product !! "mrp", product !! "sellingPrice" with
       | Some (VInt mrp), Some (VInt sellingPrice) =>
           discount ← discount_of mrp sellingPrice;
           mret (<["discount" := VInt discount]> product)
       | _, _ => Raise TypeError
       end
  else mret product.

(** The six extractions, in the order of the source. *)
Definition extract_fields (container : node) : res exn Product :=
  let product := extract_title container ∅ in
  product ← extract_price container product;
  product ← extract_mrp container product;
  let product := extract_image container product in
  let product := extract_url container product in
  extract_rating container product.

Definition extract_body (container : node) (query : pystr)
    : res exn Product :=
  product ← extract_fields container;
  let product := add_defaults query product in
  add_discount product.

(** The [return] of line 184 and the handler of lines 186-187. *)
Definition extract_product_info (container : node) (query : pystr)
    : option Product :=
  match extract_body container query with
  | Ok product =>
      if truthy_get product "title" && truthy_get product "sellingPrice"
      then Some product
      else None
  | Raise _ => None
  end.
End Scraper.

(** The network, as [search_products] sees it: the outcome of
    [requests.get(search_url, params={'q': query, 'page': page}, ...)]. *)
Inductive http_result :=
| RequestException (message : pystr)
| Response (status_code : Z) (text : pystr).

Definition network := pystr -> Z -> http_result.

(** The values of a result envelope. *)
Inductive evalue :=
| EBool (b : bool)
| EInt (z : Z)
| EStr (s : pystr)
| EProducts (l : list Product).

Abbreviation Envelope := (gmap string evalue).

(** [l[:n]] *)
Definition slice_to {A} (l : list A) (n : Z) : list A :=
  if n <? 0 then take (Z.to_nat (Z.of_nat (length l) + n)) l
  else take (Z.to_nat n) l.

Section Search.
Context `{Runtime}.

(** *** [parse_search_results] *)

(** [a or b] on two results of [find_all]: an empty list is false. *)
Definition or_list (a b : list node) : list node :=
  match a with
  | [] => b
  | _ => a
  end.

(** Lines 83-89: the containers the loop visits. *)
Definition product_containers (soup : node) : list node :=
  take 25
    (or_list
       (find_all soup (Strainer (Some (u "div")) [(u "data-id", Present)] None))
       (or_list (find_all soup (by_class "div" "product"))
          (find_all soup (by_class "div" "item")))).

(** Lines 90-95: one turn of the loop. *)
Definition keep_product (query : pystr) (products : list Product)
    (container : node) : list Product :=
  match extract_product_info container query with
  | Some product =>
      if negb (bool_decide (product = ∅))
         && truthy_get product "title" && truthy_get product "price"
      then products ++ [product]
      else products
  | None => products
  end.

Definition parse_soup (soup : node) (query : pystr) : list Product :=
  foldl (keep_product query) [] (product_containers soup).

Definition parse_search_results (html_content query : pystr)
    : list Product :=
  match BeautifulSoup html_content with
  | Some soup => parse_soup soup query
  | None => []
  end.

(** *** [search_products] *)

Definition pages_to_scrape (max_results : Z) : Z :=
  Z.min 3 (max_results / 10 + 1).

(** The loop of lines 41-56 over the remaining pages.  The result comes
    with the pages requested, in order.  The pause before each request
    ([time.sleep]) changes neither. *)
Fixpoint scrape (net : network) (query : pystr) (max_results : Z)
    (pages : list Z) (products : list Product)
    : list Z * res pystr (list Product) :=
  match pages with
  | [] => ([], Ok products)
  | page :: pages' =>
      match net query page with
      | RequestException message => ([page], Raise message)
      | Response status_code text =>
          if negb (status_code =? 200) then ([page], Ok products)
          else
            let page_products := parse_search_results text query in
            let products := products ++ page_products in
            if Z.of_nat (length products) >=? max_results
            then ([page], Ok products)
            else
              let (requested, r) :=
                scrape net query max_results pages' products in
              (page :: requested, r)
      end
  end.

(** The [try] block of lines 32-64. *)
Definition search_body (net : network) (query : pystr) (max_results : Z)
    : list Z * res pystr Envelope :=
  let (requested, r) :=
    scrape net query max_results (seqZ 1 (pages_to_scrape max_results)) [] in
  (requested,
   products ← r;
   mret (<["source" := EStr (u "flipkart_live")]>
           (<["query" := EStr query]>
              (<["total" := EInt (Z.of_nat (length products))]>
                 (<["products" := EProducts (slice_to products max_results)]>
                    (<["success" := EBool true]> ∅)))))).

(** The pages [search_products] requests. *)
Definition pages_requested (net : network) (query : pystr)
    (max_results : Z) : list Z :=
  (search_body net query max_results).1.

(** [search_products], with the handler of lines 66-73. *)
Definition search_products (net : network) (query : pystr)
    (max_results : Z) : Envelope :=
  match (search_body net query max_results).2 with
  | Ok envelope => envelope
  | Raise message =>
      <["query" := EStr query]>
        (<["error" := EStr message]>
           (<["products" := EProducts []]>
              (<["success" := EBool false]> ∅)))
  end.
End Search.

(** ** A concrete runtime

    ASCII case mapping and digits, a fixed hash, the default limit of
    4300 digits, the plain markup of a tag, and a parser that answers
    with a given tree. *)
Module Concrete.

Definition ascii_lower (c : N) : N :=
  if ((65 <=? c) && (c <=? 90))%N then (c + 32)%N else c.
Definition ascii_upper (c : N) : N :=
  if ((97 <=? c) && (c <=? 122))%N then (c - 32)%N else c.

Definition ascii_decimal (c : N) : option Z :=
  if ((48 <=? c) && (c <=? 57))%N then Some (Z.of_N c - 48) else None.

Definition sum_hash (s : pystr) : Z :=
  foldl (fun h c => (31 * h + Z.of_N c) mod 2 ^ 61) 7 s.

(** Text and attribute values with [&], [<] and [>] as entities. *)
Definition escape (s : pystr) : pystr :=
  flat_map (fun c => if (c =? 38)%N then u "&amp;"
                     else if (c =? 60)%N then u "&lt;"
                     else if (c =? 62)%N then u "&gt;"
                     else [c]) s.

Definition attr_text (name : pystr) (v : pystr) : pystr :=
  if decide (name = u "class") then join (u " ") (attribute_list v) else v.

Fixpoint markup (n : node) : pystr :=
  match n with
  | NavigableString s => escape s
  | Comment s => u "<!--" ++ s ++ u "-->"
  | Tag name attrs cs =>
      u "<" ++ name
        ++ flat_map (fun kv => u " " ++ kv.1 ++ u "=" ++ [34%N]
                                 ++ escape (attr_text kv.1 kv.2) ++ [34%N]) attrs
        ++ u ">"
        ++ (fix go (l : list node) : pystr :=
              match l with
              | [] => []
              | c :: l' => markup c ++ go l'
              end) cs
        ++ u "</" ++ name ++ u ">"
  end.

Definition ascii_decimal_digit c d :
  ascii_decimal c = Some d -> 0 <= d <= 9.
Proof.
  unfold ascii_decimal.
  destruct ((48 <=? c)%N && (c <=? 57)%N) eqn:E; [|discriminate].
  intros [= <-]. apply andb_prop in E as [?%N.leb_le ?%N.leb_le]. lia.
Qed.

Definition sum_hash_range s : - 2 ^ 63 <= sum_hash s < 2 ^ 63.
Proof.
  unfold sum_hash. induction s as [|c s IH] using rev_ind; [done|].
  rewrite foldl_app. cbn [foldl].
  pose proof (Z.mod_pos_bound (31 * foldl (fun h c => (31 * h + Z.of_N c)
                                             mod 2 ^ 61) 7 s + Z.of_N c)
                (2 ^ 61) eq_refl).
  lia.
Qed.

Definition default_limit_range : 4300 = 0 \/ 640 <= 4300.
Proof. right. lia. Qed.

Definition runtime (page : option node) : Runtime := {|
  hash := sum_hash;
  hash_range := sum_hash_range;
  int_max_str_digits := 4300;
  int_max_str_digits_range := default_limit_range;
  lower := map ascii_lower;
  upper := map ascii_upper;
  decimal := ascii_decimal;
  decimal_digit := ascii_decimal_digit;
  decimal_ascii := fun c _ => eq_refl;
  tag_str := markup;
  BeautifulSoup := fun _ => page
|}.

End Concrete.

(** The keys the extraction steps may set, and the key the result-set
    parser asks for. *)
Definition extracted_keys : list string :=
  ["title"; "sellingPrice"; "mrp"; "imageUrl"; "url"; "flipkartUrl";
   "rating"; "price"; "discount"]%string.

(** [d[k] = v] when there is a [v]. *)
Definition set_opt (k : string) (o : option value) (d : Product) : Product :=
  match o with
  | Some v => <[k := v]> d
  | None => d
  end.

(** The record after the six extractions. *)
Definition fields_record (t : option pystr) (sp m : option Z)
    (img url : option pystr) (rt : option spec_float) : Product :=
  set_opt "rating" (VFloat <$> rt)
    (set_opt "flipkartUrl" (VStr <$> url)
       (set_opt "url" (VStr <$> url)
          (set_opt "imageUrl" (VStr <$> img)
             (set_opt "mrp" (VInt <$> m)
                (set_opt "sellingPrice" (VInt <$> sp)
                   (set_opt "title" (VStr <$> t) ∅)))))).

(** ** What each extraction finds, seen by itself

    The six extractions of [extract_product_info] as functions of the
    container alone (the MRP also of the selling price before it). *)
Section Fields.
Context `{Runtime}.

Definition title_of (container : node) : option pystr :=
  match title_elem container with
  | Some e => if truthy_node e then Some (take 100 (get_text_strip e)) else None
  | None => None
  end.

Definition price_of (container : node) : res exn (option Z) :=
  match price_elem container with
  | Some e => if truthy_node e then parse_price (str e) else mret None
  | None => mret None
  end.

(** The amount the MRP step reads: the first amount of the first
    string of the container that holds one. *)
Definition first_amount_of (container : node) : res exn (option Z) :=
  match mrp_elem container with
  | Some e => if truthy_node e then parse_price (str e) else mret None
  | None => mret None
  end.

Definition mrp_of (container : node) (sellingPrice : option Z)
    : res exn (option Z) :=
  o ← first_amount_of container;
  mret (match o with
        | Some m => if m >? default 0 sellingPrice then Some m else None
        | None => None
        end).

Definition image_of (container : node) : option pystr :=
  match find container (by_name "img") with
  | Some (Tag _ attrs _) =>
      match get attrs (u "src") with
      | Some ((_ :: _) as src) => Some (rewrite_image_url src)
      | _ => None
      end
  | _ => None
  end.

Definition url_of (container : node) : option pystr :=
  match find container (Strainer (Some (u "a")) [(u "href", Present)] None) with
  | Some (Tag _ attrs _) => rewrite_product_url <$> get attrs (u "href")
  | _ => None
  end.

Definition rating_of (container : node) : res exn (option spec_float) :=
  match find container (by_text rating_text) with
  | Some e =>
      if truthy_node e
      then match Re.search rating_group (str e) with
           | Some g => r ← float g; mret (Some r)
           | None => mret None
           end
      else mret None
  | None => mret None
  end.

(** Every amount written in a text, from left to right: each place
    where the currency pattern matches, read as a number. *)
Fixpoint amounts_in (s : pystr) : list Z :=
  match s with
  | [] => []
  | _ :: s' =>
      match Re.match_here currency_group s [] with
      | Some g =>
          match int (remove_commas g) with
          | Ok n => n :: amounts_in s'
          | Raise _ => amounts_in s'
          end
      | None => amounts_in s'
      end
  end.

(** Every amount in the text of a container, in document order. *)
Definition text_amounts (container : node) : list Z :=
  flat_map (fun n => match n with
                     | NavigableString s => amounts_in s
                     | Comment _ | Tag _ _ _ => []
                     end) (descendants container).

(** The container has a title element with some text in it. *)
Definition has_title_text (container : node) : Prop :=
  exists e, title_elem container = Some e /\ get_text_strip e <> [].

(** Some string of the container holds a currency amount: a piece of
    text or, as the searches by string see them too, a comment. *)
Definition has_price_text (container : node) : Prop :=
  exists n s, n ∈ descendants container /\ string_node n = Some s
              /\ found currency s = true.
End Fields.

(** The number a sequence of decimal digits denotes. *)
Fixpoint decimal_value (ds : list Z) : Z :=
  match ds with
  | [] => 0
  | d :: ds' => d * 10 ^ Z.of_nat (length ds') + decimal_value ds'
  end.

(** ** Candidate selection, as the specification words it *)

Definition is_element (n : node) : bool :=
  match n with
  | Tag _ _ _ => true
  | NavigableString _ | Comment _ => false
  end.

Definition is_div (n : node) : bool :=
  match n with
  | Tag name _ _ => bool_decide (name = u "div")
  | NavigableString _ | Comment _ => false
  end.

Definition has_attribute (key : string) (n : node) : bool :=
  match n with
  | Tag _ attrs _ => bool_decide (is_Some (get attrs (u key)))
  | NavigableString _ | Comment _ => false
  end.

(** [word], a lower-case ASCII word, starts [s] or occurs in [s], letter
    case ignored. *)
Fixpoint starts_with_i (word s : pystr) : bool :=
  match word, s with
  | [], _ => true
  | l :: word', c :: s' => Re.lit_i l c && starts_with_i word' s'
  | _ :: _, [] => false
  end.

Fixpoint contains_i (word s : pystr) : bool :=
  starts_with_i word s ||
  match s with
  | [] => false
  | _ :: s' => contains_i word s'
  end.

(** The text of the class attribute of the element contains [word],
    letter case ignored. *)
Definition class_contains (word : string) (n : node) : bool :=
  match n with
  | Tag _ attrs _ =>
      match get attrs (u "class") with
      | Some v => contains_i (u word) v
      | None => false
      end
  | NavigableString _ | Comment _ => false
  end.

(** The letters of [w] as a pattern, and a text [m] that they match one
    for one. *)
Abbreviation lits w := (map (fun c => Re.once (Re.lit_i c)) w).
Abbreviation spelled w m := (Forall2 (fun l c => Re.lit_i l c = true) w m).

Fixpoint first_nonempty {A} (ls : list (list A)) : list A :=
  match ls with
  | [] => []
  | [] :: ls' => first_nonempty ls'
  | l :: _ => l
  end.

(** Three heuristics over the [eligible] nodes of the page, the first
    that finds something wins, at most 25 kept. *)
Definition candidates (eligible : node -> bool) (soup : node) : list node :=
  let among (test : node -> bool) :=
    List.filter (fun n => eligible n && test n) (descendants soup) in
  take 25 (first_nonempty [ among (has_attribute "data-id");
                            among (class_contains "product");
                            among (class_contains "item") ]).

(** The rewriting of an image source, as the specification words it. *)
Inductive image_url_of : pystr -> pystr -> Prop :=
| protocol_relative rest :
    image_url_of (u "//" ++ rest) (u "https://" ++ rest)
| root_relative rest :
    startswith (u "/") rest = false ->
    image_url_of (u "/" ++ rest) (u "https://www.flipkart.com/" ++ rest)
| other_url src :
    startswith (u "/") src = false ->
    image_url_of src src.

(** [d] is the percentage [100 * part / whole] rounded to the nearest
    integer, in exact arithmetic: [|d - 100 * part / whole| <= 1/2 +
    2^-41].  The margin of [2^-41] leaves open which neighbour is taken
    when the percentage lies that close to the middle between two
    integers, where the answer depends on the rounding of the two
    floating-point operations before [round]. *)
Definition rounded_percentage (part whole d : Z) : Prop :=
  2 ^ 40 * (2 * Z.abs (d * whole - 100 * part) - whole) <= whole.

(** The failure envelope, as the specification writes it:
    [{success: false, products: [], error: message, query: query}]. *)
Definition failure_envelope (message query : pystr) : Envelope :=
  list_to_map [ ("success", EBool false); ("products", EProducts []);
                ("error", EStr message); ("query", EStr query) ]%string.

(** ** Example pages *)
Module Examples.

Definition text (s : string) : node := NavigableString (u s).
Definition rupees (s : string) : node := NavigableString (RUPEE :: u s).
Definition elem (name : string) (attrs : list (string * string))
    (contents : list node) : node :=
  Tag (u name) (map (fun kv => (u kv.1, u kv.2)) attrs) contents.
Definition document (contents : list node) : node :=
  Tag (u "[document]") [] contents.

(** One listing: title, price, a second and greater price, rating and
    image, each in an element of its own. *)
Definition listing : node :=
  elem "div" [("data-id", "1")]
    [ elem "a" [("class", "title"); ("href", "/redmi-note-12/p/itm1")]
        [text "Redmi Note 12"];
      elem "div" [] [rupees "14,999"];
      elem "div" [] [rupees "19,999"];
      elem "span" [] [NavigableString (u "4.3" ++ [STAR])];
      elem "img" [("src", "//img.flipkart.com/x.jpg")] [] ].

(** The greater price first, in a text of the container itself. *)
Definition listing_mrp_first : node :=
  elem "div" [("data-id", "2")]
    [ elem "h3" [] [text "Redmi Note 12"];
      elem "b" [] [rupees "19,999"];
      elem "div" [] [rupees "14,999"] ].

(** A rating text that is not a number. *)
Definition listing_bad_rating : node :=
  elem "div" [("data-id", "3")]
    [ elem "h3" [] [text "Phone"];
      elem "span" [] [rupees "100"];
      elem "span" [] [NavigableString (u "1.2.3" ++ [STAR])] ].

(** The same listing without the rating. *)
Definition listing_no_rating : node :=
  elem "div" [("data-id", "3")]
    [ elem "h3" [] [text "Phone"];
      elem "span" [] [rupees "100"] ].

(** A listing with an amount inside a comment, before its price. *)
Definition listing_comment : node :=
  elem "div" [("data-id", "4")]
    [ elem "h3" [] [text "Phone"];
      Comment (RUPEE :: u "9");
      elem "span" [] [rupees "5"] ].

(** A list item that carries [data-id], beside a product [div]. *)
Definition page_list_items : node :=
  document
    [ elem "li" [("data-id", "1")] [text "one"];
      elem "div" [("class", "Product-card")] [text "two"] ].

Definition query : pystr := u "redmi phone".

(** A site that answers every request with status 404, one that
    answers 200 with an empty page, one that cannot be reached. *)
Definition net_404 : network := fun _ _ => Response 404 [].
Definition net_200 : network := fun _ _ => Response 200 [].
Definition net_down : network := fun _ _ =>
  RequestException (u "connection refused").

End Examples.

(** ** Claims that do not hold as they are stated *)

(** The MRP, as C3 states it: present exactly when the text of the
    container holds an amount greater than the selling price. *)
Definition C3_as_stated `{Runtime} : Prop :=
  forall (container : node) (query : pystr) (p : Product) (sp : Z),
    extract_product_info container query = Some p ->
    p !! "sellingPrice" = Some (VInt sp) ->
    (is_Some (p !! "mrp") <-> exists m, m ∈ text_amounts container /\ sp < m).

(** A text whose first match of the currency pattern is the rupee sign
    followed by [amount]: no rupee sign before it is followed by a digit
    or a comma, and no digit or comma follows the amount. *)
Definition first_amount `{Runtime} (before amount after : pystr) : Prop :=
  (forall b1 b2, before = b1 ++ RUPEE :: b2 ->
                 digit_or_comma (hd RUPEE b2) = false)
  /\ Forall (fun c => digit_or_comma c = true) amount
  /\ Exists (fun c => is_Some (decimal c)) amount
  /\ match after with c :: _ => digit_or_comma c = false | [] => True end.

(** Price parsing, as C7 states it: every amount is read as the number
    its digits denote. *)
Definition C7_as_stated `{Runtime} : Prop :=
  forall before amount after : pystr,
    first_amount before amount after ->
    parse_price (before ++ RUPEE :: amount ++ after)
    = Ok (Some (decimal_value (omap decimal amount))).

(** What a fault-tolerant extraction of one field yields: its result,
    and nothing when it fails. *)
Definition found_or_nothing {A} (r : res exn (option A)) : option A :=
  match r with
  | Ok o => o
  | Raise _ => None
  end.

(** Independent, fault-tolerant field extractions, as C4 states them:
    the six extractions always complete, and the record holds for each
    field what its own extraction finds, a failing one counting as one
    that finds nothing. *)
Definition C4_as_stated `{Runtime} : Prop :=
  forall container : node,
    let sp := found_or_nothing (price_of container) in
    extract_fields container
    = Ok (fields_record (title_of container) sp
            (found_or_nothing (mrp_of container sp))
            (image_of container) (url_of container)
            (found_or_nothing (rating_of container))).

(** The number of requests, as C6 states it. *)
Definition C6_as_stated `{Runtime} : Prop :=
  forall (net : network) (query : pystr) (max_results : Z),
    Z.of_nat (length (pages_requested net query max_results))
    = Z.min 3 (max_results / 10 + 1).

(** Candidate selection, as C10 states it: the three heuristics range
    over all elements. *)
Definition C10_as_stated : Prop :=
  forall soup : node, product_containers soup = candidates is_element soup.

(** * Further definitions

    Words used to state the properties of the record, of the envelope
    and of the command line. *)

(** What may follow a word: nothing, or whitespace. *)
Definition ends_word (after : pystr) : Prop :=
  match after with
  | [] => True
  | c :: _ => isspace c = true
  end.

(** The keys a record may hold, and those every returned record holds. *)
Definition record_keys : list string :=
  ["title"; "sellingPrice"; "mrp"; "imageUrl"; "url"; "flipkartUrl";
   "rating"; "productId"; "description"; "inStock"; "category"; "brand";
   "availability"; "source"; "discount"]%string.

Definition constant_keys : list string :=
  ["title"; "sellingPrice"; "productId"; "description"; "inStock";
   "category"; "brand"; "availability"; "source"]%string.

(** The success envelope of a search that found nothing:
    [{success: true, products: [], total: 0, query: query,
      source: 'flipkart_live'}]. *)
Definition empty_success_envelope (query : pystr) : Envelope :=
  list_to_map [ ("success", EBool true); ("products", EProducts []);
                ("total", EInt 0); ("query", EStr query);
                ("source", EStr (u "flipkart_live")) ]%string.

(** *** [main]

    What a call of [main] does: the pages it requests, the values it
    hands to [print] for standard output (the usage line, or the JSON
    document of an envelope, kept as the envelope), and the status it
    passes to [sys.exit], if it calls it. *)
Inductive printed :=
| Text (line : pystr)
| Json (envelope : Envelope).

Record run := Run {
  requests : list Z;
  stdout : list printed;
  sys_exit : option Z
}.


(** * Properties *)

(** ** The record in terms of what each extraction finds *)
Section Normal_form.
Context `{Runtime}.

Lemma extract_title_view c d :
  extract_title c d = set_opt "title" (VStr <$> title_of c) d.
Proof.
  unfold extract_title, title_of.
  destruct (title_elem c) as [e|]; [|done].
  by destruct (truthy_node e).
Qed.

Lemma extract_price_view c d :
  extract_price c d =
  (o ← price_of c; mret (set_opt "sellingPrice" (VInt <$> o) d)).
Proof.
  unfold extract_price, price_of.
  destruct (price_elem c) as [e|]; [|done].
  destruct (truthy_node e); [|done].
  destruct (parse_price (str e)) as [[n|]|]; done.
Qed.

Lemma extract_mrp_view c d osp :
  d !! "sellingPrice" = VInt <$> osp ->
  extract_mrp c d =
  (o ← mrp_of c osp; mret (set_opt "mrp" (VInt <$> o) d)).
Proof.
  intros Hsp. unfold extract_mrp, mrp_of, first_amount_of.
  destruct (mrp_elem c) as [e|]; [|done].
  destruct (truthy_node e); [|done].
  destruct (parse_price (str e)) as [[m|]|]; [|done|done].
  cbn. unfold selling_price_or_0. rewrite Hsp.
  destruct osp as [sp|]; cbn; by destruct (m >? _).
Qed.

Lemma extract_image_view c d :
  extract_image c d = set_opt "imageUrl" (VStr <$> image_of c) d.
Proof.
  unfold extract_image, image_of.
  destruct (find c (by_name "img")) as [[| |? attrs ?]|]; [done|done| |done].
  by destruct (get attrs (u "src")) as [[|]|].
Qed.

Lemma extract_url_view c d :
  extract_url c d =
  set_opt "flipkartUrl" (VStr <$> url_of c)
    (set_opt "url" (VStr <$> url_of c) d).
Proof.
  unfold extract_url, url_of.
  destruct (find c _) as [[| |? attrs ?]|]; [done|done| |done].
  by destruct (get attrs (u "href")).
Qed.

Lemma extract_rating_view c d :
  extract_rating c d =
  (o ← rating_of c; mret (set_opt "rating" (VFloat <$> o) d)).
Proof.
  unfold extract_rating, rating_of.
  destruct (find c _) as [e|]; [|done].
  destruct (truthy_node e); [|done].
  destruct (Re.search rating_group (str e)) as [g|]; [|done].
  by destruct (float g).
Qed.

Lemma extract_fields_view c :
  extract_fields c =
  (sp ← price_of c;
   m ← mrp_of c sp;
   rt ← rating_of c;
   mret (fields_record (title_of c) sp m (image_of c) (url_of c) rt)).
Proof.
  unfold extract_fields.
  rewrite extract_title_view, extract_price_view.
  destruct (price_of c) as [sp|]; [|done]. cbn.
  rewrite (extract_mrp_view _ _ sp).
  2:{ destruct (title_of c), sp; by cbn. }
  destruct (mrp_of c sp) as [m|]; [|done]. cbn.
  by rewrite extract_rating_view, extract_url_view, extract_image_view.
Qed.
End Normal_form.

(** ** Keys of the record *)
Section Keys.
Context `{Runtime}.

Ltac lookups :=
  unfold fields_record, add_defaults, set_opt;
  repeat match goal with
         | |- context [fmap _ ?o] => is_var o; destruct o
         end;
  cbn; simplify_map_eq; try done.

Lemma fields_title t sp m img url rt :
  fields_record t sp m img url rt !! "title" = VStr <$> t.
Proof. lookups. Qed.

Lemma fields_sellingPrice t sp m img url rt :
  fields_record t sp m img url rt !! "sellingPrice" = VInt <$> sp.
Proof. lookups. Qed.

Lemma fields_mrp t sp m img url rt :
  fields_record t sp m img url rt !! "mrp" = VInt <$> m.
Proof. lookups. Qed.

Lemma fields_imageUrl t sp m img url rt :
  fields_record t sp m img url rt !! "imageUrl" = VStr <$> img.
Proof. lookups. Qed.

Lemma fields_url t sp m img url rt :
  fields_record t sp m img url rt !! "url" = VStr <$> url.
Proof. lookups. Qed.

Lemma fields_flipkartUrl t sp m img url rt :
  fields_record t sp m img url rt !! "flipkartUrl" = VStr <$> url.
Proof. lookups. Qed.

Lemma fields_rating t sp m img url rt :
  fields_record t sp m img url rt !! "rating" = VFloat <$> rt.
Proof. lookups. Qed.

Lemma fields_price t sp m img url rt :
  fields_record t sp m img url rt !! "price" = None.
Proof. lookups. Qed.

Lemma fields_discount t sp m img url rt :
  fields_record t sp m img url rt !! "discount" = None.
Proof. lookups. Qed.

(** The default values overwrite none of the extracted fields. *)
Lemma add_defaults_other q d k :
  k ∈ extracted_keys -> add_defaults q d !! k = d !! k.
Proof.
  unfold extracted_keys. rewrite !elem_of_cons, elem_of_nil.
  intros Hk. unfold add_defaults.
  repeat (destruct Hk as [->|Hk]; [by rewrite !lookup_insert_ne|]).
  done.
Qed.

(** The discount step touches the key [discount] only. *)
Lemma add_discount_other d d' k :
  add_discount d = Ok d' -> k <> "discount"%string -> d' !! k = d !! k.
Proof.
  unfold add_discount. intros Hd Hk.
  destruct (truthy_get d "mrp" && truthy_get d "sellingPrice").
  - destruct (d !! "mrp") as [[|m| |]|]; try discriminate.
    destruct (d !! "sellingPrice") as [[|s| |]|]; try discriminate.
    destruct (discount_of m s); [|discriminate].
    injection Hd as <-. by rewrite lookup_insert_ne.
  - by injection Hd as <-.
Qed.

Lemma add_discount_discount d d' :
  add_discount d = Ok d' -> d !! "discount" = None ->
  d' !! "discount" =
    if truthy_get d "mrp" && truthy_get d "sellingPrice"
    then match d !! "mrp", d !! "sellingPrice" with
         | Some (VInt m), Some (VInt s) =>
             match discount_of m s with
             | Ok x => Some (VInt x)
             | Raise _ => None
             end
         | _, _ => None
         end
    else None.
Proof.
  unfold add_discount. intros Hd Hnone.
  destruct (truthy_get d "mrp" && truthy_get d "sellingPrice").
  - destruct (d !! "mrp") as [[|m| |]|]; try discriminate.
    destruct (d !! "sellingPrice") as [[|s| |]|]; try discriminate.
    destruct (discount_of m s); [|discriminate].
    injection Hd as <-. by rewrite lookup_insert_eq.
  - by injection Hd as <-.
Qed.
End Keys.

(** ** What a completed extraction holds *)
Section Inversion.
Context `{Runtime}.

(** The record of a completed [try] block agrees, on every extracted
    key but [discount], with the record of the six extractions. *)
Lemma extract_body_inv c q d :
  extract_body c q = Ok d ->
  exists sp m rt,
    price_of c = Ok sp /\ mrp_of c sp = Ok m /\ rating_of c = Ok rt /\
    let f := fields_record (title_of c) sp m (image_of c) (url_of c) rt in
    add_discount (add_defaults q f) = Ok d /\
    forall k, k ∈ extracted_keys -> k <> "discount"%string ->
              d !! k = f !! k.
Proof.
  unfold extract_body. rewrite extract_fields_view.
  destruct (price_of c) as [sp|]; [|done]. cbn.
  destruct (mrp_of c sp) as [m|] eqn:Em; [|done]. cbn.
  destruct (rating_of c) as [rt|]; [|done]. cbn.
  intros Hd. exists sp, m, rt. do 4 (split; [done|]).
  intros k Hk Hne.
  rewrite (add_discount_other _ _ _ Hd Hne).
  by apply add_defaults_other.
Qed.

Lemma extract_product_info_inv c q p :
  extract_product_info c q = Some p ->
  extract_body c q = Ok p /\
  truthy_get p "title" = true /\ truthy_get p "sellingPrice" = true.
Proof.
  unfold extract_product_info.
  destruct (extract_body c q) as [d|]; [|done].
  destruct (truthy_get d "title") eqn:Ht; [|done].
  destruct (truthy_get d "sellingPrice") eqn:Hs; [|done].
  by intros [= <-].
Qed.

(** No extracted record has the key [price]. *)
Lemma extract_product_info_no_price c q p :
  extract_product_info c q = Some p -> p !! "price" = None.
Proof.
  intros [Hb _]%extract_product_info_inv.
  apply extract_body_inv in Hb as (sp & m & rt & _ & _ & _ & _ & Hk).
  rewrite Hk; [apply fields_price| |done].
  unfold extracted_keys. set_solver.
Qed.

Lemma keep_product_id q products c :
  keep_product q products c = products.
Proof.
  unfold keep_product.
  destruct (extract_product_info c q) as [p|] eqn:E; [|done].
  unfold truthy_get at 2.
  rewrite (extract_product_info_no_price _ _ _ E).
  by rewrite andb_false_r.
Qed.

Lemma parse_soup_nil soup q : parse_soup soup q = [].
Proof.
  unfold parse_soup.
  induction (product_containers soup) as [|c l IH]; [done|].
  cbn. by rewrite keep_product_id.
Qed.

Lemma parse_search_results_nil html q : parse_search_results html q = [].
Proof.
  unfold parse_search_results.
  destruct (BeautifulSoup html); [apply parse_soup_nil|done].
Qed.

(** The page loop collects nothing. *)
Lemma scrape_products net q mr pages requested products :
  scrape net q mr pages [] = (requested, Ok products) -> products = [].
Proof.
  revert requested.
  induction pages as [|page pages IH]; intros requested; cbn.
  - by intros [= _ <-].
  - destruct (net q page) as [msg|status text]; [done|].
    destruct (negb (status =? 200)); [by intros [= _ <-]|].
    rewrite parse_search_results_nil. cbn.
    destruct (Z.of_nat 0 >=? mr); [by intros [= _ <-]|].
    destruct (scrape net q mr pages []) as [req r] eqn:E.
    intros [= _ ->]. by eapply IH.
Qed.
End Inversion.

(** ** The result-set parser keeps nothing (C1) *)

(** C1.  For every page and every query [parse_search_results] returns
    the empty list: the loop keeps a record only when its key [price] is
    true, and no record [extract_product_info] returns has that key (the
    amount is stored under [sellingPrice]).  So one turn of the loop
    leaves the list as it was, and every envelope with [success] true has
    [products = []] and [total = 0]. *)
Theorem C1_parse_search_results_empty `{Runtime} (html query : pystr) :
  parse_search_results html query = []
  /\ (forall c p, extract_product_info c query = Some p -> p !! "price" = None)
  /\ (forall products c, keep_product query products c = products)
  /\ (forall net max_results,
        let envelope := search_products net query max_results in
        envelope !! "success" = Some (EBool true) ->
        envelope !! "products" = Some (EProducts [])
        /\ envelope !! "total" = Some (EInt 0)).
Proof.
  split; [apply parse_search_results_nil|].
  split; [intros c p; apply extract_product_info_no_price|].
  split; [apply keep_product_id|].
  intros net mr. unfold search_products, search_body. cbn zeta.
  destruct (scrape net query mr _ []) as [req [products|msg]] eqn:E; cbn.
  - apply scrape_products in E as ->.
    intros _. split; [|done].
    rewrite !lookup_insert_ne, lookup_insert_eq by done.
    unfold slice_to. by destruct (mr <? 0); rewrite take_nil.
  - rewrite !lookup_insert_ne, lookup_insert_eq by done. discriminate.
Qed.

(** A page with one well-formed listing: the extractor returns its
    record, and the parser still returns nothing. *)
Lemma C1_witness :
  let R := Concrete.runtime (Some (Examples.document [Examples.listing])) in
  (exists p, extract_product_info Examples.listing Examples.query = Some p
             /\ p !! "sellingPrice" = Some (VInt 14999)
             /\ p !! "price" = None)
  /\ parse_search_results (u "<html>") Examples.query = []
  /\ search_products Examples.net_200 Examples.query 25 !! "total"
     = Some (EInt 0).
Proof.
  intros R.
  pose proof (C1_parse_search_results_empty (u "<html>") Examples.query)
    as (Hnil & Hprice & _ & Henv).
  split; [|split; [exact Hnil|]].
  - assert (extract_product_info Examples.listing Examples.query
            ≫= (.!! "sellingPrice") = Some (VInt 14999)) as Hsp
      by (vm_compute; reflexivity).
    destruct (extract_product_info Examples.listing Examples.query)
      as [p|] eqn:E; [|discriminate].
    exists p. split; [done|]. split; [exact Hsp|by eapply Hprice].
  - apply (Henv Examples.net_200 25). by vm_compute.
Defined.


(** ** The page loop (C5, C6) *)
Section Pages.
Context `{Runtime}.

(** The requests made are a prefix of the pages planned. *)
Lemma scrape_prefix net q mr pages products :
  (scrape net q mr pages products).1 `prefix_of` pages.
Proof.
  revert products. induction pages as [|page pages IH]; intros products; cbn.
  - done.
  - destruct (net q page) as [msg|status text]; cbn.
    + apply prefix_cons, prefix_nil.
    + destruct (negb (status =? 200)); [apply prefix_cons, prefix_nil|].
      destruct (_ >=? mr); [apply prefix_cons, prefix_nil|].
      specialize (IH (products ++ parse_search_results text q)).
      destruct (scrape _ _ _ pages _) as [req r]. cbn in *.
      by apply prefix_cons.
Qed.

(** When every planned page answers with status 200, all are requested. *)
Lemma scrape_all net q mr pages :
  (forall page, page ∈ pages -> exists text, net q page = Response 200 text) ->
  0 < mr \/ (length pages <= 1)%nat ->
  scrape net q mr pages [] = (pages, Ok []).
Proof.
  induction pages as [|page pages IH]; intros Hnet Hmr; [done|].
  cbn. destruct (Hnet page) as [text ->]; [apply list_elem_of_here|]. cbn.
  rewrite parse_search_results_nil. cbn.
  change (Z.of_nat 0) with 0. rewrite Z.geb_leb.
  destruct (Z.leb_spec mr 0).
  - destruct Hmr as [?|Hlen]; [lia|].
    destruct pages; [done|cbn in Hlen; lia].
  - rewrite IH; [done| |left; lia].
    intros p Hp. by apply Hnet, list_elem_of_further.
Qed.

(** A request that raises after pages that answered with status 200. *)
Lemma scrape_raises net q mr before page after message :
  (forall p, p ∈ before -> exists text, net q p = Response 200 text) ->
  net q page = RequestException message ->
  0 < mr \/ before = [] ->
  scrape net q mr (before ++ page :: after) [] =
  (before ++ [page], Raise message).
Proof.
  induction before as [|p before IH]; intros Hnet Hpage Hmr; cbn.
  - by rewrite Hpage.
  - destruct (Hnet p) as [text ->]; [apply list_elem_of_here|]. cbn.
    rewrite parse_search_results_nil. cbn.
    destruct Hmr as [Hmr|?]; [|done].
    change (Z.of_nat 0) with 0. rewrite Z.geb_leb.
    destruct (Z.leb_spec mr 0); [lia|].
    rewrite IH; [done| |done|by left].
    intros p' Hp'. by apply Hnet, list_elem_of_further.
Qed.

Lemma pages_to_scrape_small mr : mr <= 0 -> pages_to_scrape mr <= 1.
Proof.
  intros Hmr. unfold pages_to_scrape.
  assert (mr / 10 <= 0) by (apply Z.div_le_upper_bound; lia). lia.
Qed.

Lemma failure_envelope_eq message query :
  <["query" := EStr query]>
    (<["error" := EStr message]>
       (<["products" := EProducts []]>
          (<["success" := EBool false]> (∅ : Envelope))))
  = failure_envelope message query.
Proof.
  apply map_eq. intros k. unfold failure_envelope. cbn.
  repeat (rewrite !lookup_insert; repeat case_decide; subst; try done).
Qed.
End Pages.


(** C5.  An exception that reaches the handler of [search_products] is
    not raised again: the result is the failure envelope with the message
    of the exception and the query.  The only call of the [try] block that
    raises is the request: when the request for a page raises, after
    pages that answered with status 200 (none, for the first request), the
    envelope is [{success: false, products: [], error: message, query}]. *)
Theorem C5_failure_envelope `{Runtime} (net : network) (query : pystr)
    (max_results : Z) (message : pystr) :
  ((search_body net query max_results).2 = Raise message ->
   search_products net query max_results = failure_envelope message query)
  /\ (forall page,
        1 <= page <= pages_to_scrape max_results ->
        (forall p, 1 <= p < page -> exists text, net query p = Response 200 text) ->
        net query page = RequestException message ->
        (search_body net query max_results).2 = Raise message
        /\ search_products net query max_results
           = failure_envelope message query).
Proof.
  assert ((search_body net query max_results).2 = Raise message ->
          search_products net query max_results
          = failure_envelope message query) as Hraise.
  { unfold search_products. intros ->. apply failure_envelope_eq. }
  split; [exact Hraise|].
  intros page Hpage Hbefore Hnet.
  assert ((search_body net query max_results).2 = Raise message) as Hbody.
  { unfold search_body.
    assert (seqZ 1 (pages_to_scrape max_results)
            = seqZ 1 (page - 1) ++ page :: seqZ (page + 1)
                (pages_to_scrape max_results - page)) as ->.
    { replace (pages_to_scrape max_results)
        with ((page - 1) + (1 + (pages_to_scrape max_results - page)))
        at 1 by lia.
      rewrite seqZ_app by lia.
      rewrite (seqZ_cons (1 + (page - 1))) by lia.
      repeat f_equal; lia. }
    rewrite (scrape_raises _ _ _ _ _ _ message); [done| |done|].
    - intros p Hp%elem_of_seqZ. apply Hbefore. lia.
    - destruct (decide (0 < max_results)) as [|Hle]; [by left|right].
      pose proof (pages_to_scrape_small max_results ltac:(lia)).
      assert (page = 1) as -> by lia. done. }
  split; [exact Hbody|by apply Hraise].
Qed.

(** The site cannot be reached: the first request raises. *)
Lemma C5_witness :
  let R := Concrete.runtime None in
  (search_body Examples.net_down Examples.query 25).2
  = Raise (u "connection refused")
  /\ search_products Examples.net_down Examples.query 25
     = failure_envelope (u "connection refused") Examples.query.
Proof.
  intros R.
  apply (proj2 (C5_failure_envelope Examples.net_down Examples.query 25
                  (u "connection refused")) 1).
  - by vm_compute.
  - intros p Hp. lia.
  - reflexivity.
Defined.

(** C6, counterexample.  The site answers the first request with status
    404: for [max_results = 25] one page is requested, not three. *)
Lemma C6_counterexample :
  let R := Concrete.runtime None in
  pages_requested Examples.net_404 Examples.query 25 = [1]
  /\ Z.min 3 (25 / 10 + 1) = 3
  /\ ~ C6_as_stated.
Proof.
  intros R. split; [by vm_compute|]. split; [by vm_compute|].
  intros Hclaim.
  specialize (Hclaim Examples.net_404 Examples.query 25).
  by vm_compute in Hclaim.
Qed.

(** C6, amended.  [pages_to_scrape = min(3, floor(max_results / 10) + 1)]
    bounds the page loop: the pages requested are a prefix of
    [1, ..., pages_to_scrape], so at most [max(0, pages_to_scrape)] of
    them, and they are all of them when every one answers with status
    200; then three pages are requested for [max_results = 25] and one
    for [max_results = 5]. *)
Theorem C6_pages_requested `{Runtime} (net : network) (query : pystr)
    (max_results : Z) :
  let planned := Z.min 3 (max_results / 10 + 1) in
  pages_requested net query max_results `prefix_of` seqZ 1 planned
  /\ Z.of_nat (length (pages_requested net query max_results))
     <= Z.max 0 planned
  /\ ((forall page, 1 <= page <= planned ->
         exists text, net query page = Response 200 text) ->
      pages_requested net query max_results = seqZ 1 planned
      /\ Z.of_nat (length (pages_requested net query max_results))
         = Z.max 0 planned
      /\ (max_results = 25 ->
          pages_requested net query max_results = [1; 2; 3])
      /\ (max_results = 5 -> pages_requested net query max_results = [1])).
Proof.
  intros planned.
  assert (pages_requested net query max_results `prefix_of` seqZ 1 planned)
    as Hprefix.
  { unfold pages_requested, search_body.
    pose proof (scrape_prefix net query max_results
                  (seqZ 1 (pages_to_scrape max_results)) []) as Hp.
    destruct (scrape _ _ _ _ _) as [req r]. exact Hp. }
  split; [exact Hprefix|]. split.
  - apply prefix_length in Hprefix. rewrite length_seqZ in Hprefix. lia.
  - intros Hnet.
    assert (pages_requested net query max_results = seqZ 1 planned) as Hall.
    { unfold pages_requested, search_body.
      rewrite scrape_all; [done| |].
      - intros page Hpage%elem_of_seqZ. apply Hnet.
        unfold pages_to_scrape in Hpage. lia.
      - destruct (decide (0 < max_results)) as [|Hle]; [by left|right].
        pose proof (pages_to_scrape_small max_results ltac:(lia)).
        rewrite length_seqZ. lia. }
    split; [exact Hall|]. split; [rewrite Hall, length_seqZ; lia|].
    rewrite Hall. subst planned. split; intros ->; reflexivity.
Qed.

(** A site that answers every request with status 200. *)
Lemma C6_witness :
  let R := Concrete.runtime None in
  pages_requested Examples.net_200 Examples.query 25 = [1; 2; 3].
Proof.
  intros R.
  apply (C6_pages_requested Examples.net_200 Examples.query 25).
  - intros page _. by exists [].
  - reflexivity.
Defined.

(** ** Reading an amount (C7) *)
Section Amounts.
Context `{Runtime}.

(** A repetition that ends the pattern takes the whole run. *)
Lemma greedy_run cls in_group run after g :
  Forall (fun c => cls c = true) run ->
  match after with c :: _ => cls c = false | [] => True end ->
  Re.greedy cls in_group (fun _ g => Some (rev g)) (run ++ after) g
  = Some (rev ((if in_group then rev run else []) ++ g)).
Proof.
  intros Hrun Hafter. revert g.
  induction Hrun as [|c run Hc _ IH]; intros g; cbn.
  - destruct after as [|c after]; cbn; [by destruct in_group|].
    rewrite Hafter. by destruct in_group.
  - rewrite Hc, IH. destruct in_group; [|done].
    by rewrite <- app_assoc.
Qed.

Lemma match_currency_group amount after :
  amount <> [] ->
  Forall (fun c => digit_or_comma c = true) amount ->
  match after with c :: _ => digit_or_comma c = false | [] => True end ->
  Re.match_here currency_group (RUPEE :: amount ++ after) [] = Some amount.
Proof.
  intros Hne Hall Hafter.
  destruct amount as [|c amount]; [done|].
  apply Forall_cons in Hall as [Hc Hall].
  change (Re.match_here currency_group (RUPEE :: (c :: amount) ++ after) [])
    with (if digit_or_comma c
          then Re.greedy digit_or_comma true (fun _ g => Some (rev g))
                 (amount ++ after) [c]
          else None).
  rewrite Hc.
  rewrite (greedy_run digit_or_comma true amount after [c] Hall Hafter).
  by rewrite rev_app_distr, rev_involutive.
Qed.

(** No match starts at a rupee sign that is not followed by a digit or
    a comma; [next] is the character after [before]. *)
Lemma search_currency_group_skip before next s :
  (forall b1 b2, before = b1 ++ RUPEE :: b2 ->
                 digit_or_comma (hd next b2) = false) ->
  Re.search currency_group (before ++ next :: s)
  = Re.search currency_group (next :: s).
Proof.
  induction before as [|c before IH]; intros Hbare; [done|].
  assert (Re.match_here currency_group ((c :: before) ++ next :: s) [] = None)
    as Hhere.
  { cbn. unfold Re.lit.
    destruct (N.eqb_spec c RUPEE) as [->|_]; [|done].
    specialize (Hbare [] before eq_refl).
    destruct before as [|c' before]; cbn in *; by rewrite Hbare. }
  change (Re.search currency_group ((c :: before) ++ next :: s))
    with (match Re.match_here currency_group ((c :: before) ++ next :: s) []
          with
          | Some g => Some g
          | None => Re.search currency_group (before ++ next :: s)
          end).
  rewrite Hhere. apply IH.
  intros b1 b2 ->. by apply (Hbare (c :: b1) b2).
Qed.

Lemma decimal_comma : decimal 44 = None.
Proof. by rewrite decimal_ascii. Qed.

Lemma remove_commas_digits amount :
  Forall (fun c => digit_or_comma c = true) amount ->
  Forall (fun c => is_Some (decimal c)) (remove_commas amount)
  /\ omap decimal (remove_commas amount) = omap decimal amount.
Proof.
  unfold remove_commas.
  induction 1 as [|c amount Hc _ [IH1 IH2]]; [done|].
  rewrite filter_cons. destruct (decide (c <> 44%N)) as [Hne|Heq].
  - unfold digit_or_comma in Hc.
    apply orb_prop in Hc as [Hd%bool_decide_eq_true|Hcomma%N.eqb_eq]; [|done].
    split; [by constructor|]. cbn. by rewrite IH2.
  - apply dec_stable in Heq as ->. split; [done|].
    cbn. by rewrite decimal_comma.
Qed.

Lemma int_digits_value s acc :
  Forall (fun c => is_Some (decimal c)) s ->
  int_digits acc s
  = Ok (acc * 10 ^ Z.of_nat (length s) + decimal_value (omap decimal s)).
Proof.
  intros Hs. revert acc.
  induction Hs as [|c s [d Hd] Hs IH]; intros acc; cbn [int_digits].
  - cbn. f_equal. lia.
  - rewrite Hd, IH. cbn [omap list_omap length]. rewrite Hd. cbn [decimal_value].
    f_equal.
    assert (length (omap decimal s) = length s) as ->.
    { clear IH. induction Hs as [|c' s' [d' Hd'] _ IH']; [done|].
      cbn. rewrite Hd'. cbn. by rewrite IH'. }
    rewrite Nat2Z.inj_succ, Z.pow_succ_r by lia. lia.
Qed.

Lemma decimal_value_nonneg (s : pystr) : 0 <= decimal_value (omap decimal s).
Proof.
  induction s as [|c s IH]; [done|].
  cbn. destruct (decimal c) as [d|] eqn:Hd; [|done].
  cbn. apply decimal_digit in Hd.
  assert (0 <= 10 ^ Z.of_nat (length (omap decimal s))) by lia. nia.
Qed.

Lemma int_remove_commas amount :
  Forall (fun c => digit_or_comma c = true) amount ->
  Exists (fun c => is_Some (decimal c)) amount ->
  int (remove_commas amount)
  = if too_many_digits (length (remove_commas amount))
    then Raise ValueError
    else Ok (decimal_value (omap decimal amount)).
Proof.
  intros Hall Hex.
  destruct (remove_commas_digits amount Hall) as [Hdigits Heq].
  unfold int.
  destruct (remove_commas amount) as [|c s] eqn:E.
  - exfalso. apply Exists_exists in Hex as (c & Hin & Hd).
    assert (c ∈ remove_commas amount) as Hc.
    { unfold remove_commas. apply list_elem_of_filter. split; [|done].
      intros ->. rewrite decimal_comma in Hd. by destruct Hd. }
    rewrite E in Hc. by apply not_elem_of_nil in Hc.
  - destruct (too_many_digits _); [done|].
    rewrite int_digits_value by done. by rewrite Heq.
Qed.

(** The limit, when there is one, lets 640 digits through. *)
Lemma few_digits digits :
  (digits <= 640)%nat -> too_many_digits digits = false.
Proof.
  intros Hfew. unfold too_many_digits.
  destruct int_max_str_digits_range as [->|Hmin]; [done|].
  apply andb_false_intro2, Z.ltb_ge. lia.
Qed.

Lemma too_many_digits_cases digits :
  if too_many_digits digits
  then 0 < int_max_str_digits < Z.of_nat digits
  else int_max_str_digits = 0 \/ Z.of_nat digits <= int_max_str_digits.
Proof.
  unfold too_many_digits.
  destruct (Z.ltb_spec 0 int_max_str_digits),
           (Z.ltb_spec int_max_str_digits (Z.of_nat digits)); cbn; try lia.
  destruct int_max_str_digits_range; lia.
Qed.

(** Whatever [int] returns is not negative. *)
Lemma int_nonneg s n : int s = Ok n -> 0 <= n.
Proof.
  unfold int. destruct s as [|c s]; [done|].
  destruct (too_many_digits _); [done|].
  assert (forall t acc m, 0 <= acc -> int_digits acc t = Ok m -> 0 <= m) as Hgen.
  { induction t as [|c' t IH]; intros acc m Hacc; cbn.
    - intros [= <-]. done.
    - destruct (decimal c') as [d|] eqn:Hd; [|done].
      apply decimal_digit in Hd. apply IH. lia. }
  by apply Hgen.
Qed.

Lemma first_amount_search before amount after :
  first_amount before amount after ->
  Re.search currency_group (before ++ RUPEE :: amount ++ after)
  = Some amount.
Proof.
  intros (Hbefore & Hall & Hex & Hafter).
  rewrite search_currency_group_skip by done.
  cbn [Re.search]. rewrite match_currency_group; try done.
  intros ->. by apply Exists_nil in Hex.
Qed.

Lemma first_amount_parse before amount after :
  first_amount before amount after ->
  parse_price (before ++ RUPEE :: amount ++ after)
  = if too_many_digits (length (remove_commas amount))
    then Raise ValueError
    else Ok (Some (decimal_value (omap decimal amount))).
Proof.
  intros Hfirst. unfold parse_price.
  rewrite (first_amount_search _ _ _ Hfirst).
  destruct Hfirst as (_ & Hall & Hex & _).
  rewrite int_remove_commas by done.
  by destruct (too_many_digits _).
Qed.

(** An amount made of separators only matches the pattern and is not a
    number: [int('')] raises. *)
Lemma parse_price_separators_only :
  parse_price (RUPEE :: u ",") = Raise ValueError.
Proof.
  unfold parse_price.
  change (RUPEE :: u ",") with (RUPEE :: [44%N] ++ []).
  cbn [Re.search]. rewrite match_currency_group; [|done| |done].
  - unfold remove_commas. rewrite filter_cons, decide_False by (intros ?; done).
    done.
  - constructor; [|done]. unfold digit_or_comma. by rewrite orb_true_r.
Qed.

Lemma parse_price_nonneg text n : parse_price text = Ok (Some n) -> 0 <= n.
Proof.
  unfold parse_price.
  destruct (Re.search currency_group text) as [g|]; [|done].
  destruct (int (remove_commas g)) as [m|] eqn:E; [|done].
  cbn. intros [= <-]. by eapply int_nonneg.
Qed.
End Amounts.

(** C7, counterexample.  With the default limit of 4300 digits, a
    rupee sign followed by 4301 digits matches the currency pattern,
    [int] refuses the digits and price parsing raises; the container
    then yields no record. *)
Lemma C7_counterexample :
  let R := Concrete.runtime None in
  Re.search currency_group (RUPEE :: replicate 4301 49%N)
  = Some (replicate 4301 49%N)
  /\ parse_price (RUPEE :: replicate 4301 49%N) = Raise ValueError
  /\ ~ C7_as_stated.
Proof.
  intros R.
  assert (parse_price (RUPEE :: replicate 4301 49%N) = Raise ValueError)
    as Hraise by (vm_compute; reflexivity).
  split; [vm_compute; reflexivity|]. split; [exact Hraise|].
  intros Hclaim.
  specialize (Hclaim [] (replicate 4301 49%N) []).
  rewrite app_nil_r in Hclaim. cbn [app] in Hclaim.
  rewrite Hraise in Hclaim.
  assert (Raise ValueError
          = Ok (Some (decimal_value (omap decimal (replicate 4301 49%N)))))
    as Habsurd; [|discriminate].
  apply Hclaim. split; [|split; [|split]].
  - intros [|? b1] b2 Heq; discriminate.
  - by apply Forall_replicate.
  - apply Exists_cons_hd. by eexists.
  - done.
Qed.

(** C7, amended.  A text whose first match of the currency pattern is a
    rupee sign followed by digits and comma separators, at least one
    digit among them: price parsing finds that amount, removes the
    separators and returns the number the remaining digits denote,
    provided they are not more than [int] converts (4300 by default, and
    never fewer than 640); with more digits it raises [ValueError].  In
    particular it returns 12345 for [₹12,345]. *)
Theorem C7_parse_price `{Runtime} :
  (forall before amount after : pystr,
     first_amount before amount after ->
     let digits := Z.of_nat (length (remove_commas amount)) in
     Re.search currency_group (before ++ RUPEE :: amount ++ after)
     = Some amount
     /\ (int_max_str_digits = 0 \/ digits <= int_max_str_digits \/ digits <= 640 ->
         parse_price (before ++ RUPEE :: amount ++ after)
         = Ok (Some (decimal_value (omap decimal amount))))
     /\ (0 < int_max_str_digits < digits ->
         parse_price (before ++ RUPEE :: amount ++ after)
         = Raise ValueError))
  /\ parse_price (RUPEE :: u "12,345") = Ok (Some 12345).
Proof.
  assert (forall before amount after : pystr,
     first_amount before amount after ->
     let digits := Z.of_nat (length (remove_commas amount)) in
     Re.search currency_group (before ++ RUPEE :: amount ++ after)
     = Some amount
     /\ (int_max_str_digits = 0 \/ digits <= int_max_str_digits \/ digits <= 640 ->
         parse_price (before ++ RUPEE :: amount ++ after)
         = Ok (Some (decimal_value (omap decimal amount))))
     /\ (0 < int_max_str_digits < digits ->
         parse_price (before ++ RUPEE :: amount ++ after)
         = Raise ValueError)) as Hgen.
  { intros before amount after Hfirst digits.
    split; [by apply first_amount_search|].
    rewrite (first_amount_parse _ _ _ Hfirst).
    pose proof (too_many_digits_cases (length (remove_commas amount)))
      as Hcases.
    pose proof (few_digits (length (remove_commas amount))) as Hfew.
    destruct (too_many_digits _).
    - split; [|done]. intros [?|[?|?]]; [lia|lia|].
      assert (true = false) by (apply Hfew; lia). discriminate.
    - split; [done|]. lia. }
  split; [exact Hgen|].
  destruct (Hgen [] (u "12,345") []) as (_ & Hp & _).
  - split; [|split; [|split]].
    + intros [|? b1] b2 Heq; discriminate.
    + unfold digit_or_comma.
      repeat (constructor; [by rewrite decimal_ascii|]). constructor.
    + apply Exists_cons_hd. by rewrite decimal_ascii.
    + done.
  - rewrite app_nil_r in Hp. cbn [app] in Hp. rewrite Hp.
    + cbn. rewrite !decimal_ascii by done. reflexivity.
    + right. right. vm_compute. discriminate.
Qed.

(** An amount inside a sentence, after a rupee sign that stands alone. *)
Lemma C7_witness :
  let R := Concrete.runtime None in
  parse_price ([RUPEE; 32%N] ++ RUPEE :: u "1,299" ++ u " only")
  = Ok (Some 1299).
Proof.
  intros R.
  refine (proj1 (proj2 (proj1 C7_parse_price
                          [RUPEE; 32%N] (u "1,299") (u " only") _)) _).
  - split; [|split; [|split]].
    + intros b1 b2 Heq. unfold RUPEE in Heq.
      destruct b1 as [|? [|? [|? b1]]]; cbn in Heq; simplify_eq.
      reflexivity.
    + apply (bool_decide_unpack _). vm_compute. exact I.
    + apply (bool_decide_unpack _). vm_compute. exact I.
    + reflexivity.
  - right. left. vm_compute. discriminate.
Defined.


(** ** The tree *)
Section Tree.

Lemma node_ind (P : node -> Prop) :
  (forall s, P (NavigableString s)) ->
  (forall s, P (Comment s)) ->
  (forall name attrs contents, Forall P contents -> P (Tag name attrs contents)) ->
  forall n, P n.
Proof.
  intros Hs Hc Ht. fix IH 1.
  intros [s|s|name attrs contents]; [apply Hs|apply Hc|].
  apply Ht. induction contents as [|c l IHl]; constructor; [apply IH|exact IHl].
Qed.

Lemma descendants_tag name attrs contents :
  descendants (Tag name attrs contents)
  = flat_map (fun c => c :: descendants c) contents.
Proof.
  cbn. induction contents as [|c l IH]; [done|].
  cbn. by rewrite IH.
Qed.

Lemma elem_of_descendants_tag x name attrs contents :
  x ∈ descendants (Tag name attrs contents) <->
  exists c, c ∈ contents /\ (x = c \/ x ∈ descendants c).
Proof.
  rewrite descendants_tag, list_elem_of_In, in_flat_map.
  split; intros (c & Hc & Hx); exists c.
  - apply list_elem_of_In in Hc. split; [done|].
    destruct Hx as [->|Hx]; [by left|right; by apply list_elem_of_In].
  - apply list_elem_of_In in Hc. split; [done|].
    destruct Hx as [->|Hx]; [by left|right; by apply list_elem_of_In].
Qed.

(** A descendant of a descendant is a descendant. *)
Lemma descendants_trans n e x :
  e ∈ descendants n -> x ∈ descendants e -> x ∈ descendants n.
Proof.
  induction n as [s|s|name attrs contents IH] using node_ind; intros He Hx.
  - by apply not_elem_of_nil in He.
  - by apply not_elem_of_nil in He.
  - apply elem_of_descendants_tag in He as (c & Hc & He).
    apply elem_of_descendants_tag. exists c. split; [done|].
    right. destruct He as [->|He]; [done|].
    rewrite Forall_forall in IH. by apply (IH c).
Qed.

(** The string of a tag is one of its descendants. *)
Lemma string_of_descendant name attrs contents s :
  string_of (Tag name attrs contents) = Some s ->
  exists n, n ∈ descendants (Tag name attrs contents)
            /\ string_node n = Some s.
Proof.
  revert name attrs.
  assert (forall n, match n with
                    | Tag name attrs contents =>
                        string_of n = Some s ->
                        exists d, d ∈ descendants n /\ string_node d = Some s
                    | _ => True
                    end) as Hgen.
  { clear contents.
    induction n as [t|t|name attrs contents IH] using node_ind; [done..|].
    destruct contents as [|c [|c' l]]; [done| |done].
    cbn [string_of]. intros Hs.
    apply Forall_cons in IH as [IHc _].
    destruct c as [t|t|name' attrs' contents'].
    - exists (NavigableString t). split; [|done].
      apply elem_of_descendants_tag. exists (NavigableString t).
      split; [apply list_elem_of_here|by left].
    - exists (Comment t). split; [|done].
      apply elem_of_descendants_tag. exists (Comment t).
      split; [apply list_elem_of_here|by left].
    - destruct (IHc Hs) as (d & Hd & Hstr). exists d. split; [|done].
      apply elem_of_descendants_tag. exists (Tag name' attrs' contents').
      split; [apply list_elem_of_here|by right]. }
  intros name attrs. apply (Hgen (Tag name attrs contents)).
Qed.

Lemma head_filter_Some {A} (P : A -> bool) (l : list A) (x : A) :
  head (List.filter P l) = Some x ->
  exists before after,
    l = before ++ x :: after /\ P x = true
    /\ Forall (fun y => P y = false) before.
Proof.
  induction l as [|y l IH]; [done|].
  cbn. destruct (P y) eqn:Hy.
  - cbn. intros [= ->]. by exists [], l.
  - intros (before & after & -> & Hx & Hb)%IH.
    exists (y :: before), after. by repeat split; [|constructor].
Qed.

Lemma head_filter_None {A} (P : A -> bool) (l : list A) :
  head (List.filter P l) = None -> Forall (fun y => P y = false) l.
Proof.
  induction l as [|y l IH]; [done|].
  cbn. destruct (P y) eqn:Hy; [done|]. intros Hn. constructor; auto.
Qed.

Lemma find_Some n st e :
  find n st = Some e -> e ∈ descendants n /\ keeps st e = true.
Proof.
  unfold find, find_all.
  intros (before & after & Heq & He & _)%head_filter_Some.
  split; [|done]. rewrite Heq, elem_of_app. right. apply list_elem_of_here.
Qed.
End Tree.

(** ** The validity gate (C2) *)
Section Gate.
Context `{Runtime}.

Lemma find_by_string name p c e :
  find c (by_string name p) = Some e ->
  is_element e = true
  /\ exists n s, n ∈ descendants c /\ string_node n = Some s
                 /\ found p s = true.
Proof.
  intros [He Hkeep]%find_Some.
  destruct e as [s|s|nm attrs contents]; [done..|]. split; [done|].
  cbn in Hkeep. apply andb_prop in Hkeep as [_ Hstr].
  change (string_matches (string_of (Tag nm attrs contents)) p = true) in Hstr.
  destruct (string_of (Tag nm attrs contents)) as [s|] eqn:Es; [|done].
  destruct (string_of_descendant _ _ _ _ Es) as (n & Hn & Hs).
  exists n, s. split; [|done].
  by eapply descendants_trans.
Qed.

Lemma find_by_text p c e :
  find c (by_text p) = Some e ->
  exists s, string_node e = Some s
            /\ e ∈ descendants c /\ found p s = true.
Proof.
  intros [He Hkeep]%find_Some.
  destruct e as [s|s|nm attrs contents]; [by exists s..|done].
Qed.

Lemma price_elem_text c e :
  price_elem c = Some e -> has_price_text c.
Proof.
  unfold price_elem, or_else.
  destruct (find c (by_string "div" currency)) as [e1|] eqn:E1.
  { apply find_by_string in E1 as [He1 Htext].
    destruct e1; [done..|]. intros _. exact Htext. }
  destruct (find c (by_string "span" currency)) as [e2|] eqn:E2.
  { apply find_by_string in E2 as [He2 Htext].
    destruct e2; [done..|]. intros _. exact Htext. }
  intros (s & Hs & He & Hfound)%find_by_text. by exists e, s.
Qed.

Lemma no_price_text c : ~ has_price_text c -> price_of c = Ok None.
Proof.
  intros Hno. unfold price_of.
  destruct (price_elem c) as [e|] eqn:E; [|done].
  destruct Hno. by eapply price_elem_text.
Qed.

Lemma no_title_text c :
  ~ has_title_text c -> title_of c = None \/ title_of c = Some [].
Proof.
  intros Hno. unfold title_of.
  destruct (title_elem c) as [e|] eqn:E; [|by left].
  destruct (truthy_node e); [|by left]. right.
  destruct (get_text_strip e) as [|x t] eqn:Et; [done|].
  destruct Hno. exists e. split; [done|]. by rewrite Et.
Qed.

Lemma has_price_text_existsb c :
  has_price_text c ->
  existsb (fun n => match string_node n with
                    | Some s => found currency s
                    | None => false
                    end) (descendants c) = true.
Proof.
  intros (n & s & Hn & Hs & Hfound). apply existsb_exists.
  exists n. split; [by apply list_elem_of_In|by rewrite Hs].
Qed.

(** What the gate lets through. *)
Lemma extract_product_info_gate c q p :
  extract_product_info c q = Some p ->
  exists t sp,
    title_of c = Some t /\ t <> [] /\ p !! "title" = Some (VStr t)
    /\ price_of c = Ok (Some sp) /\ 0 < sp
    /\ p !! "sellingPrice" = Some (VInt sp).
Proof.
  intros [Hb [Ht Hs]]%extract_product_info_inv.
  apply extract_body_inv in Hb as (sp & m & rt & Hsp & _ & _ & _ & Hk).
  unfold truthy_get in Ht, Hs.
  rewrite Hk, fields_title in Ht; [| |done].
  2:{ unfold extracted_keys. set_solver. }
  rewrite Hk, fields_sellingPrice in Hs; [| |done].
  2:{ unfold extracted_keys. set_solver. }
  destruct (title_of c) as [t|] eqn:Et; [|done].
  destruct sp as [n|]; [|done]. cbn in Ht, Hs.
  exists t, n. split; [done|]. split.
  { intros ->. done. }
  split.
  { rewrite Hk, fields_title; [done| |done].
    unfold extracted_keys. set_solver. }
  split; [done|]. split.
  { assert (0 <= n) as Hn.
    { unfold price_of in Hsp.
      destruct (price_elem c) as [e|]; [|done].
      destruct (truthy_node e); [|done]. by eapply parse_price_nonneg. }
    destruct (Z.eqb_spec n 0); [done|lia]. }
  rewrite Hk, fields_sellingPrice; [done| |done].
  unfold extracted_keys. set_solver.
Qed.
End Gate.

(** C2.  [extract_product_info] returns a record only when both [title]
    and [sellingPrice] ended up in it and true: the title is a string
    that is not empty, of at most 100 characters, the selling price an
    integer that is not zero.  A container without title text or without
    price text, in particular one that lacks both, yields [None]. *)
Theorem C2_validity_gate `{Runtime} (container : node) (query : pystr) :
  (forall p, extract_product_info container query = Some p ->
     truthy_get p "title" = true /\ truthy_get p "sellingPrice" = true
     /\ exists t sp,
          p !! "title" = Some (VStr t) /\ t <> [] /\ (length t <= 100)%nat
          /\ p !! "sellingPrice" = Some (VInt sp) /\ sp <> 0)
  /\ (~ has_title_text container /\ ~ has_price_text container ->
      extract_product_info container query = None)
  /\ (~ has_title_text container \/ ~ has_price_text container ->
      extract_product_info container query = None).
Proof.
  assert (~ has_title_text container \/ ~ has_price_text container ->
          extract_product_info container query = None) as Hlack.
  { intros Hno.
    destruct (extract_product_info container query) as [p|] eqn:E; [|done].
    apply extract_product_info_gate in E
      as (t & sp & Ht & Hne & _ & Hsp & _ & _).
    destruct Hno as [Hno|Hno].
    - apply no_title_text in Hno as [Hno|Hno]; congruence.
    - apply no_price_text in Hno. congruence. }
  split; [|split; [intros [Hno _]; apply Hlack; by left|exact Hlack]].
  intros p Hp.
  destruct (extract_product_info_inv _ _ _ Hp) as (_ & Ht & Hs).
  split; [done|]. split; [done|].
  apply extract_product_info_gate in Hp
    as (t & sp & Htitle & Hne & Hpt & _ & Hpos & Hps).
  exists t, sp. repeat split; try done; [|lia].
  unfold title_of in Htitle.
  destruct (title_elem container) as [e|]; [|done].
  destruct (truthy_node e); [|done].
  injection Htitle as <-. rewrite length_take. lia.
Qed.

(** The listing of the examples passes the gate; a container with
    neither a title nor a price does not. *)
Lemma C2_witness :
  let R := Concrete.runtime None in
  (exists t, extract_product_info Examples.listing Examples.query
             ≫= (.!! "title") = Some (VStr t) /\ t <> [])
  /\ extract_product_info
       (Examples.elem "div" [("data-id", "9")] [Examples.text "sold out"])
       Examples.query = None.
Proof.
  intros R. split.
  - assert (is_Some (extract_product_info Examples.listing Examples.query))
      as [p E] by (apply (bool_decide_unpack _); vm_compute; exact I).
    rewrite E.
    destruct (proj1 (C2_validity_gate Examples.listing Examples.query) p E)
      as (_ & _ & t & sp & Ht & Hne & _).
    exists t. by split.
  - apply (proj1 (proj2 (C2_validity_gate _ Examples.query))).
    split.
    + intros (e & He & _). by vm_compute in He.
    + intros Hp%has_price_text_existsb. by vm_compute in Hp.
Defined.


(** ** The MRP (C3) *)
Section Mrp.
Context `{Runtime}.

Lemma greedy_total cls in_group s g :
  is_Some (Re.greedy cls in_group (fun _ g => Some (rev g)) s g).
Proof.
  revert g. induction s as [|c s IH]; intros g; cbn; [done|].
  destruct (cls c); [|done].
  by destruct (IH (if in_group then c :: g else g)) as [r ->].
Qed.

(** The pattern with and without its group matches at the same places. *)
Lemma match_here_currency s :
  is_Some (Re.match_here currency s []) <->
  is_Some (Re.match_here currency_group s []).
Proof.
  destruct s as [|r [|c s]]; cbn.
  - done.
  - by destruct (Re.lit RUPEE r).
  - destruct (Re.lit RUPEE r); [|done].
    destruct (digit_or_comma c); [|done].
    split; intros _; apply greedy_total.
Qed.

Lemma search_currency s :
  is_Some (Re.search currency s) <-> is_Some (Re.search currency_group s).
Proof.
  induction s as [|c s IH].
  - cbn. done.
  - cbn [Re.search].
    pose proof (match_here_currency (c :: s)) as Hm.
    destruct (Re.match_here currency (c :: s) []) as [g|],
             (Re.match_here currency_group (c :: s) []) as [g'|];
      try done.
    + destruct Hm as [Hm _]. by destruct Hm.
    + destruct Hm as [_ Hm]. by destruct Hm.
Qed.

End Mrp.

(** The searches by text see comments too: the amount in the comment
    of [listing_comment] becomes the MRP, and the title, which
    [get_text] builds, leaves comments out. *)
Lemma mrp_from_comment :
  let R := Concrete.runtime None in
  first_amount_of Examples.listing_comment = Ok (Some 9)
  /\ price_of Examples.listing_comment = Ok (Some 5)
  /\ title_of (Examples.elem "div" []
                 [Examples.listing_comment]) = Some (u "Phone")
  /\ extract_product_info Examples.listing_comment Examples.query
     ≫= (.!! "mrp") = Some (VInt 9).
Proof. intros R. repeat split; vm_compute; reflexivity. Qed.

(** C3.  The scenario of the specification: a title, the selling price
    14,999 in one element and the greater price 19,999 in the next.  The
    MRP step searches the text for an amount again and [find] hands it
    the first one, which is the selling price; 14999 is not greater than
    14999, and the record has neither [mrp] nor [discount], though the
    second and greater price stands in the text.  With the greater price
    first, the same step does find it. *)
Theorem C3_second_price_missed :
  let R := Concrete.runtime None in
  (exists p, extract_product_info Examples.listing Examples.query = Some p
             /\ p !! "sellingPrice" = Some (VInt 14999)
             /\ p !! "mrp" = None
             /\ p !! "discount" = None)
  /\ text_amounts Examples.listing = [14999; 19999]
  /\ first_amount_of Examples.listing = Ok (Some 14999)
  /\ (exists p, extract_product_info Examples.listing_mrp_first Examples.query
                = Some p
                /\ p !! "sellingPrice" = Some (VInt 14999)
                /\ p !! "mrp" = Some (VInt 19999))
  /\ ~ C3_as_stated.
Proof.
  intros R.
  assert (exists p, extract_product_info Examples.listing Examples.query = Some p
             /\ p !! "sellingPrice" = Some (VInt 14999)
             /\ p !! "mrp" = None
             /\ p !! "discount" = None) as Hp.
  { assert (extract_product_info Examples.listing Examples.query
            ≫= (.!! "sellingPrice") = Some (VInt 14999)) as Hsp
      by (vm_compute; reflexivity).
    assert (from_option (.!! "mrp") None
              (extract_product_info Examples.listing Examples.query)
            = None) as Hmrp
      by (vm_compute; reflexivity).
    assert (from_option (.!! "discount") None
              (extract_product_info Examples.listing Examples.query)
            = None) as Hdiscount
      by (vm_compute; reflexivity).
    destruct (extract_product_info Examples.listing Examples.query)
      as [p|]; [|discriminate].
    by exists p. }
  assert (text_amounts Examples.listing = [14999; 19999]) as Ht
    by (vm_compute; reflexivity).
  split; [exact Hp|]. split; [exact Ht|].
  split; [vm_compute; reflexivity|]. split.
  { assert (extract_product_info Examples.listing_mrp_first Examples.query
            ≫= (.!! "sellingPrice") = Some (VInt 14999)) as Hsp
      by (vm_compute; reflexivity).
    assert (extract_product_info Examples.listing_mrp_first Examples.query
            ≫= (.!! "mrp") = Some (VInt 19999)) as Hmrp
      by (vm_compute; reflexivity).
    destruct (extract_product_info Examples.listing_mrp_first Examples.query)
      as [p|]; [|discriminate].
    by exists p. }
  intros Hclaim. destruct Hp as (p & Hp & Hsp & Hmrp & _).
  destruct (Hclaim Examples.listing Examples.query p 14999 Hp Hsp) as [_ Hif].
  destruct Hif as [v Hv].
  - exists 19999. split; [|lia]. rewrite Ht.
    apply list_elem_of_further, list_elem_of_here.
  - congruence.
Qed.


(** ** One field and the others (C4) *)

(** C4, counterexample.  A listing with a title, a price and the rating
    text [1.2.3★]: the text matches the rating pattern, [float('1.2.3')]
    raises, and the whole extraction is given up: no record, though the
    same listing without the rating text gives one. *)
Lemma C4_counterexample :
  let R := Concrete.runtime None in
  title_of Examples.listing_bad_rating = Some (u "Phone")
  /\ price_of Examples.listing_bad_rating = Ok (Some 100)
  /\ rating_of Examples.listing_bad_rating = Raise ValueError
  /\ extract_fields Examples.listing_bad_rating = Raise ValueError
  /\ extract_product_info Examples.listing_bad_rating Examples.query = None
  /\ is_Some (extract_product_info Examples.listing_no_rating Examples.query)
  /\ ~ C4_as_stated.
Proof.
  intros R.
  assert (extract_fields Examples.listing_bad_rating = Raise ValueError)
    as Hraise by (vm_compute; reflexivity).
  split; [vm_compute; reflexivity|].
  split; [vm_compute; reflexivity|].
  split; [vm_compute; reflexivity|].
  split; [exact Hraise|].
  split; [vm_compute; reflexivity|].
  split; [apply (bool_decide_unpack _); vm_compute; exact I|].
  intros Hclaim. specialize (Hclaim Examples.listing_bad_rating).
  cbv zeta in Hclaim. rewrite Hraise in Hclaim. discriminate.
Qed.

(** C4, amended.  A field that is missing leaves the others as they
    are: when no extraction raises, the record of the six extractions
    holds each of title, selling price, MRP, image URL, product URL and
    rating exactly when its own extraction finds it.  An extraction that
    raises (the price or the MRP on an amount without a digit or with
    more digits than [int] converts, the rating on a text that is not a
    number) gives up all of them:
    [extract_product_info] returns [None]. *)
Theorem C4_missing_or_raising `{Runtime} (container : node) :
  (forall sp first rt,
     price_of container = Ok sp ->
     first_amount_of container = Ok first ->
     rating_of container = Ok rt ->
     exists d,
       extract_fields container = Ok d
       /\ d !! "title" = VStr <$> title_of container
       /\ d !! "sellingPrice" = VInt <$> sp
       /\ d !! "mrp" = match first with
                       | Some m => if default 0 sp <? m then Some (VInt m) else None
                       | None => None
                       end
       /\ d !! "imageUrl" = VStr <$> image_of container
       /\ d !! "url" = VStr <$> url_of container
       /\ d !! "flipkartUrl" = VStr <$> url_of container
       /\ d !! "rating" = VFloat <$> rt)
  /\ (forall e,
        price_of container = Raise e
        \/ first_amount_of container = Raise e
        \/ rating_of container = Raise e ->
        (exists e', extract_fields container = Raise e')
        /\ forall query, extract_product_info container query = None).
Proof.
  split.
  - intros sp first rt Hsp Hfirst Hrt.
    rewrite extract_fields_view, Hsp. cbn.
    unfold mrp_of. rewrite Hfirst. cbn. rewrite Hrt. cbn.
    eexists. split; [reflexivity|].
    rewrite fields_title, fields_sellingPrice, fields_mrp, fields_imageUrl,
      fields_url, fields_flipkartUrl, fields_rating.
    repeat split; try done.
    destruct first as [m|]; [|done].
    rewrite Z.gtb_ltb. by destruct (_ <? m).
  - intros e He.
    assert (exists e', extract_fields container = Raise e') as [e' He'].
    { rewrite extract_fields_view.
      destruct (price_of container) as [sp|e1] eqn:E1; [|by exists e1].
      cbn. unfold mrp_of.
      destruct (first_amount_of container) as [first|e2] eqn:E2;
        [|by exists e2].
      cbn.
      destruct (rating_of container) as [rt|e3] eqn:E3; [|by exists e3].
      by destruct He as [|[|]]. }
    split; [by exists e'|].
    intros query. unfold extract_product_info, extract_body.
    by rewrite He'.
Qed.

(** The listing without a rating and the listing with the rating that
    is not a number. *)
Lemma C4_witness :
  let R := Concrete.runtime None in
  (exists d, extract_fields Examples.listing_no_rating = Ok d
             /\ d !! "title" = Some (VStr (u "Phone"))
             /\ d !! "sellingPrice" = Some (VInt 100)
             /\ d !! "rating" = None)
  /\ extract_product_info Examples.listing_bad_rating Examples.query = None.
Proof.
  intros R. split.
  - destruct (proj1 (C4_missing_or_raising Examples.listing_no_rating)
                (Some 100) (Some 100) None)
      as (d & Hd & Ht & Hsp & _ & _ & _ & _ & Hrt);
      [vm_compute; reflexivity..|].
    exists d. split; [exact Hd|]. split; [exact Ht|]. by split.
  - apply (proj2 (C4_missing_or_raising Examples.listing_bad_rating)
             ValueError).
    right. right. vm_compute. reflexivity.
Defined.

(** ** Floating point: division, multiplication and [round] *)
Section Rounding.

Lemma fexp_eq k : fexp 53 1024 k = Z.max (k - 53) (-1074).
Proof. reflexivity. Qed.

Lemma digits2_pos_bounds p :
  2 ^ (Zpos (digits2_pos p) - 1) <= Zpos p < 2 ^ Zpos (digits2_pos p).
Proof.
  induction p as [p IH|p IH|]; cbn [digits2_pos]; [| |by cbn].
  - rewrite Pos2Z.inj_succ.
    replace (Z.succ (Z.pos (digits2_pos p)) - 1)
      with (Z.succ (Z.pos (digits2_pos p) - 1)) by lia.
    rewrite !Z.pow_succ_r by lia. lia.
  - rewrite Pos2Z.inj_succ.
    replace (Z.succ (Z.pos (digits2_pos p)) - 1)
      with (Z.succ (Z.pos (digits2_pos p) - 1)) by lia.
    rewrite !Z.pow_succ_r by lia. lia.
Qed.

(** The number of binary digits of a number below [2 ^ k]. *)
Lemma Zdigits2_le m k : 0 <= m < 2 ^ k -> 0 <= k -> 0 <= Zdigits2 m <= k.
Proof.
  intros Hm Hk. destruct m as [|p|p]; [cbn; lia| |lia].
  cbn [Zdigits2]. pose proof (digits2_pos_bounds p) as [Hlow _].
  split; [lia|].
  destruct (Z.le_gt_cases (Zpos (digits2_pos p)) k) as [|Hgt]; [done|].
  assert (2 ^ k <= 2 ^ (Zpos (digits2_pos p) - 1))
    by (apply Z.pow_le_mono_r; lia).
  lia.
Qed.

Lemma shr_1_m r : 0 <= shr_m r -> shr_m (shr_1 r) = shr_m r / 2.
Proof.
  destruct r as [m rb sb]. cbn [shr_m]. intros Hm.
  destruct m as [|[p|p|]|p]; cbn [shr_1 shr_m]; [done| | |done|lia].
  - apply Z.div_unique with 1; lia.
  - apply Z.div_unique with 0; lia.
Qed.

Lemma iter_shr_1_m p r :
  0 <= shr_m r ->
  shr_m (SpecFloat.iter_pos shr_1 p r) = shr_m r / 2 ^ Zpos p.
Proof.
  revert r. induction p as [p IH|p IH|]; intros r Hr; cbn [SpecFloat.iter_pos].
  - assert (0 <= shr_m (shr_1 r)) as H1
      by (rewrite shr_1_m by done; apply Z.div_pos; lia).
    assert (0 <= shr_m (SpecFloat.iter_pos shr_1 p (shr_1 r))) as H2
      by (rewrite IH by done; apply Z.div_pos; lia).
    rewrite IH, IH, shr_1_m by done.
    rewrite !Z.div_div by lia. f_equal.
    rewrite (Pos2Z.inj_xI p).
    replace (2 * Z.pos p + 1) with (Z.pos p + Z.pos p + 1) by lia.
    rewrite !Z.pow_add_r by lia. lia.
  - assert (0 <= shr_m (SpecFloat.iter_pos shr_1 p r)) as H2
      by (rewrite IH by done; apply Z.div_pos; lia).
    rewrite IH, IH by done.
    rewrite !Z.div_div by lia. f_equal.
    rewrite (Pos2Z.inj_xO p).
    replace (2 * Z.pos p) with (Z.pos p + Z.pos p) by lia.
    rewrite !Z.pow_add_r by lia. lia.
  - rewrite shr_1_m by done. done.
Qed.

Lemma shr_record_of_loc_m m l : shr_m (shr_record_of_loc m l) = m.
Proof. by destruct l as [|[]]. Qed.

(** The first step of rounding: the mantissa is shifted to the exponent
    of the format. *)
Lemma shr_fexp_spec m e l :
  0 <= m ->
  let e' := Z.max e (fexp 53 1024 (Zdigits2 m + e)) in
  (shr_fexp 53 1024 m e l).2 = e'
  /\ shr_m (shr_fexp 53 1024 m e l).1 = m / 2 ^ (e' - e).
Proof.
  intros Hm e'. unfold shr_fexp, shr.
  destruct (fexp 53 1024 (Zdigits2 m + e) - e) as [|p|p] eqn:Ep; cbn [fst snd].
  - assert (e' = e) as -> by lia.
    rewrite shr_record_of_loc_m, Z.sub_diag, Z.pow_0_r, Z.div_1_r. done.
  - assert (e' = e + Zpos p) as -> by lia. split; [done|].
    rewrite iter_shr_1_m by (by rewrite shr_record_of_loc_m).
    rewrite shr_record_of_loc_m. f_equal. f_equal. lia.
  - assert (e' = e) as -> by lia.
    rewrite shr_record_of_loc_m, Z.sub_diag, Z.pow_0_r, Z.div_1_r. done.
Qed.

Lemma round_nearest_even_cases m l :
  round_nearest_even m l = m \/ round_nearest_even m l = m + 1.
Proof.
  destruct l as [|[]]; cbn; auto. destruct (Z.even m); auto.
Qed.


(** Rounding to the format, coarsely: for a value below [2 ^ K] the
    result is a float whose exponent is at most [K - 52] and which
    differs from the value by less than two units of that exponent. *)
Lemma binary_round_aux_bound mx ex lx K :
  0 <= mx < 2 ^ (K - ex) -> ex <= K - 53 -> -1021 <= K <= 1023 ->
  exists m e,
    binary_round_aux 53 1024 false mx ex lx = nonneg_float m e
    /\ 0 <= m /\ ex <= e <= K - 52
    /\ Z.abs (m * 2 ^ (e - ex) - mx) <= 2 * 2 ^ (e - ex).
Proof.
  intros Hmx Hex HK. unfold binary_round_aux.
  destruct (shr_fexp_spec mx ex lx (proj1 Hmx)) as [He1 Hm1].
  destruct (shr_fexp 53 1024 mx ex lx) as [mrs1 e1]. cbn [fst snd] in He1, Hm1.
  rewrite <- He1 in Hm1.
  set (m1 := shr_m mrs1) in *.
  set (mr := round_nearest_even m1 (loc_of_shr_record mrs1)).
  assert (mr = m1 \/ mr = m1 + 1) as Hmr by apply round_nearest_even_cases.
  clearbody mr.
  (* the first shift *)
  pose proof (Zdigits2_le mx (K - ex) Hmx ltac:(lia)) as Hd.
  rewrite fexp_eq in He1.
  assert (ex <= e1 <= K - 53) as Hrange1 by lia.
  set (P1 := 2 ^ (e1 - ex)) in *.
  assert (0 < P1) as HP1 by (apply Z.pow_pos_nonneg; lia).
  assert (P1 * m1 <= mx < P1 * (m1 + 1)) as Hdiv1.
  { pose proof (Z.div_mod mx P1 ltac:(lia)).
    pose proof (Z.mod_pos_bound mx P1 HP1). lia. }
  assert (0 <= m1) as Hm1pos by (rewrite Hm1; apply Z.div_pos; lia).
  assert (m1 < 2 ^ (K - e1)) as Hm1lt.
  { assert (2 ^ (K - ex) = 2 ^ (K - e1) * P1) as Hpow.
    { unfold P1. rewrite <- Z.pow_add_r by lia. f_equal. lia. }
    rewrite Hpow in Hmx. nia. }
  assert (0 <= mr < 2 ^ (K - e1 + 1)) as Hmrlt.
  { rewrite Z.pow_add_r, Z.pow_1_r by lia. lia. }
  (* the second shift *)
  destruct (shr_fexp_spec mr e1 loc_Exact (proj1 Hmrlt)) as [He2 Hm2].
  destruct (shr_fexp 53 1024 mr e1 loc_Exact) as [mrs2 e2].
  cbn [fst snd] in He2, Hm2. rewrite <- He2 in Hm2.
  set (m2 := shr_m mrs2) in *.
  pose proof (Zdigits2_le mr (K - e1 + 1) Hmrlt ltac:(lia)) as Hd2.
  rewrite fexp_eq in He2.
  assert (e1 <= e2 <= K - 52) as Hrange2 by lia.
  set (P2 := 2 ^ (e2 - e1)) in *.
  assert (0 < P2) as HP2 by (apply Z.pow_pos_nonneg; lia).
  assert (P2 * m2 <= mr < P2 * (m2 + 1)) as Hdiv2.
  { pose proof (Z.div_mod mr P2 ltac:(lia)).
    pose proof (Z.mod_pos_bound mr P2 HP2). lia. }
  assert (0 <= m2) as Hm2pos by (rewrite Hm2; apply Z.div_pos; lia).
  exists m2, e2. split.
  { destruct m2 as [|p|p]; [done| |lia].
    cbn [nonneg_float].
    destruct (Z.leb_spec e2 (1024 - 53)); [done|lia]. }
  split; [done|]. split; [lia|].
  assert (2 ^ (e2 - ex) = P1 * P2) as ->.
  { unfold P1, P2. rewrite <- Z.pow_add_r by lia. f_equal. lia. }
  assert (P1 * 1 <= P1 * P2) as Hone
    by (apply Z.mul_le_mono_nonneg_l; lia).
  assert (P1 * (P2 * m2) <= P1 * mr) as Hlow
    by (apply Z.mul_le_mono_nonneg_l; lia).
  assert (P1 * mr < P1 * (P2 * (m2 + 1))) as Hhigh
    by (apply Z.mul_lt_mono_pos_l; lia).
  apply Z.abs_le. destruct Hmr as [->| ->]; lia.
Qed.


(** The quotient of two ints, the smaller by the greater: a float
    within three units of [2 ^ -52] of the exact quotient. *)
Lemma int_truediv_bound a b :
  0 < a < b ->
  exists m e,
    int_truediv a b = Ok (nonneg_float m e)
    /\ 0 <= m /\ e <= -52
    /\ Z.abs (m * b - a * 2 ^ (- e)) < 3 * b.
Proof.
  intros Hab. unfold int_truediv.
  destruct (Z.eqb_spec b 0) as [->|_]; [lia|].
  destruct a as [|pa|pa]; [lia| |lia]. destruct b as [|pb|pb]; [lia| |lia].
  cbn [Z2SF SFdiv xorb]. unfold SFdiv_core_binary.
  rewrite fexp_eq, !Z.add_0_r, Z.sub_diag, Z.sub_0_l.
  pose proof (digits2_pos_bounds pb) as [_ Hb].
  pose proof (Zdigits2_le (Zpos pa) (Zdigits2 (Zpos pb))
                ltac:(cbn [Zdigits2]; lia) ltac:(cbn [Zdigits2]; lia)) as Hd.
  set (e' := Z.min ((Zdigits2 (Z.pos pa) - Zdigits2 (Z.pos pb) - 53)
                      `max` (-1074)) 0).
  assert (-1074 <= e' <= -53) as He' by lia.
  destruct (- e') as [|s|s] eqn:Es; [lia| |lia].
  rewrite Z.shiftl_mul_pow2 by lia.
  pose proof (Z_div_mod (Z.pos pa * 2 ^ Z.pos s) (Z.pos pb) eq_refl) as Hdm.
  destruct (Z.div_eucl (Z.pos pa * 2 ^ Z.pos s) (Z.pos pb)) as [q r].
  destruct Hdm as [Hq Hr].
  assert (0 < 2 ^ Z.pos s) as Hpow by (apply Z.pow_pos_nonneg; lia).
  assert (0 <= q < 2 ^ (0 - e')) as Hqrange.
  { replace (0 - e') with (Z.pos s) by lia. split; nia. }
  destruct (binary_round_aux_bound q e' (new_location (Z.pos pb) r) 0
              Hqrange ltac:(lia) ltac:(lia))
    as (m & e & -> & Hm & He & Herr).
  exists m, e. split; [by destruct m|]. split; [done|]. split; [lia|].
  set (PD := 2 ^ (e - e')) in *.
  assert (0 < PD) as HPD by (apply Z.pow_pos_nonneg; lia).
  assert (2 ^ Z.pos s = PD * 2 ^ (- e)) as Hsplit.
  { unfold PD. rewrite <- Z.pow_add_r by lia. f_equal. lia. }
  rewrite Hsplit in Hq.
  set (Pe := 2 ^ (- e)) in *.
  apply Z.abs_le in Herr.
  assert (PD * Z.abs (m * Z.pos pb - Z.pos pa * Pe) < PD * (3 * Z.pos pb));
    [|nia].
  rewrite <- (Z.abs_eq PD) at 1 by lia. rewrite <- Z.abs_mul.
  apply Z.abs_lt. nia.
Qed.

Lemma normalize_100 : binary_normalize 53 1024 100 0 false
                = S754_finite false (Z.to_pos (100 * 2 ^ 46)) (-46).
Proof. reflexivity. Qed.

(** A float of at most one and a little, times 100. *)
Lemma float_mul_100_bound m e :
  0 <= m < 2 ^ (- e) + 3 -> e <= -52 ->
  exists m' e',
    float_mul_int (nonneg_float m e) 100 = nonneg_float m' e'
    /\ 0 <= m' /\ e - 46 <= e' <= -45
    /\ Z.abs (m' * 2 ^ (e' - (e - 46)) - m * (100 * 2 ^ 46))
       <= 2 * 2 ^ (e' - (e - 46)).
Proof.
  intros Hm He. unfold float_mul_int. rewrite normalize_100.
  destruct m as [|p|p]; [| |lia].
  { exists 0, (e - 46). cbn [nonneg_float SFmul xorb].
    split; [done|]. split; [done|]. split; [lia|].
    rewrite Z.sub_diag. cbn. lia. }
  cbn [nonneg_float SFmul xorb].
  assert (2 ^ 52 <= 2 ^ (- e)) as HPe by (apply Z.pow_le_mono_r; lia).
  assert (0 <= Z.pos (p * Z.to_pos (100 * 2 ^ 46)) < 2 ^ (7 - (e + -46)))
    as Hrange.
  { split; [lia|].
    replace (7 - (e + -46)) with (53 + - e) by lia.
    rewrite Z.pow_add_r by lia.
    rewrite Pos2Z.inj_mul, Z2Pos.id by done.
    change (2 ^ 53) with (128 * 2 ^ 46). lia. }
  destruct (binary_round_aux_bound _ (e + -46) loc_Exact 7
              Hrange ltac:(lia) ltac:(lia))
    as (m' & e' & -> & Hm' & He' & Herr).
  exists m', e'. split; [done|]. split; [done|]. split; [lia|].
  rewrite Pos2Z.inj_mul, Z2Pos.id in Herr by done.
  replace (e - 46) with (e + -46) by lia. exact Herr.
Qed.

Lemma round_half_even_nearest m d :
  0 < d -> Z.abs (2 * (round_half_even m d * d - m)) <= d.
Proof.
  intros Hd. unfold round_half_even.
  pose proof (Z.div_mod m d ltac:(lia)).
  pose proof (Z.mod_pos_bound m d Hd).
  apply Z.abs_le.
  destruct (Z.compare_spec (2 * (m mod d)) d); [destruct (Z.even _)| |]; nia.
Qed.

(** [round] gives an integer nearest to the float. *)
Lemma py_round_nearest m e :
  0 <= m -> e < 0 ->
  exists d, py_round (nonneg_float m e) = Ok d
            /\ Z.abs (2 * (d * 2 ^ (- e) - m)) <= 2 ^ (- e).
Proof.
  intros Hm He.
  assert (0 < 2 ^ (- e)) as Hpow by (apply Z.pow_pos_nonneg; lia).
  destruct m as [|p|p]; [|clear Hm|lia].
  { exists 0. split; [done|]. cbn. lia. }
  destruct e as [|k|k]; [lia|lia|].
  cbn [nonneg_float py_round]. eexists. split; [reflexivity|].
  rewrite Z.shiftl_1_l. change (- Z.neg k) with (Z.pos k).
  apply round_half_even_nearest. done.
Qed.

(** The discount of a price below the original price: the percentage,
    rounded to the nearest integer. *)
Lemma discount_of_rounded mrp sellingPrice :
  0 < sellingPrice < mrp ->
  exists d, discount_of mrp sellingPrice = Ok d
            /\ rounded_percentage (mrp - sellingPrice) mrp d.
Proof.
  intros Hprices. unfold discount_of.
  set (a := mrp - sellingPrice). set (b := mrp).
  destruct (int_truediv_bound a b ltac:(unfold a, b; lia))
    as (m2 & e2 & -> & Hm2 & He2 & H2).
  cbn [mbind res_bind].
  assert (0 < b) as Hb by (unfold b; lia).
  assert (0 < a < b) as Ha by (unfold a, b; lia).
  clearbody a b. clear Hprices.
  assert (2 ^ 52 <= 2 ^ (- e2)) as HP2 by (apply Z.pow_le_mono_r; lia).
  set (P2 := 2 ^ (- e2)) in *.
  apply Z.abs_lt in H2.
  destruct (float_mul_100_bound m2 e2 ltac:(nia) He2)
    as (m3 & e3 & -> & Hm3 & He3 & H3).
  destruct (py_round_nearest m3 e3 Hm3 ltac:(lia)) as (d & -> & Hd).
  exists d. split; [done|]. unfold rounded_percentage.
  assert (2 ^ 45 <= 2 ^ (- e3)) as HP3 by (apply Z.pow_le_mono_r; lia).
  set (P3 := 2 ^ (- e3)) in *.
  set (PD := 2 ^ (e3 - (e2 - 46))) in *.
  assert (0 < PD) as HPD by (apply Z.pow_pos_nonneg; lia).
  assert (P3 * PD = P2 * 2 ^ 46) as HQ.
  { unfold P3, PD, P2. rewrite <- !Z.pow_add_r by lia. f_equal. lia. }
  apply Z.abs_le in H3. apply Z.abs_le in Hd.
  set (X := d * b - 100 * a).
  assert (2 * (X * (P3 * PD))
          = b * PD * (2 * (d * P3 - m3))
            + 2 * b * (m3 * PD - m2 * (100 * 2 ^ 46))
            + 200 * 2 ^ 46 * (m2 * b - a * P2)) as HX.
  { unfold X. rewrite HQ at 1. ring_simplify.
    replace (2 * b * m3 * PD) with (2 * b * m3 * PD) by done.
    nia. }
  set (u := 2 * (d * P3 - m3)) in *.
  set (v := m3 * PD - m2 * (100 * 2 ^ 46)) in *.
  set (w := m2 * b - a * P2) in *.
  assert (0 < b * PD) as HbPD by lia.
  assert (- (b * PD * P3) <= b * PD * u <= b * PD * P3) as Hu.
  { split.
    - rewrite <- Z.mul_opp_r. apply Z.mul_le_mono_nonneg_l; lia.
    - apply Z.mul_le_mono_nonneg_l; lia. }
  assert (- (4 * b * PD) <= 2 * b * v <= 4 * b * PD) as Hv.
  { assert (b * - (2 * PD) <= b * v) by (apply Z.mul_le_mono_nonneg_l; lia).
    assert (b * v <= b * (2 * PD)) by (apply Z.mul_le_mono_nonneg_l; lia).
    lia. }
  assert (- (600 * 2 ^ 46 * b) <= 200 * 2 ^ 46 * w <= 600 * 2 ^ 46 * b)
    as Hw by lia.
  set (Q := P3 * PD) in *.
  assert (0 < Q) as HQpos by (unfold Q; lia).
  set (S := 4 * PD + 600 * 2 ^ 46).
  assert ((2 * Z.abs X - b) * Q <= b * S) as HT.
  { replace (b * PD * P3) with (b * Q) in Hu by (unfold Q; ring).
    unfold S. destruct (Z.abs_spec X) as [[_ ->]|[_ ->]]; lia. }
  assert (2 ^ 40 * S <= Q) as HS.
  { assert (2 ^ 45 * PD <= Q)
      by (unfold Q; apply Z.mul_le_mono_nonneg_r; lia).
    assert (2 ^ 52 * 2 ^ 46 <= Q)
      by (rewrite HQ; apply Z.mul_le_mono_nonneg_r; lia).
    unfold S. lia. }
  assert (2 ^ 40 * ((2 * Z.abs X - b) * Q) <= 2 ^ 40 * (b * S)) as Hleft
    by (apply Z.mul_le_mono_nonneg_l; lia).
  assert (b * (2 ^ 40 * S) <= b * Q) as Hright
    by (apply Z.mul_le_mono_nonneg_l; lia).
  apply (Z.mul_le_mono_pos_r _ _ Q HQpos). lia.
Qed.

(** A rounded percentage of a part lies between 0 and 100. *)
Lemma rounded_percentage_range part whole d :
  0 < part < whole -> rounded_percentage part whole d -> 0 <= d <= 100.
Proof.
  unfold rounded_percentage. intros Hpart Hd.
  assert (Z.abs (d * whole - 100 * part) < whole) as Habs by lia.
  apply Z.abs_lt in Habs.
  split.
  - apply Z.lt_succ_r. apply (Z.mul_lt_mono_pos_r whole); lia.
  - apply Z.lt_succ_r. apply (Z.mul_lt_mono_pos_r whole); lia.
Qed.
End Rounding.

(** ** The discount (C8) *)
Section Discount.
Context `{Runtime}.

(** The two prices and the discount of a returned record. *)
Lemma extract_product_info_discount c q p :
  extract_product_info c q = Some p ->
  exists sp,
    p !! "sellingPrice" = Some (VInt sp) /\ 0 < sp
    /\ ((p !! "mrp" = None /\ p !! "discount" = None)
        \/ exists m x,
             p !! "mrp" = Some (VInt m) /\ sp < m
             /\ discount_of m sp = Ok x
             /\ p !! "discount" = Some (VInt x)).
Proof.
  intros Hp.
  destruct (extract_product_info_gate _ _ _ Hp)
    as (t & sp & _ & _ & _ & Hprice & Hpos & Hsp).
  exists sp. split; [done|]. split; [done|].
  apply extract_product_info_inv in Hp as [Hb _].
  apply extract_body_inv in Hb as (sp' & m & rt & Hsp' & Hm & _ & Hd & Hk).
  rewrite Hprice in Hsp'. injection Hsp' as <-.
  assert (forall k, k ∈ extracted_keys ->
            add_defaults q (fields_record (title_of c) (Some sp) m
                              (image_of c) (url_of c) rt) !! k
            = fields_record (title_of c) (Some sp) m
                (image_of c) (url_of c) rt !! k) as Hdef
    by (intros k Hk'; by apply add_defaults_other).
  pose proof (add_discount_discount _ _ Hd) as Hdisc.
  rewrite Hdef, fields_discount in Hdisc by (unfold extracted_keys; set_solver).
  specialize (Hdisc eq_refl).
  unfold truthy_get in Hdisc.
  rewrite !Hdef in Hdisc by (unfold extracted_keys; set_solver).
  rewrite fields_mrp, fields_sellingPrice in Hdisc. cbn in Hdisc.
  assert (p !! "mrp" = VInt <$> m) as Hpm.
  { rewrite Hk, fields_mrp; [done| |done]. unfold extracted_keys. set_solver. }
  destruct m as [x|]; cbn in Hdisc, Hpm.
  - right.
    assert (sp < x) as Hlt.
    { unfold mrp_of in Hm.
      destruct (first_amount_of c) as [[y|]|]; cbn in Hm; try done.
      rewrite Z.gtb_ltb in Hm. cbn in Hm.
      destruct (Z.ltb_spec sp y); [|done]. injection Hm as ->. done. }
    destruct (Z.eqb_spec x 0) as [->|_]; [lia|].
    destruct (Z.eqb_spec sp 0) as [->|_]; [lia|].
    cbn in Hdisc.
    unfold add_discount, truthy_get in Hd.
    rewrite !Hdef in Hd by (unfold extracted_keys; set_solver).
    rewrite fields_mrp, fields_sellingPrice in Hd. cbn in Hd.
    destruct (Z.eqb_spec x 0) as [->|_]; [lia|].
    destruct (Z.eqb_spec sp 0) as [->|_]; [lia|].
    cbn in Hd.
    destruct (discount_of x sp) as [y|] eqn:Ey; [|done].
    by exists x, y.
  - left. by split.
Qed.
End Discount.

(** C8.  In a returned record [discount] is present exactly when [mrp]
    and [sellingPrice] both are, and it is then
    [round((mrp - sellingPrice) / mrp * 100)] on these two fields: the
    float nearest to the quotient, times 100 in floating point, rounded
    to the nearest integer with ties to even.  That integer is the exact
    percentage [100 * (mrp - sellingPrice) / mrp] rounded to the nearest
    integer, and lies between 0 and 100.  So 19999 and 14999 give 25,
    1000 and 425 give 57, 3 and 1 give 67 (66.67 rounded up), and the
    exact halves 12.5 and 37.5 go to the even integers 12 and 38. *)
Theorem C8_discount `{Runtime} (container : node) (query : pystr)
    (p : Product) :
  extract_product_info container query = Some p ->
  (is_Some (p !! "discount") <->
   is_Some (p !! "mrp") /\ is_Some (p !! "sellingPrice"))
  /\ (forall v, p !! "discount" = Some v ->
        exists mrp sellingPrice quotient discount,
          p !! "mrp" = Some (VInt mrp)
          /\ p !! "sellingPrice" = Some (VInt sellingPrice)
          /\ int_truediv (mrp - sellingPrice) mrp = Ok quotient
          /\ py_round (float_mul_int quotient 100) = Ok discount
          /\ v = VInt discount
          /\ rounded_percentage (mrp - sellingPrice) mrp discount
          /\ 0 <= discount <= 100)
  /\ discount_of 19999 14999 = Ok 25
  /\ discount_of 1000 425 = Ok 57
  /\ discount_of 3 1 = Ok 67
  /\ discount_of 8 7 = Ok 12
  /\ discount_of 8 5 = Ok 38.
Proof.
  intros Hp.
  assert (discount_of 19999 14999 = Ok 25
          /\ discount_of 1000 425 = Ok 57
          /\ discount_of 3 1 = Ok 67
          /\ discount_of 8 7 = Ok 12
          /\ discount_of 8 5 = Ok 38) as Hclosed
    by (repeat split; vm_compute; reflexivity).
  destruct (extract_product_info_discount _ _ _ Hp)
    as (sp & Hsp & Hpos & [[Hm Hd]|(m & x & Hm & Hlt & Hx & Hd)]).
  - rewrite Hm, Hd, Hsp. split.
    + split; [by intros [??]|by intros [[??] _]].
    + split; [done|exact Hclosed].
  - rewrite Hm, Hd, Hsp. split; [by split; eauto|].
    split; [|exact Hclosed].
    intros v [= <-].
    destruct (discount_of_rounded m sp ltac:(lia)) as (d & Hd' & Hround).
    rewrite Hx in Hd'. injection Hd' as <-.
    unfold discount_of in Hx.
    destruct (int_truediv (m - sp) m) as [quotient|] eqn:Eq; [|done].
    cbn in Hx.
    exists m, sp, quotient, x. do 5 (split; [done|]). split; [done|].
    by apply (rounded_percentage_range (m - sp) m); [lia|].
Qed.

(** The record of the listing with the greater amount first. *)
Lemma C8_witness :
  let R := Concrete.runtime None in
  exists p, extract_product_info Examples.listing_mrp_first Examples.query
            = Some p
            /\ p !! "mrp" = Some (VInt 19999)
            /\ p !! "sellingPrice" = Some (VInt 14999)
            /\ p !! "discount" = Some (VInt 25).
Proof.
  intros R.
  assert (extract_product_info Examples.listing_mrp_first Examples.query
          ≫= (.!! "discount") = Some (VInt 25)) as Hd
    by (vm_compute; reflexivity).
  destruct (extract_product_info Examples.listing_mrp_first Examples.query)
    as [p|] eqn:E; [|discriminate].
  cbn in Hd. exists p. split; [done|].
  destruct (C8_discount _ _ _ E) as (_ & Hv & _).
  destruct (Hv _ Hd) as (m & sp & qt & x & Hm & Hsp & Hq & Hx & [= <-] & _).
  assert (Some p ≫= (.!! "mrp") = Some (VInt 19999)) as Hm'
    by (rewrite <- E; vm_compute; reflexivity).
  assert (Some p ≫= (.!! "sellingPrice") = Some (VInt 14999)) as Hsp'
    by (rewrite <- E; vm_compute; reflexivity).
  by repeat split.
Defined.

(** ** The image URL (C9) *)
Section Image.
Context `{Runtime}.

Lemma startswith_cons (a b : N) (p s : pystr) :
  startswith (a :: p) (b :: s) = (a =? b)%N && startswith p s.
Proof. reflexivity. Qed.

Lemma startswith_one (a : N) (s : pystr) :
  startswith [a] s = match s with
                     | b :: _ => (a =? b)%N
                     | [] => false
                     end.
Proof.
  destruct s as [|b s]; [done|].
  rewrite startswith_cons. destruct s; by rewrite andb_true_r.
Qed.

Lemma rewrite_image_url_spec src :
  image_url_of src (rewrite_image_url src).
Proof.
  unfold rewrite_image_url.
  change (u "//") with [47%N; 47%N]. change (u "/") with [47%N].
  destruct src as [|a rest]; [by apply other_url|].
  rewrite startswith_cons, !startswith_one.
  destruct (N.eqb_spec 47 a) as [<-|Hne]; cbn [andb].
  - destruct rest as [|b rest]; [by apply (root_relative [])|].
    destruct (N.eqb_spec 47 b) as [<-|Hne].
    + apply (protocol_relative rest).
    + apply (root_relative (b :: rest)).
      change (u "/") with [47%N]. rewrite startswith_one.
      by destruct (N.eqb_spec 47 b).
  - apply other_url. change (u "/") with [47%N]. rewrite startswith_one.
    by destruct (N.eqb_spec 47 a).
Qed.
End Image.

(** C9.  The source of the first [img] of the container, when it is not
    empty, is stored under [imageUrl] rewritten: a source [//rest] as
    [https://rest], a source [/rest] (one slash only) as
    [https://www.flipkart.com/rest], any other source as it is.  So
    [//x.png] gives [https://x.png] and [/img/x.png] gives
    [https://www.flipkart.com/img/x.png]. *)
Theorem C9_image_url `{Runtime} (container : node) (query : pystr)
    (p : Product) (name : pystr) (attrs : list (pystr * pystr))
    (contents : list node) (src : pystr) :
  extract_product_info container query = Some p ->
  find container (by_name "img") = Some (Tag name attrs contents) ->
  get attrs (u "src") = Some src ->
  src <> [] ->
  (exists url, p !! "imageUrl" = Some (VStr url) /\ image_url_of src url)
  /\ p !! "imageUrl" = Some (VStr (rewrite_image_url src))
  /\ rewrite_image_url (u "//x.png") = u "https://x.png"
  /\ rewrite_image_url (u "/img/x.png") = u "https://www.flipkart.com/img/x.png"
  /\ rewrite_image_url (u "https://cdn.example/x.png")
     = u "https://cdn.example/x.png".
Proof.
  intros Hp Himg Hsrc Hne.
  assert (p !! "imageUrl" = Some (VStr (rewrite_image_url src))) as Hurl.
  { apply extract_product_info_inv in Hp as [Hb _].
    apply extract_body_inv in Hb as (sp & m & rt & _ & _ & _ & _ & Hk).
    rewrite Hk, fields_imageUrl; [| |done].
    2:{ unfold extracted_keys. set_solver. }
    unfold image_of. rewrite Himg, Hsrc. by destruct src. }
  split; [|split; [exact Hurl|by repeat split]].
  exists (rewrite_image_url src). split; [exact Hurl|].
  apply rewrite_image_url_spec.
Qed.

(** The image of the listing of the examples. *)
Lemma C9_witness :
  let R := Concrete.runtime None in
  exists p, extract_product_info Examples.listing Examples.query = Some p
            /\ p !! "imageUrl" = Some (VStr (u "https://img.flipkart.com/x.jpg")).
Proof.
  intros R.
  assert (is_Some (extract_product_info Examples.listing Examples.query))
    as [p E] by (apply (bool_decide_unpack _); vm_compute; exact I).
  exists p. split; [exact E|].
  refine (proj1 (proj2 (C9_image_url Examples.listing Examples.query p
            (u "img") [(u "src", u "//img.flipkart.com/x.jpg")] []
            (u "//img.flipkart.com/x.jpg") E _ _ _))).
  - vm_compute. reflexivity.
  - reflexivity.
  - discriminate.
Defined.


(** ** Candidate containers (C10) *)
Section Candidates.

(** After the letters of the word the pattern accepts anything. *)
Lemma match_here_word w s g :
  is_Some (Re.match_here (lits w ++ [Re.many Re.dot]) s g)
  <-> starts_with_i w s = true.
Proof.
  revert s. induction w as [|l w IH]; intros s.
  - destruct s; (split; [done|intros _; apply greedy_total]).
  - destruct s as [|c s]; [by split; [intros []|]|].
    cbn [map app Re.match_here starts_with_i Re.once Re.i_quant Re.i_cls
         Re.i_group].
    destruct (Re.lit_i l c); [apply IH|].
    by split; [intros []|].
Qed.

(** A leading [.*] can stop anywhere: the rest matches at some suffix;
    and it can stop at once. *)
Lemma greedy_suffix cls rest s g :
  is_Some (Re.greedy cls false rest s g) ->
  exists t, t `suffix_of` s /\ is_Some (rest t g).
Proof.
  induction s as [|c s IH]; cbn.
  - intros Hr. by exists [].
  - destruct (cls c).
    + destruct (Re.greedy cls false rest s g) as [r|] eqn:E.
      * intros _. destruct IH as (t & Ht & Hr); [done|].
        exists t. split; [by apply suffix_cons_r|done].
      * intros Hr. by exists (c :: s).
    + intros Hr. by exists (c :: s).
Qed.

Lemma greedy_now cls in_group rest s g :
  is_Some (rest s g) -> is_Some (Re.greedy cls in_group rest s g).
Proof.
  intros Hr. destruct s as [|c s]; cbn; [done|].
  destruct (cls c); [|done].
  by destruct (Re.greedy cls in_group rest s _).
Qed.

Lemma suffix_cons_cases {A} (t : list A) (c : A) (s : list A) :
  t `suffix_of` c :: s -> t = c :: s \/ t `suffix_of` s.
Proof.
  intros [k Hk]. destruct k as [|x k]; [by left|right].
  injection Hk as _ ->. by exists k.
Qed.

Lemma search_suffix p s :
  is_Some (Re.search p s)
  <-> exists t, t `suffix_of` s /\ is_Some (Re.match_here p t []).
Proof.
  induction s as [|c s IH]; cbn [Re.search].
  - destruct (Re.match_here p [] []) as [g|] eqn:E.
    + split; [|done]. intros _. exists []. by rewrite E.
    + split; [by intros []|]. intros (t & Ht%suffix_nil_inv & Hm).
      subst t. rewrite E in Hm. by destruct Hm.
  - destruct (Re.match_here p (c :: s) []) as [g|] eqn:E.
    + split; [|done]. intros _. exists (c :: s). by rewrite E.
    + rewrite IH. split.
      * intros (t & Ht & Hm). exists t. split; [by apply suffix_cons_r|done].
      * intros (t & Ht & Hm).
        apply suffix_cons_cases in Ht as [->|Ht].
        -- rewrite E in Hm. by destruct Hm.
        -- by exists t.
Qed.

Lemma contains_i_suffix w s :
  contains_i w s = true
  <-> exists t, t `suffix_of` s /\ starts_with_i w t = true.
Proof.
  induction s as [|c s IH]; cbn [contains_i].
  - rewrite orb_false_r. split.
    + intros Hw. by exists [].
    + by intros (t & ->%suffix_nil_inv & Hw).
  - rewrite orb_true_iff, IH. split.
    + intros [Hw|(t & Ht & Hw)]; [by exists (c :: s)|].
      exists t. split; [by apply suffix_cons_r|done].
    + intros (t & Ht & Hw).
      apply suffix_cons_cases in Ht as [->|Ht]; [by left|].
      right. by exists t.
Qed.

(** [re.compile(r'.*word.*', re.I).search(s)] finds something exactly
    when [s] contains the word, letter case ignored. *)
Lemma found_around_i (word : string) (s : pystr) :
  found (Re.around_i word) s = contains_i (u word) s.
Proof.
  apply eq_true_iff_eq. unfold found.
  rewrite bool_decide_eq_true, search_suffix, contains_i_suffix.
  unfold Re.around_i. split.
  - intros (t & Ht & Hm).
    change (is_Some (Re.greedy Re.dot false
              (Re.match_here (lits (u word) ++ [Re.many Re.dot])) t []))
      in Hm.
    apply greedy_suffix in Hm as (t' & Ht' & Hm).
    exists t'. split; [by etrans|]. by apply match_here_word in Hm.
  - intros (t & Ht & Hw). exists t. split; [done|].
    change (is_Some (Re.greedy Re.dot false
              (Re.match_here (lits (u word) ++ [Re.many Re.dot])) t [])).
    apply greedy_now. by apply match_here_word.
Qed.

Lemma starts_with_i_spelled w t :
  starts_with_i w t = true <-> exists m b, t = m ++ b /\ spelled w m.
Proof.
  revert t. induction w as [|l w IH]; intros t.
  - split; [|by destruct t].
    intros _. exists [], t. by split; [|constructor].
  - destruct t as [|c t]; cbn [starts_with_i].
    + split; [done|]. intros (m & b & Ht & Hm).
      inversion Hm; subst. discriminate.
    + rewrite andb_true_iff, IH. split.
      * intros (Hc & m & b & -> & Hm). exists (c :: m), b.
        by split; [|constructor].
      * intros (m & b & Ht & Hm).
        inversion Hm as [|l' c' w' m' Hc Hm']; subst.
        injection Ht as -> ->. split; [done|]. by exists m', b.
Qed.

Lemma contains_i_occurs w s :
  contains_i w s = true <-> exists a m b, s = a ++ m ++ b /\ spelled w m.
Proof.
  rewrite contains_i_suffix. split.
  - intros (t & [a ->] & Ht).
    apply starts_with_i_spelled in Ht as (m & b & -> & Hm).
    by exists a, m, b.
  - intros (a & m & b & -> & Hm). exists (m ++ b).
    split; [by exists a|]. apply starts_with_i_spelled. by exists m, b.
Qed.

(** A piece without the character [c] lies on one side of [c]. *)
Lemma occurrence_split {A} (x y a m b : list A) (c : A) :
  x ++ c :: y = a ++ m ++ b -> c ∉ m -> m <> [] ->
  (exists b', x = a ++ m ++ b') \/ (exists a', y = a' ++ m ++ b).
Proof.
  intros Heq Hc Hm.
  apply app_eq_inv in Heq as [(k & -> & Hk)|(k & -> & Hk)].
  - apply app_eq_inv in Hk as [(k' & -> & Hk')|(k' & -> & Hk')].
    + destruct k' as [|c' k'].
      * left. exists []. by rewrite !app_nil_r.
      * injection Hk' as <- _. destruct Hc.
        apply elem_of_app. right. apply list_elem_of_here.
    + left. by exists k'.
  - destruct k as [|c' k].
    + destruct m as [|c' m]; [done|].
      injection Hk as <- _. destruct Hc. apply list_elem_of_here.
    + injection Hk as _ ->. right. by exists k.
Qed.

(** The characters [isspace] accepts match no letter of a word. *)
Lemma lit_i_not_space l c :
  (97 <= l <= 122)%N -> Re.lit_i l c = true -> isspace c = false.
Proof.
  intros Hl Hc. unfold Re.lit_i in Hc.
  repeat (apply orb_prop in Hc as [Hc|Hc]);
    repeat match goal with
           | H : (_ && _) = true |- _ => apply andb_prop in H as [? H]
           | H : (_ || _) = true |- _ => apply orb_prop in H as [H|H]
           | H : (_ =? _)%N = true |- _ => apply N.eqb_eq in H
           end;
    subst; try done.
  - unfold isspace.
    repeat match goal with
           | |- context [(?a <=? ?b)%N] => destruct (N.leb_spec a b); try lia
           | |- context [(?a =? ?b)%N] => destruct (N.eqb_spec a b); try lia
           end; done.
  - unfold isspace.
    repeat match goal with
           | |- context [(?a <=? ?b)%N] => destruct (N.leb_spec a b); try lia
           | |- context [(?a =? ?b)%N] => destruct (N.eqb_spec a b); try lia
           end; done.
Qed.

(** A token of [split] is a piece of the text. *)
Lemma split_token_piece s cur t :
  t ∈ split_ws_aux cur s -> exists a b, rev cur ++ s = a ++ t ++ b.
Proof.
  revert cur. induction s as [|c s IH]; intros cur; cbn [split_ws_aux].
  - destruct cur as [|x cur]; [by intros ?%not_elem_of_nil|].
    intros ->%list_elem_of_singleton. exists [], []. by rewrite !app_nil_r.
  - destruct (isspace c).
    + assert (t ∈ split_ws_aux [] s -> exists a b, rev cur ++ c :: s = a ++ t ++ b)
        as Hrest.
      { intros (a & b & Hs)%IH. cbn in Hs.
        exists (rev cur ++ c :: a), b. rewrite Hs.
        by rewrite <- app_assoc. }
      destruct cur as [|x cur]; [exact Hrest|].
      intros [->|Ht]%elem_of_cons; [|by apply Hrest].
      by exists [], (c :: s).
    + intros (a & b & Hs)%IH. exists a, b. rewrite <- Hs.
      cbn [rev]. by rewrite <- app_assoc.
Qed.

(** A piece of the text without whitespace lies in one token. *)
Lemma split_covers s cur a m b :
  Forall (fun c => isspace c = false) m -> m <> [] ->
  rev cur ++ s = a ++ m ++ b ->
  exists t, t ∈ split_ws_aux cur s /\ exists a' b', t = a' ++ m ++ b'.
Proof.
  intros Hm Hne. revert cur a b.
  induction s as [|c s IH]; intros cur a b Heq; cbn [split_ws_aux].
  - rewrite app_nil_r in Heq.
    destruct cur as [|x cur].
    + destruct a, m; done.
    + exists (rev (x :: cur)). split; [apply list_elem_of_here|by exists a, b].
  - destruct (isspace c) eqn:Ec.
    + apply occurrence_split in Heq as [[b' Hcur]|[a' Hs]]; [| | |done].
      * destruct cur as [|x cur]; [by destruct a, m|].
        exists (rev (x :: cur)).
        split; [apply list_elem_of_here|by exists a, b'].
      * destruct (IH [] a' b Hs) as (t & Ht & Hpiece).
        exists t. split; [|done].
        destruct cur; [done|by apply list_elem_of_further].
      * intros Hin. rewrite Forall_forall in Hm.
        specialize (Hm c Hin). congruence.
    + apply (IH (c :: cur) a b). cbn [rev]. by rewrite <- app_assoc.
Qed.

Lemma join_covers l a m b :
  32%N ∉ m -> m <> [] -> join [32%N] l = a ++ m ++ b ->
  exists t, t ∈ l /\ exists a' b', t = a' ++ m ++ b'.
Proof.
  intros Hm Hne. revert a b.
  induction l as [|x l IH]; intros a b Heq.
  - destruct a, m; done.
  - destruct l as [|y l].
    + exists x. split; [apply list_elem_of_here|by exists a, b].
    + change (x ++ 32%N :: join [32%N] (y :: l) = a ++ m ++ b) in Heq.
      apply occurrence_split in Heq as [[b' Hx]|[a' Hs]]; [| |done..].
      * exists x. split; [apply list_elem_of_here|by exists a, b'].
      * destruct (IH a' b Hs) as (t & Ht & Hpiece).
        exists t. split; [by apply list_elem_of_further|done].
Qed.

(** The tokens of a class, or the tokens joined by single spaces,
    contain a word exactly when the text of the class does. *)
Lemma class_tokens_contain (w v : pystr) :
  w <> [] -> Forall (fun l => (97 <= l <= 122)%N) w ->
  existsb (contains_i w) (attribute_list v)
  || contains_i w (join (u " ") (attribute_list v))
  = contains_i w v.
Proof.
  intros Hw Hletters. apply eq_true_iff_eq.
  rewrite orb_true_iff, existsb_exists.
  assert (forall m, spelled w m ->
            Forall (fun c => isspace c = false) m /\ m <> []) as Hspelled.
  { intros m Hm. split.
    - clear Hw. induction Hm as [|l c w' m' Hc _ IH]; [done|].
      apply Forall_cons in Hletters as [Hl Hletters].
      constructor; [by eapply lit_i_not_space|by apply IH].
    - intros ->. inversion Hm. by subst. }
  assert (forall t, In t (attribute_list v) -> contains_i w t = true ->
            contains_i w v = true) as Htoken.
  { intros t Ht%list_elem_of_In (a & m & b & -> & Hm)%contains_i_occurs.
    apply split_token_piece in Ht as (a' & b' & Hv). cbn in Hv.
    apply contains_i_occurs. exists (a' ++ a), m, (b ++ b').
    split; [|done]. rewrite Hv. by rewrite <- !app_assoc. }
  split.
  - intros [(t & Ht & Hc)|Hc]; [by eapply Htoken|].
    apply contains_i_occurs in Hc as (a & m & b & Hj & Hm).
    destruct (Hspelled m Hm) as [Hns Hne].
    apply join_covers in Hj as (t & Ht & a' & b' & ->); [|..|done].
    + apply (Htoken (a' ++ m ++ b')); [by apply list_elem_of_In|].
      apply contains_i_occurs. by exists a', m, b'.
    + intros Hin. rewrite Forall_forall in Hns. by specialize (Hns _ Hin).
  - intros (a & m & b & Hv & Hm)%contains_i_occurs.
    destruct (Hspelled m Hm) as [Hns Hne].
    destruct (split_covers v [] a m b Hns Hne Hv) as (t & Ht & a' & b' & ->).
    left. exists (a' ++ m ++ b'). split; [by apply list_elem_of_In|].
    apply contains_i_occurs. by exists a', m, b'.
Qed.
Lemma keeps_by_class (word : string) (n : node) :
  u word <> [] -> Forall (fun l => (97 <= l <= 122)%N) (u word) ->
  keeps (by_class "div" word) n = is_div n && class_contains word n.
Proof.
  intros Hw Hletters.
  destruct n as [s|s|name attrs contents]; [done..|].
  cbn [keeps by_class s_name s_attrs s_string forallb is_div class_contains].
  rewrite !andb_true_r. f_equal.
  unfold attr_matches. cbn [fst snd].
  destruct (get attrs (u "class")) as [v|]; [|done].
  rewrite decide_True by done.
  rewrite <- (class_tokens_contain _ v Hw Hletters).
  rewrite found_around_i. f_equal.
  induction (attribute_list v) as [|t l IH]; [done|].
  cbn. by rewrite found_around_i, IH.
Qed.

Lemma keeps_by_data_id (n : node) :
  keeps (Strainer (Some (u "div")) [(u "data-id", Present)] None) n
  = is_div n && has_attribute "data-id" n.
Proof.
  destruct n as [s|s|name attrs contents]; [done..|].
  cbn [keeps s_name s_attrs s_string forallb is_div has_attribute].
  rewrite !andb_true_r. f_equal.
  unfold attr_matches. cbn [fst snd].
  destruct (get attrs (u "data-id")) as [v|].
  - by rewrite bool_decide_eq_true_2.
  - rewrite bool_decide_eq_false_2; [done|]. by intros [??].
Qed.

Lemma or_list_first_nonempty {A} (a b c : list A) :
  match a with
  | [] => match b with [] => c | _ => b end
  | _ => a
  end = first_nonempty [a; b; c].
Proof. destruct a, b, c; reflexivity. Qed.

Lemma first_nonempty_cases {A} (a b c : list A) :
  (a <> [] /\ first_nonempty [a; b; c] = a)
  \/ (a = [] /\ first_nonempty [a; b; c] = b)
  \/ (a = [] /\ b = [] /\ first_nonempty [a; b; c] = c).
Proof. destruct a, b, c; cbn; eauto 6. Qed.
End Candidates.

(** C10, counterexample.  A page with a list item that carries
    [data-id] and a [div] of class [Product-card]: the claim selects the
    list item, the code the [div]. *)
Lemma C10_counterexample :
  candidates is_element Examples.page_list_items
  = [Examples.elem "li" [("data-id", "1")] [Examples.text "one"]]
  /\ product_containers Examples.page_list_items
     = [Examples.elem "div" [("class", "Product-card")] [Examples.text "two"]]
  /\ ~ C10_as_stated.
Proof.
  split; [vm_compute; reflexivity|].
  split; [vm_compute; reflexivity|].
  intros Hclaim. specialize (Hclaim Examples.page_list_items).
  vm_compute in Hclaim. discriminate.
Qed.

(** C10, amended.  The candidates are [div] elements only.  Three
    heuristics are tried in order and the first that finds something
    wins, with no union: the [div]s that carry an attribute [data-id],
    whatever its value; else the [div]s whose class contains [product],
    letter case ignored; else the [div]s whose class contains [item],
    letter case ignored.  At most 25 of them are kept, the first ones in
    document order. *)
Theorem C10_product_containers (soup : node) :
  product_containers soup = candidates is_div soup
  /\ (length (product_containers soup) <= 25)%nat
  /\ Forall (fun n => is_div n = true /\ n ∈ descendants soup)
       (product_containers soup)
  /\ (Exists (fun n => is_div n && has_attribute "data-id" n = true)
        (descendants soup) ->
      Forall (fun n => has_attribute "data-id" n = true)
        (product_containers soup)).
Proof.
  assert (product_containers soup = candidates is_div soup) as Heq.
  { unfold product_containers, candidates, find_all, or_list.
    rewrite or_list_first_nonempty.
    rewrite (filter_ext _ _ keeps_by_data_id).
    rewrite (filter_ext _ _ (fun n => keeps_by_class "product" n
               ltac:(done) ltac:(apply (bool_decide_unpack _); exact I))).
    by rewrite (filter_ext _ _ (fun n => keeps_by_class "item" n
                  ltac:(done) ltac:(apply (bool_decide_unpack _); exact I))). }
  split; [exact Heq|]. split.
  { unfold product_containers. rewrite length_take. lia. }
  split.
  - rewrite Heq. unfold candidates.
    apply Forall_take.
    set (A := List.filter _ _). set (B := List.filter _ _).
    set (C := List.filter _ _).
    assert (forall test, Forall (fun n => is_div n = true /\ n ∈ descendants soup)
              (List.filter (fun n => is_div n && test n) (descendants soup)))
      as Hall.
    { intros test. apply Forall_forall. intros n Hn%list_elem_of_In.
      apply filter_In in Hn as [Hn Hd%andb_prop].
      split; [by destruct Hd|by apply list_elem_of_In]. }
    destruct (first_nonempty_cases A B C) as [[_ ->]|[[_ ->]|(_ & _ & ->)]];
      apply Hall.
  - intros Hex. rewrite Heq. unfold candidates. apply Forall_take.
    set (A := List.filter _ _). set (B := List.filter _ _).
    set (C := List.filter _ _).
    assert (A <> []) as HA.
    { apply Exists_exists in Hex as (n & Hn & Ht).
      intros HA. assert (In n A) as Hin.
      { apply filter_In. split; [by apply list_elem_of_In|done]. }
      rewrite HA in Hin. done. }
    destruct (first_nonempty_cases A B C) as [[_ ->]|[[? _]|(? & _)]];
      [|done..].
    apply Forall_forall. intros n Hn%list_elem_of_In.
    apply filter_In in Hn as [_ Hd%andb_prop]. by destruct Hd.
Qed.

(** The page of the counterexample: the [div] is selected, through its
    class. *)
Lemma C10_witness :
  product_containers Examples.page_list_items
  = candidates is_div Examples.page_list_items
  /\ product_containers
       (Examples.document [Examples.listing; Examples.listing_mrp_first])
     = [Examples.listing; Examples.listing_mrp_first].
Proof.
  split; [apply C10_product_containers|].
  vm_compute. reflexivity.
Defined.

(** * Further properties of the code *)

Ltac by_computation := apply (bool_decide_unpack _); vm_compute; exact I.

(** ** Category and brand *)
Section Category_brand.
Context `{Runtime}.

Lemma find_first {A} (f : A -> bool) (before : list A) (x : A) (after : list A) :
  Forall (fun y => f y = false) before -> f x = true ->
  List.find f (before ++ x :: after) = Some x.
Proof.
  intros Hb Hx. induction Hb as [|y l Hy _ IH]; cbn; [by rewrite Hx|].
  by rewrite Hy.
Qed.

Lemma find_none {A} (f : A -> bool) (l : list A) :
  Forall (fun y => f y = false) l -> List.find f l = None.
Proof. induction 1 as [|y l Hy _ IH]; cbn; [done|by rewrite Hy]. Qed.

Lemma find_elem {A} (f : A -> bool) (l : list A) (x : A) :
  List.find f l = Some x -> x ∈ l /\ f x = true.
Proof.
  intros [Hin Hx]%find_some. split; [by apply list_elem_of_In|done].
Qed.

Lemma no_keyword (ql : pystr) (keywords : list pystr) :
  (forall kw, kw ∈ keywords -> contains kw ql = false) ->
  existsb (fun keyword => contains keyword ql) keywords = false.
Proof.
  intros Hno. apply not_true_is_false. intros (kw & Hin & Hkw)%existsb_exists.
  rewrite Hno in Hkw; [done|by apply list_elem_of_In].
Qed.

End Category_brand.

(** X1.  The category of a query is the first category of the table, in
    the order mobile, laptop, electronics, fashion, home, books, one of
    whose keywords occurs in the lower-cased query; a later category is
    not looked at, whatever the query holds of its keywords.  Without any
    keyword the category is [general]; nothing else is ever returned. *)
Theorem X1_category_priority `{Runtime} (query : pystr) :
  (forall before category keywords after,
     categories = before ++ (category, keywords) :: after ->
     (exists kw, kw ∈ keywords /\ contains kw (lower query) = true) ->
     (forall c ks kw, (c, ks) ∈ before -> kw ∈ ks ->
                      contains kw (lower query) = false) ->
     get_category_from_query query = category)
  /\ ((forall c ks kw, (c, ks) ∈ categories -> kw ∈ ks ->
                       contains kw (lower query) = false) ->
      get_category_from_query query = u "general")
  /\ get_category_from_query query
     ∈ map u ["mobile"; "laptop"; "electronics"; "fashion"; "home"; "books";
              "general"]%string.
Proof.
  split; [|split].
  - intros before category keywords after Htable (kw & Hkw & Hin) Hbefore.
    unfold get_category_from_query. rewrite Htable.
    rewrite find_first; [done| |].
    + apply Forall_forall. intros [c ks] Hc. cbn.
      apply no_keyword. intros kw' Hkw'. by eapply Hbefore.
    + cbn. apply existsb_exists. exists kw.
      split; [by apply list_elem_of_In|done].
  - intros Hnone. unfold get_category_from_query.
    rewrite find_none; [done|].
    apply Forall_forall. intros [c ks] Hc. cbn.
    apply no_keyword. intros kw' Hkw'. by eapply Hnone.
  - unfold get_category_from_query.
    destruct (List.find _ categories) as [ck|] eqn:E.
    + apply find_elem in E as [Hin _].
      apply (list_elem_of_fmap_2 fst) in Hin.
      revert Hin. generalize (ck.1). intros c Hc.
      unfold categories in Hc. cbn [fmap list_fmap fst] in Hc.
      repeat (apply elem_of_cons in Hc as [->|Hc]; [by_computation|]).
      by apply elem_of_nil in Hc.
    + by_computation.
Qed.

(** A query with a keyword of laptop and one of fashion: laptop wins. *)
Lemma X1_witness :
  let R := Concrete.runtime None in
  get_category_from_query (u "Dell Laptop Bag") = u "laptop".
Proof.
  intros R.
  refine (proj1 (X1_category_priority (u "Dell Laptop Bag"))
            [nth 0 categories ([], [])] (u "laptop")
            (nth 1 categories ([], [])).2 (drop 2 categories) _ _ _).
  - reflexivity.
  - exists (u "laptop"). split; [|reflexivity].
    by_computation.
  - intros c ks kw Hc%list_elem_of_singleton Hkw. injection Hc as -> ->.
    revert kw Hkw. apply Forall_forall. by_computation.
Defined.

Section Brand.
Context `{Runtime}.

Lemma split_aux_word cur w after :
  cur <> [] -> Forall (fun c => isspace c = false) w -> ends_word after ->
  head (split_ws_aux cur (w ++ after)) = Some (rev cur ++ w).
Proof.
  intros Hcur Hw Hafter. revert cur Hcur.
  induction Hw as [|c w Hc _ IH]; intros cur Hcur.
  - rewrite app_nil_r. cbn [app].
    destruct after as [|c after]; cbn [split_ws_aux].
    + by destruct cur.
    + cbn in Hafter. rewrite Hafter. by destruct cur.
  - cbn [app split_ws_aux]. rewrite Hc.
    rewrite IH by done. cbn [rev]. by rewrite <- app_assoc.
Qed.

(** The first token of a text: what stands between the leading
    whitespace and the next whitespace. *)
Lemma split_first_word ws w after :
  Forall (fun c => isspace c = true) ws -> w <> [] ->
  Forall (fun c => isspace c = false) w -> ends_word after ->
  head (split (ws ++ w ++ after)) = Some w.
Proof.
  intros Hws Hne Hw Hafter. unfold split.
  induction Hws as [|c ws Hc _ IH]; cbn [app split_ws_aux].
  - destruct w as [|c w]; [done|].
    apply Forall_cons in Hw as [Hc Hw].
    cbn [app split_ws_aux]. rewrite Hc.
    by rewrite split_aux_word.
  - by rewrite Hc.
Qed.

Lemma split_all_space s :
  Forall (fun c => isspace c = true) s -> split s = [].
Proof.
  unfold split. induction 1 as [|c s Hc _ IH]; [done|].
  cbn [split_ws_aux]. by rewrite Hc.
Qed.

Lemma split_token_nonempty s cur t : t ∈ split_ws_aux cur s -> t <> [].
Proof.
  revert cur. induction s as [|c s IH]; intros cur; cbn [split_ws_aux].
  - destruct cur as [|x cur]; [by intros ?%elem_of_nil|].
    intros ->%list_elem_of_singleton. cbn. by destruct (rev cur).
  - destruct (isspace c); [|apply IH].
    destruct cur as [|x cur]; [apply IH|].
    intros [->|Ht]%elem_of_cons; [|by eapply IH].
    cbn. by destruct (rev cur).
Qed.
End Brand.

(** X2.  A title that holds a known brand, letter case ignored, gets
    that brand in the spelling of the list; when it holds several, the
    one that comes first in the list wins, wherever they stand in the
    title. *)
Theorem X2_known_brand `{Runtime} (title : pystr)
    (before : list pystr) (brand : pystr) (after : list pystr) :
  title <> [] ->
  brands = before ++ brand :: after ->
  contains (upper brand) (upper title) = true ->
  (forall b, b ∈ before -> contains (upper b) (upper title) = false) ->
  extract_brand_from_title title = brand.
Proof.
  intros Hne Hlist Hbrand Hbefore. unfold extract_brand_from_title.
  destruct title as [|c title]; [done|].
  rewrite Hlist, find_first; [done| |done].
  by apply Forall_forall.
Qed.

(** Oppo stands late in the title and Nokia early: Nokia comes after
    Oppo in the list, so the brand is Oppo. *)
Lemma X2_witness :
  let R := Concrete.runtime None in
  extract_brand_from_title (u "Case for Nokia and OPPO phones") = u "Oppo".
Proof.
  intros R.
  apply (X2_known_brand _ (take 6 brands) (u "Oppo") (drop 7 brands)).
  - done.
  - reflexivity.
  - reflexivity.
  - apply Forall_forall. by_computation.
Defined.

(** X3.  The brand is never the empty string.  For a title without a
    known brand it is the first word of the title, that is what stands
    between the leading whitespace and the next whitespace, and [Brand]
    when the title is empty or all whitespace. *)
Theorem X3_brand_first_word `{Runtime} (title : pystr) :
  extract_brand_from_title title <> []
  /\ ((forall b, b ∈ brands -> contains (upper b) (upper title) = false) ->
      (Forall (fun c => isspace c = true) title ->
       extract_brand_from_title title = u "Brand")
      /\ (forall ws w after,
            title = ws ++ w ++ after ->
            Forall (fun c => isspace c = true) ws -> w <> [] ->
            Forall (fun c => isspace c = false) w -> ends_word after ->
            extract_brand_from_title title = w)).
Proof.
  split.
  - unfold extract_brand_from_title.
    destruct title as [|c title]; [done|].
    destruct (List.find _ brands) as [b|] eqn:E.
    + apply find_elem in E as [Hb _]. revert b Hb.
      apply Forall_forall. by_computation.
    + destruct (split (c :: title)) as [|w l] eqn:Es; [done|].
      apply (split_token_nonempty (c :: title) [] w).
      unfold split in Es. rewrite Es. apply list_elem_of_here.
  - intros Hnone.
    assert (List.find (fun brand => contains (upper brand) (upper title)) brands
            = None) as Hfind.
    { apply find_none, Forall_forall. exact Hnone. }
    split.
    + intros Hspace. unfold extract_brand_from_title.
      destruct title as [|c title]; [done|].
      by rewrite Hfind, split_all_space.
    + intros ws w after -> Hws Hw Hnsp Hafter.
      unfold extract_brand_from_title.
      destruct (ws ++ w ++ after) as [|c t] eqn:Et.
      { destruct ws, w; done. }
      rewrite Hfind.
      pose proof (split_first_word ws w after Hws Hw Hnsp Hafter) as Hhead.
      rewrite Et in Hhead. by destruct (split (c :: t)); simplify_eq/=.
Qed.

(** A title that starts with spaces and names no known brand. *)
Lemma X3_witness :
  let R := Concrete.runtime None in
  extract_brand_from_title (u "  Redmi Note 12") = u "Redmi"
  /\ extract_brand_from_title (u "   ") = u "Brand".
Proof.
  intros R.
  destruct (X3_brand_first_word (u "  Redmi Note 12")) as [_ Hword].
  destruct (X3_brand_first_word (u "   ")) as [_ Hspace].
  split.
  - apply (proj2 (Hword ltac:(apply Forall_forall; by_computation))
             (u "  ") (u "Redmi") (u " Note 12")).
    + reflexivity.
    + by_computation.
    + done.
    + by_computation.
    + reflexivity.
  - apply (proj1 (Hspace ltac:(apply Forall_forall; by_computation))).
    by_computation.
Defined.

(** ** Decimal digits of an [int] *)
Section Digits.
Context `{Runtime}.

Lemma int_digits_app a x y :
  int_digits a (x ++ y) = (r ← int_digits a x; int_digits r y).
Proof.
  revert a. induction x as [|c x IH]; intros a; [done|].
  cbn [app int_digits]. destruct (decimal c); [apply IH|done].
Qed.

Lemma decimal_digit_char d : 0 <= d <= 9 -> decimal (digit_char d) = Some d.
Proof.
  intros Hd. unfold digit_char. rewrite decimal_ascii by lia.
  destruct (N.leb_spec 48 (48 + Z.to_N d)); [|lia].
  destruct (N.leb_spec (48 + Z.to_N d) 57); [|lia].
  cbn. f_equal. lia.
Qed.

Lemma digit_char_range d : 0 <= d <= 9 -> (48 <= digit_char d <= 57)%N.
Proof. intros Hd. unfold digit_char. lia. Qed.

Lemma str_of_pos_aux_digits fuel n acc :
  0 <= n < 2 ^ Z.of_nat fuel -> (0 < fuel)%nat ->
  exists ds,
    str_of_pos_aux fuel n acc = ds ++ acc /\ ds <> []
    /\ (length ds <= fuel)%nat
    /\ Forall (fun c => (48 <= c <= 57)%N) ds
    /\ forall a, int_digits a ds = Ok (a * 10 ^ Z.of_nat (length ds) + n).
Proof.
  revert n acc. induction fuel as [|fuel IH]; intros n acc Hn Hfuel.
  - lia.
  - cbn [str_of_pos_aux]. destruct (Z.ltb_spec n 10) as [Hlt|Hge].
    + exists [digit_char n]. split; [done|]. split; [done|].
      split; [cbn; lia|]. split.
      * constructor; [|done]. apply digit_char_range. lia.
      * intros a. cbn [int_digits]. rewrite decimal_digit_char by lia.
        cbn. f_equal. lia.
    + destruct (IH (n / 10) (digit_char (n mod 10) :: acc))
        as (ds & Hds & Hne & Hlen & Hall & Hint).
      { split; [apply Z.div_pos; lia|].
        apply Z.div_lt_upper_bound; [lia|].
        rewrite Nat2Z.inj_succ, Z.pow_succ_r in Hn by lia. lia. }
      { destruct fuel; [cbn in Hn; lia|lia]. }
      exists (ds ++ [digit_char (n mod 10)]).
      split; [by rewrite Hds, <- app_assoc|].
      split; [by destruct ds|].
      split; [rewrite length_app; cbn; lia|]. split.
      * apply Forall_app. split; [done|]. constructor; [|done].
        apply digit_char_range. pose proof (Z.mod_pos_bound n 10). lia.
      * intros a. rewrite int_digits_app, Hint. cbn [mbind res_bind int_digits].
        rewrite decimal_digit_char by (pose proof (Z.mod_pos_bound n 10); lia).
        f_equal. rewrite length_app. cbn [length].
        rewrite Nat2Z.inj_add, Z.pow_add_r by lia.
        pose proof (Z.div_mod n 10). lia.
Qed.

(** [str(n)] of an [int] that is not negative is a string of ASCII
    digits, and [int] reads it back when they are few enough. *)
Lemma str_of_int_digits n :
  0 <= n < 2 ^ 639 ->
  str_of_int n <> []
  /\ Forall (fun c => (48 <= c <= 57)%N) (str_of_int n)
  /\ int (str_of_int n) = Ok n.
Proof.
  intros Hn. unfold str_of_int.
  destruct (Z.ltb_spec n 0); [lia|].
  destruct (str_of_pos_aux_digits (S (Z.to_nat (Z.log2 n))) n [])
    as (ds & Hds & Hne & Hlen & Hall & Hint).
  { split; [lia|]. rewrite Nat2Z.inj_succ, Z2Nat.id by apply Z.log2_nonneg.
    destruct (Z.eq_dec n 0) as [->|]; [done|].
    apply Z.log2_spec. lia. }
  { lia. }
  rewrite Hds, app_nil_r. split; [done|]. split; [done|].
  assert (Z.log2 n < 639) as Hlog.
  { destruct (Z.eq_dec n 0) as [->|]; [done|].
    apply Z.log2_lt_pow2; lia. }
  unfold int. destruct ds as [|d ds]; [done|].
  rewrite few_digits by lia. by rewrite Hint.
Qed.
End Digits.

(** ** The returned record as a whole *)
Section Record.
Context `{Runtime}.

Lemma returned_record c q p :
  extract_product_info c q = Some p ->
  exists t sp m rt,
    title_of c = Some t /\ t <> [] /\ price_of c = Ok (Some sp) /\ 0 < sp
    /\ mrp_of c (Some sp) = Ok m /\ rating_of c = Ok rt
    /\ add_discount
         (add_defaults q (fields_record (Some t) (Some sp) m
                            (image_of c) (url_of c) rt)) = Ok p.
Proof.
  intros Hp.
  destruct (extract_product_info_gate _ _ _ Hp)
    as (t & sp & Ht & Hne & _ & Hprice & Hpos & _).
  apply extract_product_info_inv in Hp as [Hb _].
  apply extract_body_inv in Hb as (sp' & m & rt & Hsp' & Hm & Hrt & Hd & _).
  rewrite Hprice in Hsp'. injection Hsp' as <-.
  rewrite Ht in Hd. by exists t, sp, m, rt.
Qed.

Lemma title_or_fields t sp m img url rt default :
  title_or (fields_record (Some t) sp m img url rt) default = t.
Proof. unfold title_or. by rewrite fields_title. Qed.

Lemma add_defaults_derived q d :
  let r := add_defaults q d in
  r !! "productId"
  = Some (VStr (u "live_" ++ str_of_int (Z.abs (hash (title_or d q)))))
  /\ r !! "description"
     = Some (VStr (u "Real-time " ++ q
                   ++ u " product from Flipkart with latest pricing and availability."))
  /\ r !! "inStock" = Some (VBool true)
  /\ r !! "category" = Some (VStr (get_category_from_query q))
  /\ r !! "brand" = Some (VStr (extract_brand_from_title (title_or d [])))
  /\ r !! "availability" = Some (VStr (u "In Stock"))
  /\ r !! "source" = Some (VStr (u "flipkart_live")).
Proof.
  cbn zeta. unfold add_defaults.
  repeat split;
    repeat (rewrite lookup_insert_ne by done); by rewrite lookup_insert_eq.
Qed.

(** Keys of the record of the six extractions. *)
Lemma fields_record_keys t sp m img url rt k :
  is_Some (fields_record t sp m img url rt !! k) ->
  k ∈ ["title"; "sellingPrice"; "mrp"; "imageUrl"; "url"; "flipkartUrl";
       "rating"]%string.
Proof.
  unfold fields_record, set_opt. intros Hk.
  destruct (decide (k ∈ ["title"; "sellingPrice"; "mrp"; "imageUrl"; "url";
                         "flipkartUrl"; "rating"]%string)) as [|Hnot]; [done|].
  exfalso. rewrite !not_elem_of_cons in Hnot.
  destruct Hnot as (?&?&?&?&?&?&?&_).
  destruct t, sp, m, img, url, rt; cbn in Hk;
    repeat (rewrite lookup_insert_ne in Hk by done);
    rewrite lookup_empty in Hk; by destruct Hk.
Qed.
End Record.

Section Record_fields.
Context `{Runtime}.

(** The nine fields every returned record holds. *)
Lemma returned_record_fields c q p :
  extract_product_info c q = Some p ->
  exists t sp,
    p !! "title" = Some (VStr t)
    /\ p !! "sellingPrice" = Some (VInt sp)
    /\ p !! "productId"
       = Some (VStr (u "live_" ++ str_of_int (Z.abs (hash t))))
    /\ p !! "brand" = Some (VStr (extract_brand_from_title t))
    /\ p !! "category" = Some (VStr (get_category_from_query q))
    /\ p !! "description"
       = Some (VStr (u "Real-time " ++ q
                     ++ u " product from Flipkart with latest pricing and availability."))
    /\ p !! "inStock" = Some (VBool true)
    /\ p !! "availability" = Some (VStr (u "In Stock"))
    /\ p !! "source" = Some (VStr (u "flipkart_live")).
Proof.
  intros Hp.
  destruct (returned_record _ _ _ Hp)
    as (t & sp & m & rt & _ & _ & _ & _ & _ & _ & Hd).
  pose proof (fun k => add_discount_other _ _ k Hd) as Hother.
  destruct (add_defaults_derived q
              (fields_record (Some t) (Some sp) m (image_of c) (url_of c) rt))
    as (Hid & Hdesc & Hstock & Hcat & Hbrand & Havail & Hsrc).
  rewrite !title_or_fields in *.
  exists t, sp. rewrite !Hother by done.
  split.
  { rewrite add_defaults_other, fields_title; [done|].
    unfold extracted_keys. apply list_elem_of_here. }
  split.
  { rewrite add_defaults_other, fields_sellingPrice; [done|].
    unfold extracted_keys. apply list_elem_of_further, list_elem_of_here. }
  by repeat split.
Qed.
End Record_fields.

(** X4.  The derived fields of a returned record.  The identifier is
    [live_] followed by the decimal digits, without a sign, of the
    absolute value of the hash of the title (never of the query: a
    returned record has a title); the brand is read from the title, the
    category and the description from the query; [inStock],
    [availability] and [source] are constants. *)
Theorem X4_derived_fields `{Runtime} (container : node) (query : pystr)
    (p : Product) :
  extract_product_info container query = Some p ->
  exists title digits,
    p !! "title" = Some (VStr title)
    /\ p !! "productId" = Some (VStr (u "live_" ++ digits))
    /\ digits <> [] /\ Forall (fun c => (48 <= c <= 57)%N) digits
    /\ int digits = Ok (Z.abs (hash title))
    /\ p !! "brand" = Some (VStr (extract_brand_from_title title))
    /\ p !! "category" = Some (VStr (get_category_from_query query))
    /\ p !! "description"
       = Some (VStr (u "Real-time " ++ query
                     ++ u " product from Flipkart with latest pricing and availability."))
    /\ p !! "inStock" = Some (VBool true)
    /\ p !! "availability" = Some (VStr (u "In Stock"))
    /\ p !! "source" = Some (VStr (u "flipkart_live")).
Proof.
  intros Hp.
  destruct (returned_record_fields _ _ _ Hp)
    as (t & sp & Ht & _ & Hid & Hrest).
  assert (0 <= Z.abs (hash t) < 2 ^ 639) as Hhash.
  { pose proof (hash_range t).
    assert (2 ^ 63 < 2 ^ 639) by (by apply Z.pow_lt_mono_r).
    lia. }
  destruct (str_of_int_digits (Z.abs (hash t)) Hhash)
    as (Hne & Hdigits & Hint).
  exists t, (str_of_int (Z.abs (hash t))).
  do 5 (split; [done|]). exact Hrest.
Qed.

Lemma X4_witness :
  let R := Concrete.runtime None in
  exists p, extract_product_info Examples.listing Examples.query = Some p
            /\ p !! "brand" = Some (VStr (u "Redmi"))
            /\ p !! "category" = Some (VStr (u "mobile")).
Proof.
  intros R.
  assert (is_Some (extract_product_info Examples.listing Examples.query))
    as [p E] by by_computation.
  exists p. split; [exact E|].
  destruct (X4_derived_fields _ _ _ E)
    as (t & ds & Ht & _ & _ & _ & _ & Hbrand & Hcat & _).
  assert (Some p ≫= (.!! "title") = Some (VStr (u "Redmi Note 12"))) as Ht'
    by (rewrite <- E; vm_compute; reflexivity).
  cbn in Ht'. rewrite Ht' in Ht. injection Ht as <-.
  split; [exact Hbrand|exact Hcat].
Defined.

(** X5.  The keys of a returned record: never a key outside the fifteen
    of the record, and always the title, the selling price and the seven
    derived fields. *)
Theorem X5_record_keys `{Runtime} (container : node) (query : pystr)
    (p : Product) :
  extract_product_info container query = Some p ->
  (forall k, is_Some (p !! k) -> k ∈ record_keys)
  /\ (forall k, k ∈ constant_keys -> is_Some (p !! k)).
Proof.
  intros Hp. split.
  - destruct (returned_record _ _ _ Hp)
      as (t & sp & m & rt & _ & _ & _ & _ & _ & _ & Hd).
    intros k Hk.
    destruct (decide (k ∈ record_keys)) as [|Hnot]; [done|]. exfalso.
    unfold record_keys in Hnot. rewrite !not_elem_of_cons in Hnot.
    destruct Hnot as (?&?&?&?&?&?&?&?&?&?&?&?&?&?&?&_).
    rewrite (add_discount_other _ _ k Hd) in Hk by done.
    unfold add_defaults in Hk.
    repeat (rewrite lookup_insert_ne in Hk by done).
    apply fields_record_keys in Hk.
    rewrite !elem_of_cons, elem_of_nil in Hk.
    repeat (destruct Hk as [->|Hk]; [done|]). done.
  - destruct (returned_record_fields _ _ _ Hp)
      as (t & sp & ? & ? & ? & ? & ? & ? & ? & ? & ?).
    intros k Hk. unfold constant_keys in Hk.
    rewrite !elem_of_cons, elem_of_nil in Hk.
    repeat (destruct Hk as [->|Hk]; [eauto|]). done.
Qed.

Lemma X5_witness :
  let R := Concrete.runtime None in
  exists p, extract_product_info Examples.listing Examples.query = Some p
            /\ p !! "price" = None /\ is_Some (p !! "source").
Proof.
  intros R.
  assert (is_Some (extract_product_info Examples.listing Examples.query))
    as [p E] by by_computation.
  exists p. split; [exact E|].
  destruct (X5_record_keys _ _ _ E) as [Honly Halways].
  split.
  - destruct (p !! "price") as [v|] eqn:Ev; [|done].
    assert ("price"%string ∈ record_keys) as Hin by (apply Honly; eauto).
    revert Hin. unfold record_keys.
    rewrite !elem_of_cons, elem_of_nil. intros Hin.
    repeat (destruct Hin as [Hin|Hin]; [discriminate|]). done.
  - apply Halways. by_computation.
Defined.

Section Url.
Context `{Runtime}.

Lemma returned_record_url c q p :
  extract_product_info c q = Some p ->
  p !! "url" = VStr <$> url_of c /\ p !! "flipkartUrl" = VStr <$> url_of c.
Proof.
  intros [Hb _]%extract_product_info_inv.
  apply extract_body_inv in Hb as (sp & m & rt & _ & _ & _ & _ & Hk).
  rewrite !Hk by (unfold extracted_keys; rewrite ?elem_of_cons; auto 10).
  by rewrite fields_url, fields_flipkartUrl.
Qed.

Lemma rewrite_product_url_cases href :
  (forall rest, href = 47%N :: rest ->
     rewrite_product_url href = u "https://www.flipkart.com/" ++ rest)
  /\ ((forall rest, href <> 47%N :: rest) -> rewrite_product_url href = href).
Proof.
  unfold rewrite_product_url. change (u "/") with [47%N].
  rewrite startswith_one. split.
  - intros rest ->. by rewrite N.eqb_refl.
  - intros Hno. destruct href as [|c href]; [done|].
    destruct (N.eqb_spec 47 c) as [<-|Hne]; [|done].
    by destruct (Hno href).
Qed.

(** The element of a search for [a] with [href=True] has the attribute. *)
Lemma find_anchor c name attrs contents :
  find c (Strainer (Some (u "a")) [(u "href", Present)] None)
  = Some (Tag name attrs contents) ->
  is_Some (get attrs (u "href")).
Proof.
  intros [_ Hkeep]%find_Some.
  cbn [keeps s_name s_attrs s_string forallb] in Hkeep.
  rewrite !andb_true_r in Hkeep.
  apply andb_prop in Hkeep as [_ Hattr].
  unfold attr_matches in Hattr. cbn [fst snd] in Hattr.
  by destruct (get attrs (u "href")).
Qed.
End Url.

(** X6.  The product link of a returned record.  [url] and
    [flipkartUrl] hold the same value; they are absent exactly when the
    container has no [a] element with an [href].  The value is the
    [href] of the first such element, prefixed with
    [https://www.flipkart.com] when it starts with a slash and unchanged
    otherwise: a protocol-relative link is treated like a root-relative
    one, and an empty [href] is stored as it is. *)
Theorem X6_product_url `{Runtime} (container : node) (query : pystr)
    (p : Product) :
  extract_product_info container query = Some p ->
  let anchor :=
    find container (Strainer (Some (u "a")) [(u "href", Present)] None) in
  p !! "flipkartUrl" = p !! "url"
  /\ (anchor = None -> p !! "url" = None)
  /\ (forall name attrs contents,
        anchor = Some (Tag name attrs contents) ->
        exists href,
          get attrs (u "href") = Some href
          /\ (forall rest, href = 47%N :: rest ->
                p !! "url"
                = Some (VStr (u "https://www.flipkart.com/" ++ rest)))
          /\ ((forall rest, href <> 47%N :: rest) ->
              p !! "url" = Some (VStr href))).
Proof.
  intros Hp anchor.
  destruct (returned_record_url _ _ _ Hp) as [Hurl Hflip].
  split; [by rewrite Hurl, Hflip|]. split.
  - intros Hnone. rewrite Hurl. unfold url_of. subst anchor. by rewrite Hnone.
  - intros name attrs contents Hsome.
    destruct (find_anchor _ _ _ _ Hsome) as [href Hhref].
    exists href. split; [done|].
    rewrite Hurl. unfold url_of. subst anchor. rewrite Hsome, Hhref. cbn.
    destruct (rewrite_product_url_cases href) as [Hslash Hother].
    split.
    + intros rest Hrest. by rewrite (Hslash rest Hrest).
    + intros Hno. by rewrite (Hother Hno).
Qed.

(** The link of the listing of the examples. *)
Lemma X6_witness :
  let R := Concrete.runtime None in
  exists p, extract_product_info Examples.listing Examples.query = Some p
            /\ p !! "url"
               = Some (VStr (u "https://www.flipkart.com/redmi-note-12/p/itm1")).
Proof.
  intros R.
  assert (is_Some (extract_product_info Examples.listing Examples.query))
    as [p E] by by_computation.
  exists p. split; [exact E|].
  destruct (proj2 (proj2 (X6_product_url _ _ _ E))
              (u "a") [(u "class", u "title");
                       (u "href", u "/redmi-note-12/p/itm1")]
              [Examples.text "Redmi Note 12"])
    as (href & Hhref & Hslash & _).
  - vm_compute. reflexivity.
  - injection Hhref as <-. apply (Hslash (u "redmi-note-12/p/itm1")).
    reflexivity.
Defined.

(** X7.  In a returned record the selling price is a positive integer,
    and an [mrp], when there is one, is strictly greater; a record with
    an [mrp] always has a [discount], a record without has none. *)
Theorem X7_prices_ordered `{Runtime} (container : node) (query : pystr)
    (p : Product) :
  extract_product_info container query = Some p ->
  exists sp,
    p !! "sellingPrice" = Some (VInt sp) /\ 0 < sp
    /\ (forall v, p !! "mrp" = Some v ->
          exists m d, v = VInt m /\ sp < m
                      /\ p !! "discount" = Some (VInt d))
    /\ (p !! "mrp" = None -> p !! "discount" = None).
Proof.
  intros Hp.
  destruct (extract_product_info_discount _ _ _ Hp)
    as (sp & Hsp & Hpos & [[Hm Hd]|(m & x & Hm & Hlt & _ & Hd)]);
    exists sp; (split; [done|]); (split; [done|]); rewrite Hm.
  - by split.
  - split; [|done]. intros v [= <-]. by exists m, x.
Qed.

Lemma X7_witness :
  let R := Concrete.runtime None in
  exists p, extract_product_info Examples.listing_mrp_first Examples.query
            = Some p
            /\ exists sp m, p !! "sellingPrice" = Some (VInt sp)
                             /\ p !! "mrp" = Some (VInt m) /\ 0 < sp < m.
Proof.
  intros R.
  assert (extract_product_info Examples.listing_mrp_first Examples.query
          ≫= (.!! "mrp") = Some (VInt 19999)) as Hm
    by (vm_compute; reflexivity).
  destruct (extract_product_info Examples.listing_mrp_first Examples.query)
    as [p|] eqn:E; [|discriminate].
  cbn in Hm. exists p. split; [done|].
  destruct (X7_prices_ordered _ _ _ E) as (sp & Hsp & Hpos & Hmrp & _).
  destruct (Hmrp _ Hm) as (m & d & [= <-] & Hlt & _).
  exists sp, 19999. by repeat split.
Defined.

Section Query.
Context `{Runtime}.

(** With a title in the record, the query decides [category] and
    [description] only. *)
Lemma add_defaults_query q1 q2 d t k :
  d !! "title" = Some (VStr t) ->
  k <> "description"%string -> k <> "category"%string ->
  add_defaults q1 d !! k = add_defaults q2 d !! k.
Proof.
  intros Ht Hd Hc. unfold add_defaults, title_or. rewrite Ht.
  rewrite !lookup_insert. repeat case_decide; by simplify_eq.
Qed.

(** The discount step reads [mrp] and [sellingPrice] only. *)
Lemma add_discount_agree d1 d2 p1 :
  d1 !! "mrp" = d2 !! "mrp" -> d1 !! "sellingPrice" = d2 !! "sellingPrice" ->
  add_discount d1 = Ok p1 ->
  exists p2, add_discount d2 = Ok p2
             /\ forall k, d1 !! k = d2 !! k -> p1 !! k = p2 !! k.
Proof.
  unfold add_discount, truthy_get. intros <- <-.
  destruct (_ && _).
  - destruct (d1 !! "mrp") as [[|m| |]|]; try done.
    destruct (d1 !! "sellingPrice") as [[|s| |]|]; try done.
    destruct (discount_of m s) as [x|]; [|done]. cbn.
    intros [= <-]. eexists. split; [done|].
    intros k Hk. rewrite !lookup_insert. by case_decide.
  - intros [= <-]. by exists d2.
Qed.
End Query.

(** X8.  The query decides the [category] and the [description] of a
    record and nothing else: whether a container yields a record does
    not depend on the query, and the records for two queries agree on
    every other key. *)
Theorem X8_query_independence `{Runtime} (container : node)
    (query1 query2 : pystr) (p1 : Product) :
  extract_product_info container query1 = Some p1 ->
  exists p2,
    extract_product_info container query2 = Some p2
    /\ forall k, k <> "description"%string -> k <> "category"%string ->
                 p1 !! k = p2 !! k.
Proof.
  intros Hp.
  destruct (returned_record _ _ _ Hp)
    as (t & sp & m & rt & Ht & _ & Hsp & _ & Hm & Hrt & Hd).
  destruct (extract_product_info_inv _ _ _ Hp) as (_ & Htitle & Hprice).
  set (f := fields_record (Some t) (Some sp) m (image_of container)
              (url_of container) rt) in *.
  assert (f !! "title" = Some (VStr t)) as Hft by apply fields_title.
  destruct (add_discount_agree (add_defaults query1 f)
              (add_defaults query2 f) p1) as (p2 & Hd2 & Hagree); [..|done|].
  { by apply (add_defaults_query _ _ _ t). }
  { by apply (add_defaults_query _ _ _ t). }
  assert (forall k, k <> "description"%string -> k <> "category"%string ->
                    p1 !! k = p2 !! k) as Hsame.
  { intros k ??. apply Hagree. by apply (add_defaults_query _ _ _ t). }
  exists p2. split; [|exact Hsame].
  unfold extract_product_info, extract_body.
  rewrite extract_fields_view, Hsp. cbn. rewrite Hm. cbn. rewrite Hrt. cbn.
  rewrite Ht. fold f. rewrite Hd2.
  unfold truthy_get in *.
  rewrite <- !Hsame by done. by rewrite Htitle, Hprice.
Qed.

(** The listing of the examples under another query. *)
Lemma X8_witness :
  let R := Concrete.runtime None in
  exists p1 p2,
    extract_product_info Examples.listing Examples.query = Some p1
    /\ extract_product_info Examples.listing (u "laptop bag") = Some p2
    /\ p1 !! "productId" = p2 !! "productId".
Proof.
  intros R.
  assert (is_Some (extract_product_info Examples.listing Examples.query))
    as [p1 E] by by_computation.
  destruct (X8_query_independence _ _ (u "laptop bag") _ E)
    as (p2 & E2 & Hsame).
  exists p1, p2. split; [exact E|]. split; [exact E2|].
  by apply Hsame.
Defined.

(** ** The title *)
Section Title.
Context `{Runtime}.

Lemma lstrip_head s c rest : lstrip s = c :: rest -> isspace c = false.
Proof.
  induction s as [|x s IH]; cbn [lstrip]; [done|].
  destruct (isspace x) eqn:Ex; [exact IH|]. by intros [= <- _].
Qed.

Lemma lstrip_suffix s : lstrip s `suffix_of` s.
Proof.
  induction s as [|x s IH]; cbn [lstrip]; [done|].
  destruct (isspace x); [by apply suffix_cons_r|done].
Qed.

(** A stripped text does not begin with whitespace. *)
Lemma strip_head s c rest : strip s = c :: rest -> isspace c = false.
Proof.
  unfold strip. intros Hs.
  destruct (lstrip_suffix (rev (lstrip s))) as [k Hk].
  apply (f_equal (@rev N)) in Hk. rewrite rev_involutive, rev_app_distr in Hk.
  rewrite Hs in Hk. cbn [app] in Hk. by apply lstrip_head in Hk.
Qed.

Lemma stripped_strings_head n t : t ∈ stripped_strings n ->
  exists c rest, t = c :: rest /\ isspace c = false.
Proof.
  unfold stripped_strings. intros (d & Hd & Ht)%list_elem_of_omap.
  destruct d as [s| |]; [|done..].
  destruct (strip s) as [|c rest] eqn:Es; [done|].
  injection Ht as <-. exists c, rest. split; [done|].
  by eapply strip_head.
Qed.

Lemma get_text_strip_head n c rest :
  get_text_strip n = c :: rest -> isspace c = false.
Proof.
  unfold get_text_strip.
  destruct (stripped_strings n) as [|t l] eqn:E; [done|].
  destruct (stripped_strings_head n t) as (c' & rest' & -> & Hc).
  { rewrite E. apply list_elem_of_here. }
  cbn. by intros [= <- _].
Qed.

Lemma returned_record_title c q p :
  extract_product_info c q = Some p ->
  exists t, title_of c = Some t /\ t <> [] /\ p !! "title" = Some (VStr t).
Proof.
  intros Hp.
  destruct (returned_record _ _ _ Hp)
    as (t & sp & m & rt & Ht & Hne & _ & _ & _ & _ & Hd).
  exists t. split; [done|]. split; [done|].
  rewrite (add_discount_other _ _ _ Hd) by done.
  rewrite add_defaults_other, fields_title; [done|].
  unfold extracted_keys. apply list_elem_of_here.
Qed.
End Title.

(** X15.  The title of a returned record is the text of the title
    element with every string stripped and the empty ones left out, cut
    to its first 100 characters.  It has between 1 and 100 characters
    and does not begin with whitespace. *)
Theorem X15_title `{Runtime} (container : node) (query : pystr)
    (p : Product) :
  extract_product_info container query = Some p ->
  exists e title,
    title_elem container = Some e
    /\ title = take 100 (concat (stripped_strings e))
    /\ p !! "title" = Some (VStr title)
    /\ (1 <= length title <= 100)%nat
    /\ exists c rest, title = c :: rest /\ isspace c = false.
Proof.
  intros Hp.
  destruct (returned_record_title _ _ _ Hp) as (t & Ht & Hne & Hp_title).
  unfold title_of in Ht.
  destruct (title_elem container) as [e|]; [|done].
  destruct (truthy_node e); [|done]. injection Ht as <-.
  exists e, (take 100 (get_text_strip e)).
  split; [done|]. split; [done|]. split; [done|]. split.
  - rewrite length_take. split; [|lia].
    destruct (get_text_strip e); [done|]. cbn. lia.
  - destruct (get_text_strip e) as [|c rest] eqn:E; [done|].
    exists c, (take 99 rest). split; [done|]. by eapply get_text_strip_head.
Qed.

(** The title of the listing of the examples. *)
Lemma X15_witness :
  let R := Concrete.runtime None in
  exists p title,
    extract_product_info Examples.listing Examples.query = Some p
    /\ p !! "title" = Some (VStr title)
    /\ (1 <= length title <= 100)%nat.
Proof.
  intros R.
  assert (is_Some (extract_product_info Examples.listing Examples.query))
    as [p E] by (apply (bool_decide_unpack _); vm_compute; exact I).
  destruct (X15_title _ _ _ E) as (e & title & _ & _ & Ht & Hlen & _).
  by exists p, title.
Defined.

(** ** What price parsing returns *)
Section Parse_price.
Context `{Runtime}.

(** A group that ends the pattern holds what was collected and a run of
    the class. *)
Lemma greedy_group cls s acc g :
  Re.greedy cls true (fun _ g => Some (rev g)) s acc = Some g ->
  exists run, g = rev acc ++ run /\ Forall (fun c => cls c = true) run.
Proof.
  revert acc. induction s as [|c s IH]; intros acc; cbn [Re.greedy].
  - intros [= <-]. exists []. by rewrite app_nil_r.
  - destruct (cls c) eqn:Hc.
    + destruct (Re.greedy cls true _ s (c :: acc)) as [r|] eqn:E.
      * intros [= <-]. apply IH in E as (run & -> & Hrun).
        exists (c :: run). cbn [rev]. rewrite <- app_assoc.
        split; [done|by constructor].
      * intros [= <-]. exists []. by rewrite app_nil_r.
    + intros [= <-]. exists []. by rewrite app_nil_r.
Qed.

Lemma match_here_currency_group s g :
  Re.match_here currency_group s [] = Some g ->
  g <> [] /\ Forall (fun c => digit_or_comma c = true) g.
Proof.
  destruct s as [|r [|c s]]; cbn.
  - done.
  - by destruct (Re.lit RUPEE r).
  - destruct (Re.lit RUPEE r); [|done].
    destruct (digit_or_comma c) eqn:Hc; [|done].
    intros (run & -> & Hrun)%greedy_group. cbn.
    split; [done|by constructor].
Qed.

Lemma search_currency_group s g :
  Re.search currency_group s = Some g ->
  g <> [] /\ Forall (fun c => digit_or_comma c = true) g.
Proof.
  induction s as [|c s IH]; cbn [Re.search].
  - destruct (Re.match_here currency_group [] []) eqn:E; [|done].
    intros [= <-]. by apply match_here_currency_group in E.
  - destruct (Re.match_here currency_group (c :: s) []) eqn:E.
    + intros [= <-]. by apply match_here_currency_group in E.
    + apply IH.
Qed.

Lemma all_commas_removed g :
  forallb (N.eqb 44) g = true -> remove_commas g = [].
Proof.
  unfold remove_commas. induction g as [|c g IH]; [done|].
  cbn [forallb]. intros [Hc%N.eqb_eq Hg]%andb_prop. subst c.
  rewrite filter_cons, decide_False by (intros ?; done). by apply IH.
Qed.

Lemma some_digit g :
  Forall (fun c => digit_or_comma c = true) g ->
  forallb (N.eqb 44) g = false ->
  Exists (fun c => is_Some (decimal c)) g.
Proof.
  induction 1 as [|c g Hc _ IH]; [done|].
  cbn [forallb]. intros [Hne|Hg]%andb_false_iff.
  - apply Exists_cons_hd. unfold digit_or_comma in Hc.
    apply orb_prop in Hc as [Hd%bool_decide_eq_true|Hcomma]; [done|].
    rewrite N.eqb_sym in Hcomma. congruence.
  - apply Exists_cons_tl. by apply IH.
Qed.
End Parse_price.

(** X9.  What price parsing returns, by what the pattern finds first in
    the text: nothing when there is no rupee sign followed by a digit or
    a comma; an error, and only a [ValueError], when the amount found
    holds commas and no digit, or more digits than [int] converts; else
    the number its digits denote, which is never negative. *)
Theorem X9_parse_price_outcomes `{Runtime} (text : pystr) :
  match Re.search currency_group text with
  | None => parse_price text = Ok None
  | Some amount =>
      let digits := Z.of_nat (length (remove_commas amount)) in
      amount <> [] /\ Forall (fun c => digit_or_comma c = true) amount
      /\ if forallb (N.eqb 44) amount
            || (0 <? int_max_str_digits) && (int_max_str_digits <? digits)
         then parse_price text = Raise ValueError
         else parse_price text
              = Ok (Some (decimal_value (omap decimal amount)))
              /\ 0 <= decimal_value (omap decimal amount)
  end.
Proof.
  unfold parse_price.
  destruct (Re.search currency_group text) as [g|] eqn:E; [|done].
  destruct (search_currency_group _ _ E) as [Hne Hall].
  cbv zeta. split; [done|]. split; [done|].
  destruct (forallb (N.eqb 44) g) eqn:Hcommas.
  - by rewrite all_commas_removed.
  - rewrite int_remove_commas by (try done; by apply some_digit).
    change (too_many_digits (length (remove_commas g)))
      with ((0 <? int_max_str_digits)
            && (int_max_str_digits <? Z.of_nat (length (remove_commas g)))).
    cbn [orb].
    destruct (_ && _); [done|].
    split; [done|]. apply decimal_value_nonneg.
Qed.

(** ** The rating *)
Section Rating.
Context `{Runtime}.

End Rating.



Section Envelopes.
Context `{Runtime}.

Lemma empty_success_envelope_eq query max_results :
  <["source" := EStr (u "flipkart_live")]>
    (<["query" := EStr query]>
       (<["total" := EInt (Z.of_nat (length (@nil Product)))]>
          (<["products" := EProducts (slice_to [] max_results)]>
             (<["success" := EBool true]> (∅ : Envelope)))))
  = empty_success_envelope query.
Proof.
  assert (slice_to (@nil Product) max_results = []) as ->.
  { unfold slice_to. by destruct (max_results <? 0); rewrite take_nil. }
  apply map_eq. intros k. unfold empty_success_envelope. cbn.
  repeat (rewrite !lookup_insert; repeat case_decide; subst; try done).
Qed.

(** The two envelopes a search can return. *)
Lemma search_products_cases net query max_results :
  match (search_body net query max_results).2 with
  | Ok _ => search_products net query max_results
            = empty_success_envelope query
  | Raise message => search_products net query max_results
                     = failure_envelope message query
  end.
Proof.
  unfold search_products, search_body.
  destruct (scrape net query max_results _ []) as [req [products|msg]] eqn:E;
    cbn.
  - apply scrape_products in E as ->. apply empty_success_envelope_eq.
  - apply failure_envelope_eq.
Qed.

(** What the pages requested answered. *)
Lemma scrape_trace net q mr pages products req r :
  scrape net q mr pages products = (req, r) ->
  (forall before page after,
     req = before ++ page :: after -> after <> [] ->
     exists text, net q page = Response 200 text)
  /\ match r with
     | Raise message =>
         exists before page,
           req = before ++ [page] /\ net q page = RequestException message
     | Ok _ =>
         forall before page,
           req = before ++ [page] ->
           exists status text, net q page = Response status text
     end.
Proof.
  revert products req r.
  induction pages as [|page pages IH]; intros products req r; cbn [scrape].
  - intros [= <- <-]. split.
    + intros before page after Heq. by destruct before.
    + intros before page Heq. by destruct before.
  - assert (forall (x : Z) before page' after,
              [x] = before ++ page' :: after -> after <> [] -> False) as Hone.
    { intros x [|? [|]] ? after Heq Hne; simplify_eq/=. }
    assert (forall (x : Z) before page', [x] = before ++ [page'] -> page' = x)
      as Hlast.
    { intros x [|? [|]] ? Heq; by simplify_eq/=. }
    destruct (net q page) as [msg|status text] eqn:Enet.
    + intros [= <- <-]. split.
      * intros before page' after Heq Hne. by destruct (Hone _ _ _ _ Heq Hne).
      * by exists [], page.
    + destruct (negb (status =? 200)) eqn:Estatus.
      * intros [= <- <-]. split.
        -- intros before page' after Heq Hne.
           by destruct (Hone _ _ _ _ Heq Hne).
        -- intros before page' ->%Hlast. by exists status, text.
      * apply negb_false_iff, Z.eqb_eq in Estatus. subst status.
        destruct (_ >=? mr).
        -- intros [= <- <-]. split.
           ++ intros before page' after Heq Hne.
              by destruct (Hone _ _ _ _ Heq Hne).
           ++ intros before page' ->%Hlast. by exists 200, text.
        -- destruct (scrape net q mr pages _) as [req' r'] eqn:E.
           intros [= <- <-].
           destruct (IH _ _ _ E) as [Hmid Hend]. split.
           ++ intros [|x before] page' after Heq Hne.
              ** injection Heq as <- _. by exists text.
              ** injection Heq as _ Heq. by eapply Hmid.
           ++ destruct r' as [products'|msg].
              ** intros [|x before] page' Heq.
                 { injection Heq as <- _. by exists 200, text. }
                 injection Heq as _ Heq. by eapply Hend.
              ** destruct Hend as (before & page' & -> & Hraise).
                 by exists (page :: before), page'.
Qed.
End Envelopes.

Section Stops.
Context `{Runtime}.

(** A page that answers with another status than 200, after pages that
    answered with 200. *)
Lemma scrape_stops net q mr before page after status text :
  (forall p, p ∈ before -> exists text, net q p = Response 200 text) ->
  net q page = Response status text -> status <> 200 ->
  0 < mr \/ before = [] ->
  scrape net q mr (before ++ page :: after) [] = (before ++ [page], Ok []).
Proof.
  induction before as [|p before IH]; intros Hnet Hpage Hstatus Hmr; cbn.
  - rewrite Hpage. by destruct (Z.eqb_spec status 200).
  - destruct (Hnet p) as [text' ->]; [apply list_elem_of_here|]. cbn.
    rewrite parse_search_results_nil. cbn.
    destruct Hmr as [Hmr|?]; [|done].
    change (Z.of_nat 0) with 0. rewrite Z.geb_leb.
    destruct (Z.leb_spec mr 0); [lia|].
    rewrite IH; [done| |done|done|by left].
    intros p' Hp'. by apply Hnet, list_elem_of_further.
Qed.

Lemma failure_not_success message query :
  failure_envelope message query <> empty_success_envelope query.
Proof.
  intros Heq. apply (f_equal (.!! "success")) in Heq. by vm_compute in Heq.
Qed.

Lemma failure_envelope_inj m1 m2 query :
  failure_envelope m1 query = failure_envelope m2 query -> m1 = m2.
Proof.
  intros Heq. apply (f_equal (.!! "error")) in Heq.
  unfold failure_envelope in Heq. cbn in Heq.
  rewrite !lookup_insert in Heq. repeat case_decide; by simplify_eq.
Qed.
End Stops.

(** X11.  Whatever the site answers, [search_products] returns one of
    two envelopes: the failure envelope with the message of an
    exception, or the success envelope with no product and a total of
    zero.  No envelope ever carries a product. *)
Theorem X11_two_envelopes `{Runtime} (net : network) (query : pystr)
    (max_results : Z) :
  (search_products net query max_results = empty_success_envelope query
   \/ exists message,
        search_products net query max_results
        = failure_envelope message query)
  /\ search_products net query max_results !! "products"
     = Some (EProducts [])
  /\ search_products net query max_results !! "query" = Some (EStr query).
Proof.
  pose proof (search_products_cases net query max_results) as Hcases.
  destruct ((search_body net query max_results).2) as [e|msg];
    rewrite Hcases.
  - split; [by left|]. split; reflexivity.
  - split; [right; by exists msg|]. split; reflexivity.
Qed.

(** X12.  The envelope is the failure envelope exactly when the last
    page requested raised, and its error is then the message of that
    exception; every page requested before the last one answered with
    status 200.  So nothing is requested after an exception or after a
    status other than 200. *)
Theorem X12_failure_iff_last_request_raised `{Runtime} (net : network)
    (query : pystr) (max_results : Z) :
  let requested := pages_requested net query max_results in
  (forall before page after,
     requested = before ++ page :: after -> after <> [] ->
     exists text, net query page = Response 200 text)
  /\ (forall message,
        search_products net query max_results
        = failure_envelope message query
        <-> exists before page,
              requested = before ++ [page]
              /\ net query page = RequestException message).
Proof.
  intros requested.
  pose proof (search_products_cases net query max_results) as Hcases.
  subst requested. unfold pages_requested, search_body in *.
  destruct (scrape net query max_results _ []) as [req r] eqn:E.
  destruct (scrape_trace _ _ _ _ _ _ _ E) as [Hmid Hend].
  cbn [fst snd] in *. split; [exact Hmid|].
  intros message. split.
  - intros Hfail. destruct r as [products|msg]; cbn in Hcases.
    + rewrite Hcases in Hfail. symmetry in Hfail.
      by apply failure_not_success in Hfail.
    + rewrite Hcases in Hfail. apply failure_envelope_inj in Hfail as ->.
      exact Hend.
  - intros (before & page & -> & Hraise).
    destruct r as [products|msg]; cbn in Hcases.
    + destruct (Hend before page eq_refl) as (status & text & Hresp).
      congruence.
    + destruct Hend as (before' & page' & Heq & Hraise').
      apply app_inj_tail in Heq as [_ ->].
      assert (msg = message) as -> by congruence. exact Hcases.
Qed.

(** The site that cannot be reached. *)
Lemma X12_witness :
  let R := Concrete.runtime None in
  search_products Examples.net_down Examples.query 25
  = failure_envelope (u "connection refused") Examples.query.
Proof.
  intros R.
  apply (proj2 (X12_failure_iff_last_request_raised
                  Examples.net_down Examples.query 25)).
  exists [], 1. split; reflexivity.
Defined.

(** X13.  A status other than 200 is not an error: when a page answers
    with such a status, after pages that answered with 200, the loop
    ends there and the result is the success envelope, the same as for
    a search without results. *)
Theorem X13_other_status_is_success `{Runtime} (net : network)
    (query : pystr) (max_results : Z) (page status : Z) (text : pystr) :
  1 <= page <= pages_to_scrape max_results ->
  (forall p, 1 <= p < page -> exists text, net query p = Response 200 text) ->
  net query page = Response status text ->
  status <> 200 ->
  search_products net query max_results = empty_success_envelope query
  /\ pages_requested net query max_results = seqZ 1 page.
Proof.
  intros Hpage Hbefore Hnet Hstatus.
  assert (scrape net query max_results
            (seqZ 1 (pages_to_scrape max_results)) []
          = (seqZ 1 page, Ok [])) as Hscrape.
  { assert (seqZ 1 (pages_to_scrape max_results)
            = seqZ 1 (page - 1) ++ page :: seqZ (page + 1)
                (pages_to_scrape max_results - page)) as ->.
    { replace (pages_to_scrape max_results)
        with ((page - 1) + (1 + (pages_to_scrape max_results - page)))
        at 1 by lia.
      rewrite seqZ_app by lia.
      rewrite (seqZ_cons (1 + (page - 1))) by lia.
      repeat f_equal; lia. }
    rewrite (scrape_stops _ _ _ _ _ _ status text); [| |done|done|].
    - f_equal. replace (seqZ 1 page) with (seqZ 1 ((page - 1) + 1))
        by (f_equal; lia).
      rewrite seqZ_app by lia. f_equal.
      replace (1 + (page - 1)) with page by lia. reflexivity.
    - intros p Hp%elem_of_seqZ. apply Hbefore. lia.
    - destruct (decide (0 < max_results)) as [|Hle]; [by left|right].
      pose proof (pages_to_scrape_small max_results ltac:(lia)).
      assert (page = 1) as -> by lia. done. }
  pose proof (search_products_cases net query max_results) as Hcases.
  unfold pages_requested, search_body in *. rewrite Hscrape in *.
  by split.
Qed.

(** The site that answers 404. *)
Lemma X13_witness :
  let R := Concrete.runtime None in
  search_products Examples.net_404 Examples.query 25
  = empty_success_envelope Examples.query
  /\ pages_requested Examples.net_404 Examples.query 25 = [1].
Proof.
  intros R.
  apply (X13_other_status_is_success Examples.net_404 Examples.query 25
           1 404 []).
  - by vm_compute.
  - intros p Hp. lia.
  - reflexivity.
  - done.
Defined.


